(** * DPA analyzer: the analysis pipeline of [dpa_analyzer.py]

    A shallow embedding of [DPAAnalyzer] (text extraction, the call to the
    language model, recovery of a result from the model's reply, the
    rule-based fallback scorer and the final structuring of the result) and
    of the playbook of [knowledge_base.py], followed by the properties of
    the pipeline.

    Conventions of the embedding.
    - A Python [str] is the list of its code points ([pystr]).
    - Python values that travel through the pipeline (parsed JSON, result
      dictionaries) are terms of [pyval]; a [dict] is an association list in
      insertion order with distinct keys.
    - A Python float is never computed with here; it is kept symbolically
      ([pyfloat]).
    - Exceptions are values of [exn]; a computation that may raise returns
      [result].  Everything the code catches with [except Exception] is an
      [exn]; [BaseException]s (task cancellation, interpreter exit) are not
      modelled.
    - What the interpreter and the third-party libraries provide and the
      repository does not contain ([str.lower]'s Unicode tables, the PDF and
      DOCX readers, UTF-8 decoding, the HTTP endpoint, the clocks, the
      interpreter's limits on integer literals and on recursion) is
      collected in the record [host]; every statement holds for every host.
    - Standard output is a UTF-8 stream with the default error handling
      ([strict]) that accepts what is written to it: [print] raises
      [UnicodeEncodeError] on a text that holds a surrogate code point and
      does nothing else that the pipeline can observe.  The two [print]s of
      an exception's message ([_perform_ai_analysis] and the first one in the
      handler of [_call_ollama_api]) are left out: such a message is ASCII
      text of the interpreter or of a library.  The [print] of the reply of
      the model is modelled ([print_raw_response]). *)

From Stdlib Require Import Ascii String DecimalString.
From Stdlib Require Import List NArith ZArith Bool Lia.
Import ListNotations.

Set Implicit Arguments.

(** ** Python strings *)

Definition pystr := list N.

(** The code points of an ASCII literal. *)
Definition str (s : string) : pystr :=
  map N_of_ascii (list_ascii_of_string s).
Arguments str s%_string.

(** The same, with every apostrophe of the literal standing for a double
    quote (code point 34): used to write JSON texts. *)
Definition dq (s : string) : pystr :=
  map (fun c => if N.eqb c 39 then 34%N else c) (str s).
Arguments dq s%_string.

Fixpoint str_eqb (a b : pystr) : bool :=
  match a, b with
  | [], [] => true
  | x :: a', y :: b' => N.eqb x y && str_eqb a' b'
  | _, _ => false
  end.

(** [s.startswith(p)] *)
Fixpoint startswith (p s : pystr) : bool :=
  match p, s with
  | [], _ => true
  | x :: p', y :: s' => N.eqb x y && startswith p' s'
  | _ :: _, [] => false
  end.

(** [s.endswith(p)] *)
Definition endswith (p s : pystr) : bool :=
  startswith (rev p) (rev s).

(** [k in s] for strings: [k] occurs as a contiguous substring of [s]. *)
Fixpoint contains (k s : pystr) : bool :=
  startswith k s ||
  match s with
  | [] => false
  | _ :: s' => contains k s'
  end.

(** [s.find(k)]: the lowest index where [k] occurs, or [-1]. *)
Fixpoint find_from (k s : pystr) (i : Z) : Z :=
  if startswith k s then i
  else match s with
       | [] => (-1)%Z
       | _ :: s' => find_from k s' (i + 1)%Z
       end.

Definition find (k s : pystr) : Z := find_from k s 0%Z.

(** [s.rfind(k)]: the highest index where [k] occurs, or [-1]. *)
Fixpoint rfind_from (k s : pystr) (i : Z) : Z :=
  let later := match s with
               | [] => (-1)%Z
               | _ :: s' => rfind_from k s' (i + 1)%Z
               end in
  if (later =? -1)%Z then (if startswith k s then i else (-1)%Z) else later.

Definition rfind (k s : pystr) : Z := rfind_from k s 0%Z.

(** [s[a:b]] with Python's treatment of negative and out-of-range bounds. *)
Definition clip_index (len i : Z) : Z :=
  let i' := if (i <? 0)%Z then (i + len)%Z else i in
  Z.max 0 (Z.min len i').

Definition slice (A : Type) (s : list A) (a b : Z) : list A :=
  let len := Z.of_nat (length s) in
  let a' := clip_index len a in
  let b' := clip_index len b in
  firstn (Z.to_nat (b' - a')) (skipn (Z.to_nat a') s).

(** [s[:n]] *)
Definition slice_to (A : Type) (s : list A) (n : Z) : list A := slice s 0%Z n.

(** [s.replace(old, new)]: occurrences are replaced from the left and do
    not overlap.  [skip] counts the characters of a matched occurrence that
    are still to be passed over. *)
Fixpoint replace_from (old new : pystr) (skip : nat) (s : pystr) : pystr :=
  match s with
  | [] => match skip, old with
          | O, [] => new
          | _, _ => []
          end
  | c :: s' =>
      match skip with
      | S k => replace_from old new k s'
      | O =>
          if startswith old s then
            match old with
            | [] => new ++ c :: replace_from old new 0 s'
            | _ :: old' => new ++ replace_from old new (length old') s'
            end
          else c :: replace_from old new 0 s'
      end
  end.

Definition replace (old new s : pystr) : pystr := replace_from old new 0 s.

(** The characters [str.strip()] removes: those for which
    [str.isspace] holds. *)
Definition isspace (c : N) : bool :=
  ((9 <=? c) && (c <=? 13) || (28 <=? c) && (c <=? 32)
   || (c =? 133) || (c =? 160) || (c =? 5760)
   || (8192 <=? c) && (c <=? 8202)
   || (c =? 8232) || (c =? 8233) || (c =? 8239) || (c =? 8287)
   || (c =? 12288))%N.

Fixpoint lstrip (s : pystr) : pystr :=
  match s with
  | c :: s' => if isspace c then lstrip s' else s
  | [] => []
  end.

Definition rstrip (s : pystr) : pystr := rev (lstrip (rev s)).

(** [s.strip()] *)
Definition strip (s : pystr) : pystr := rstrip (lstrip s).

(** [str(n)] for an integer. *)
Definition str_of_N (n : N) : pystr :=
  str (NilEmpty.string_of_uint (N.to_uint n)).

Definition str_of_Z (z : Z) : pystr :=
  match z with
  | Zneg p => str "-" ++ str_of_N (Npos p)
  | _ => str_of_N (Z.to_N z)
  end.

(** [s.title()] on ASCII text: a letter that follows a letter is put in
    lower case, any other letter in upper case.  The code applies it to the
    category names of the fallback scorer only, which are ASCII. *)
Definition is_upper (c : N) : bool := ((65 <=? c) && (c <=? 90))%N.
Definition is_lower (c : N) : bool := ((97 <=? c) && (c <=? 122))%N.
Definition ascii_lower_char (c : N) : N := if is_upper c then (c + 32)%N else c.
Definition ascii_upper_char (c : N) : N := if is_lower c then (c - 32)%N else c.

Fixpoint title_from (previous_is_cased : bool) (s : pystr) : pystr :=
  match s with
  | [] => []
  | c :: s' =>
      (if previous_is_cased then ascii_lower_char c else ascii_upper_char c)
        :: title_from (is_upper c || is_lower c) s'
  end.

Definition title (s : pystr) : pystr := title_from false s.

(** [s.lower()] on ASCII text; the instance of [str.lower] used wherever a
    statement is evaluated on a concrete ASCII input. *)
Definition ascii_lower (s : pystr) : pystr := map ascii_lower_char s.

(** ** Python values, exceptions *)

(** A float, denoted by a decimal literal that Python's [float] reads
    ([Float (str "0.1")] is [float('0.1')]).  No arithmetic is done on
    floats anywhere in the pipeline. *)
Inductive pyfloat : Type :=
| Float (literal : pystr).

#[warnings="-register-all"]
Inductive pyval : Type :=
| PNone
| PBool (b : bool)
| PInt (z : Z)
| PFloat (f : pyfloat)
| PStr (s : pystr)
| PList (l : list pyval)
| PDict (d : list (pystr * pyval)).

(** [Exception msg] is [Exception(msg)] as the repository raises it.
    [JSONDecodeError msg] is raised by [json.loads]; [msg] is the decoder's
    message without the position that [str(e)] appends (the pipeline only
    prints it).  [OtherError msg] is any other exception below [Exception]
    coming from the interpreter or a library (AttributeError, TypeError,
    UnicodeDecodeError, aiohttp.ClientError, a timeout ...), with
    [msg = str(e)]. *)
Inductive exn : Type :=
| Exception (msg : pystr)
| JSONDecodeError (msg : pystr)
| OtherError (msg : pystr).

(** [str(e)] *)
Definition exn_str (e : exn) : pystr :=
  match e with
  | Exception msg => msg
  | JSONDecodeError msg => msg
  | OtherError msg => msg
  end.

Inductive result (A : Type) : Type :=
| Ok (a : A)
| Raise (e : exn).
Arguments Ok {A} a.
Arguments Raise {A} e.

Definition bind (A B : Type) (m : result A) (k : A -> result B) : result B :=
  match m with
  | Ok a => k a
  | Raise e => Raise e
  end.

(** [try: m  except Exception as e: h e] *)
Definition try_except (A : Type) (m : result A) (h : exn -> result A) : result A :=
  match m with
  | Ok a => Ok a
  | Raise e => h e
  end.

Declare Scope py_scope.
Delimit Scope py_scope with py.
Notation "x <- m ;; k" := (bind m (fun x => k))
  (at level 61, m at next level, right associativity) : py_scope.

(** *** Standard output *)

Definition is_surrogate (c : N) : bool := ((55296 <=? c) && (c <=? 57343))%N.


(** The number of surrogates at the head of [s]. *)
Fixpoint surrogate_run (s : pystr) : nat :=
  match s with
  | c :: s' => if is_surrogate c then S (surrogate_run s') else O
  | [] => O
  end.

Definition hex_char (d : N) : N := if (d <? 10)%N then (48 + d)%N else (87 + d)%N.

(** [c] as the escape [\uxxxx] of [repr] (four hexadecimal digits in lower
    case; [c] is below 65536). *)
Definition escape_u (c : N) : pystr :=
  [92%N; 117%N; hex_char (c / 4096); hex_char ((c / 256) mod 16);
   hex_char ((c / 16) mod 16); hex_char (c mod 16)].

(** [str(e)] for the [UnicodeEncodeError] of the UTF-8 codec on the first
    run of surrogates of a text, which starts at index [i] with [c] and is
    [n] characters long. *)
Definition UnicodeEncodeError_str (i : Z) (c : N) (n : nat) : pystr :=
  match n with
  | 1 => str "'utf-8' codec can't encode character '" ++ escape_u c
         ++ str "' in position " ++ str_of_Z i ++ str ": surrogates not allowed"
  | _ => str "'utf-8' codec can't encode characters in position " ++ str_of_Z i
         ++ str "-" ++ str_of_Z (i + Z.of_nat n - 1)
         ++ str ": surrogates not allowed"
  end.

(** Writing [text] to standard output, from index [i] of what [print] was
    given. *)
Fixpoint write_from (i : Z) (text : pystr) : result unit :=
  match text with
  | [] => Ok tt
  | c :: text' =>
      if is_surrogate c
      then Raise (OtherError (UnicodeEncodeError_str i c (surrogate_run text)))
      else write_from (i + 1)%Z text'
  end.

(** [print(text)] *)
Definition py_print (text : pystr) : result unit := write_from 0%Z text.

(** *** Dictionaries *)

Definition pydict := list (pystr * pyval).

(** [d.get(k)] / [k in d] *)
Fixpoint dict_get (k : pystr) (d : pydict) : option pyval :=
  match d with
  | [] => None
  | (k', v) :: d' => if str_eqb k k' then Some v else dict_get k d'
  end.

(** [d[k] = v]: an existing key keeps its place, a new key goes last. *)
Fixpoint dict_set (k : pystr) (v : pyval) (d : pydict) : pydict :=
  match d with
  | [] => [(k, v)]
  | (k', v') :: d' =>
      if str_eqb k k' then (k', v) :: d' else (k', v') :: dict_set k v d'
  end.

(** [dict(pairs)] *)
Definition dict_of_pairs (pairs : list (pystr * pyval)) : pydict :=
  fold_left (fun d kv => dict_set (fst kv) (snd kv) d) pairs [].

(** ** [json.loads]

    The decoder of the standard library, as the pipeline uses it: default
    options ([strict] string scanning, the constants [NaN], [Infinity] and
    [-Infinity] accepted), under the two limits of the interpreter that can
    stop it. *)

Record interpreter_limits : Type := {
  (** [sys.get_int_max_str_digits()]: the number of digits up to which [int]
      converts a literal, 0 for no limit (4300 unless configured; a set
      limit is at least 640) *)
  int_max_str_digits : nat;
  (** how many arrays and objects, one inside the other, the decoder can
      enter before the interpreter raises [RecursionError]; it depends on
      the recursion limit and on the depth of the stack at the call *)
  json_max_depth : nat
}.

(** The outcome of a scan: a result; [Failed msg], on which the decoder
    raises [JSONDecodeError]; [Aborted msg], where the interpreter raises
    an exception of another class ([ValueError], [RecursionError]) with
    [str(e) = msg]; [Exhausted], the end of the fuel of the functions below
    (which does not occur, see [json_decode_fuel_enough]). *)
Inductive scan (A : Type) : Type :=
| Scanned (a : A)
| Failed (msg : pystr)
| Aborted (msg : pystr)
| Exhausted.
Arguments Scanned {A} a.
Arguments Failed {A} msg.
Arguments Aborted {A} msg.
Arguments Exhausted {A}.

Definition is_json_ws (c : N) : bool :=
  ((c =? 32) || (c =? 9) || (c =? 10) || (c =? 13))%N.

Fixpoint skip_ws (s : pystr) : pystr :=
  match s with
  | c :: s' => if is_json_ws c then skip_ws s' else s
  | [] => []
  end.

Definition is_digit (c : N) : bool := ((48 <=? c) && (c <=? 57))%N.

Definition hex_digit (c : N) : option N :=
  if is_digit c then Some (c - 48)%N
  else if ((97 <=? c) && (c <=? 102))%N then Some (c - 87)%N
  else if ((65 <=? c) && (c <=? 70))%N then Some (c - 55)%N
  else None.

Definition hex4 (a b c d : N) : option N :=
  match hex_digit a, hex_digit b, hex_digit c, hex_digit d with
  | Some x, Some y, Some z, Some w => Some (((x * 16 + y) * 16 + z) * 16 + w)%N
  | _, _, _, _ => None
  end.

(** The character a backslash escape other than [\u] stands for. *)
Definition backslash (c : N) : option N :=
  if (c =? 34)%N then Some 34%N          (* quote *)
  else if (c =? 92)%N then Some 92%N     (* backslash *)
  else if (c =? 47)%N then Some 47%N     (* slash *)
  else if (c =? 98)%N then Some 8%N      (* b *)
  else if (c =? 102)%N then Some 12%N    (* f *)
  else if (c =? 110)%N then Some 10%N    (* n *)
  else if (c =? 114)%N then Some 13%N    (* r *)
  else if (c =? 116)%N then Some 9%N     (* t *)
  else None.

Definition is_high_surrogate (c : N) : bool := ((55296 <=? c) && (c <=? 56319))%N.
Definition is_low_surrogate (c : N) : bool := ((56320 <=? c) && (c <=? 57343))%N.
Definition join_surrogates (hi lo : N) : N :=
  (65536 + ((hi - 55296) * 1024 + (lo - 56320)))%N.

(** [scanstring]: [s] starts just after the opening quote; the result is the
    decoded string and the text after the closing quote. *)
Fixpoint scanstring (acc : pystr) (s : pystr) : scan (pystr * pystr) :=
  match s with
  | [] => Failed (str "Unterminated string starting at")
  | c :: r =>
      if (c =? 34)%N then Scanned (rev acc, r)
      else if (c =? 92)%N then
        match r with
        | [] => Failed (str "Unterminated string starting at")
        | e :: r1 =>
            if (e =? 117)%N then
              match r1 with
              | h1 :: h2 :: h3 :: h4 :: r2 =>
                  match hex4 h1 h2 h3 h4 with
                  | None => Failed (str "Invalid \uXXXX escape")
                  | Some uni =>
                      match r2 with
                      | b :: u :: g1 :: g2 :: g3 :: g4 :: r3 =>
                          if is_high_surrogate uni && (b =? 92)%N && (u =? 117)%N then
                            match hex4 g1 g2 g3 g4 with
                            | None => Failed (str "Invalid \uXXXX escape")
                            | Some uni2 =>
                                if is_low_surrogate uni2
                                then scanstring (join_surrogates uni uni2 :: acc) r3
                                else scanstring (uni :: acc) r2
                            end
                          else scanstring (uni :: acc) r2
                      | _ => scanstring (uni :: acc) r2
                      end
                  end
              | _ => Failed (str "Invalid \uXXXX escape")
              end
            else
              match backslash e with
              | Some ch => scanstring (ch :: acc) r1
              | None => Failed (str "Invalid \escape")
              end
        end
      else if (c <? 32)%N then Failed (str "Invalid control character at")
      else scanstring (c :: acc) r
  end.

(** The longest run of decimal digits at the head of [s], and the rest. *)
Fixpoint take_digits (s : pystr) : pystr * pystr :=
  match s with
  | c :: s' =>
      if is_digit c then let (ds, r) := take_digits s' in (c :: ds, r)
      else ([], s)
  | [] => ([], [])
  end.

Definition digits_value (ds : pystr) : Z :=
  fold_left (fun acc c => (acc * 10 + Z.of_N (c - 48))%Z) ds 0%Z.

(** A number as written: an integer literal with its sign and digits, or
    the text of a float. *)
Inductive number_literal : Type :=
| IntLiteral (negative : bool) (digits : pystr)
| FloatLiteral (text : pystr).

(** The parts of a number: an optional minus sign; the integer part, a
    single zero or a run of digits; a fraction, taken only when a digit
    follows the point; an exponent, taken only when a digit follows the
    letter and its optional sign.  Each gives the part and the rest. *)
Definition scan_sign (s : pystr) : pystr * pystr :=
  match s with
  | c :: r => if (c =? 45)%N then ([c], r) else ([], s)
  | [] => ([], s)
  end.

Definition scan_int_part (d : N) (r : pystr) : pystr * pystr :=
  if (d =? 48)%N then ([d], r) else take_digits (d :: r).

Definition scan_fraction (r1 : pystr) : pystr * pystr :=
  match r1 with
  | p :: r1' =>
      if (p =? 46)%N then
        let (ds, r1'') := take_digits r1' in
        match ds with [] => ([], r1) | _ => (p :: ds, r1'') end
      else ([], r1)
  | [] => ([], r1)
  end.

Definition scan_exponent_sign (r : pystr) : pystr * pystr :=
  match r with
  | g :: t => if ((g =? 45) || (g =? 43))%N then ([g], t) else ([], r)
  | [] => ([], r)
  end.

Definition scan_exponent (r2 : pystr) : pystr * pystr :=
  match r2 with
  | e :: r2' =>
      if ((e =? 101) || (e =? 69))%N then
        let (sg, r2'') := scan_exponent_sign r2' in
        let (ds, r2''') := take_digits r2'' in
        match ds with [] => ([], r2) | _ => (e :: sg ++ ds, r2''') end
      else ([], r2)
  | [] => ([], r2)
  end.

(** The number at the head of [s], if there is one.  A literal with neither
    fraction nor exponent is an [int], any other a [float]. *)
Definition scan_number (s : pystr) : option (number_literal * pystr) :=
  let (sign, s1) := scan_sign s in
  match s1 with
  | [] => None
  | d :: r =>
      if is_digit d then
        let (int_part, r1) := scan_int_part d r in
        let (frac, r2) := scan_fraction r1 in
        let (exp, r3) := scan_exponent r2 in
        match frac, exp with
        | [], [] =>
            Some (IntLiteral (match sign with [] => false | _ => true end) int_part, r3)
        | _, _ => Some (FloatLiteral (sign ++ int_part ++ frac ++ exp), r3)
        end
      else None
  end.

(** [int] refuses a literal of more than 640 digits that exceeds the limit
    set. *)
Definition too_many_digits (lim : interpreter_limits) (n : nat) : bool :=
  (640 <? n) && (0 <? int_max_str_digits lim) && (int_max_str_digits lim <? n).

Definition int_limit_message (lim : interpreter_limits) (n : nat) : pystr :=
  str "Exceeds the limit (" ++ str_of_Z (Z.of_nat (int_max_str_digits lim))
  ++ str " digits) for integer string conversion: value has "
  ++ str_of_Z (Z.of_nat n)
  ++ str " digits; use sys.set_int_max_str_digits() to increase the limit".

(** The value of a number literal: [int(text)] or [float(text)]. *)
Definition number_value (lim : interpreter_limits) (x : number_literal)
    (r : pystr) : scan (pyval * pystr) :=
  match x with
  | IntLiteral negative digits =>
      if too_many_digits lim (length digits)
      then Aborted (int_limit_message lim (length digits))
      else
        let n := digits_value digits in
        Scanned (PInt (if negative then (- n)%Z else n), r)
  | FloatLiteral text => Scanned (PFloat (Float text), r)
  end.

Definition recursion_message (what : pystr) : pystr :=
  str "maximum recursion depth exceeded while decoding a JSON " ++ what
  ++ str " from a unicode string".

(** A fixed word at the head of [s]. *)
Definition keyword (w : pystr) (v : pyval) (s : pystr) : option (pyval * pystr) :=
  if startswith w s then Some (v, skipn (length w) s) else None.

(** [scan_once] decodes the value that starts at the head of [s];
    [parse_array] continues an array at the start of an element;
    [parse_object] continues an object just after the opening quote of a
    key.  Each call spends one unit of [fuel]; [depth] is the number of
    arrays and objects that can still be entered. *)
Fixpoint scan_once (lim : interpreter_limits) (fuel depth : nat) (s : pystr)
  : scan (pyval * pystr) :=
  match fuel with
  | O => Exhausted
  | S f =>
      match s with
      | [] => Failed (str "Expecting value")
      | c :: r =>
          if (c =? 34)%N then
            match scanstring [] r with
            | Scanned (k, r1) => Scanned (PStr k, r1)
            | Failed m => Failed m
            | Aborted m => Aborted m
            | Exhausted => Exhausted
            end
          else if (c =? 123)%N then
            match depth with
            | O => Aborted (recursion_message (str "object"))
            | S d =>
                match skip_ws r with
                | c1 :: r1 =>
                    if (c1 =? 125)%N then Scanned (PDict [], r1)
                    else if (c1 =? 34)%N then parse_object lim f d [] r1
                    else Failed (str "Expecting property name enclosed in double quotes")
                | [] => Failed (str "Expecting property name enclosed in double quotes")
                end
            end
          else if (c =? 91)%N then
            match depth with
            | O => Aborted (recursion_message (str "array"))
            | S d =>
                match skip_ws r with
                | c1 :: r1 =>
                    if (c1 =? 93)%N then Scanned (PList [], r1)
                    else parse_array lim f d [] (c1 :: r1)
                | [] => parse_array lim f d [] []
                end
            end
          else
            match keyword (str "null") PNone s with
            | Some x => Scanned x
            | None =>
            match keyword (str "true") (PBool true) s with
            | Some x => Scanned x
            | None =>
            match keyword (str "false") (PBool false) s with
            | Some x => Scanned x
            | None =>
            match scan_number s with
            | Some (x, r1) => number_value lim x r1
            | None =>
            match keyword (str "NaN") (PFloat (Float (str "NaN"))) s with
            | Some x => Scanned x
            | None =>
            match keyword (str "Infinity") (PFloat (Float (str "Infinity"))) s with
            | Some x => Scanned x
            | None =>
            match keyword (str "-Infinity") (PFloat (Float (str "-Infinity"))) s with
            | Some x => Scanned x
            | None => Failed (str "Expecting value")
            end end end end end end end
      end
  end

with parse_array (lim : interpreter_limits) (fuel depth : nat) (acc : list pyval)
    (s : pystr) : scan (pyval * pystr) :=
  match fuel with
  | O => Exhausted
  | S f =>
      match scan_once lim f depth s with
      | Scanned (v, r) =>
          match skip_ws r with
          | c :: r1 =>
              if (c =? 93)%N then Scanned (PList (rev (v :: acc)), r1)
              else if (c =? 44)%N then parse_array lim f depth (v :: acc) (skip_ws r1)
              else Failed (str "Expecting ',' delimiter")
          | [] => Failed (str "Expecting ',' delimiter")
          end
      | Failed m => Failed m
      | Aborted m => Aborted m
      | Exhausted => Exhausted
      end
  end

with parse_object (lim : interpreter_limits) (fuel depth : nat)
    (acc : list (pystr * pyval)) (s : pystr) : scan (pyval * pystr) :=
  match fuel with
  | O => Exhausted
  | S f =>
      match scanstring [] s with
      | Scanned (key, r) =>
          match skip_ws r with
          | c :: r1 =>
              if (c =? 58)%N then
                match scan_once lim f depth (skip_ws r1) with
                | Scanned (v, r2) =>
                    match skip_ws r2 with
                    | c2 :: r3 =>
                        if (c2 =? 125)%N then
                          Scanned (PDict (dict_of_pairs (rev ((key, v) :: acc))), r3)
                        else if (c2 =? 44)%N then
                          match skip_ws r3 with
                          | c3 :: r4 =>
                              if (c3 =? 34)%N
                              then parse_object lim f depth ((key, v) :: acc) r4
                              else Failed (str "Expecting property name enclosed in double quotes")
                          | [] => Failed (str "Expecting property name enclosed in double quotes")
                          end
                        else Failed (str "Expecting ',' delimiter")
                    | [] => Failed (str "Expecting ',' delimiter")
                    end
                | Failed m => Failed m
                | Aborted m => Aborted m
                | Exhausted => Exhausted
                end
              else Failed (str "Expecting ':' delimiter")
          | [] => Failed (str "Expecting ':' delimiter")
          end
      | Failed m => Failed m
      | Aborted m => Aborted m
      | Exhausted => Exhausted
      end
  end.

(** Fuel that always suffices for a text of this length (see
    [json_decode_fuel_enough]). *)
Definition json_fuel (s : pystr) : nat := 2 * length s + 2.

(** [json.decoder.JSONDecoder.decode]: one value, white space around it,
    nothing else. *)
Definition json_decode (lim : interpreter_limits) (s : pystr) : scan pyval :=
  match scan_once lim (json_fuel s) (json_max_depth lim) (skip_ws s) with
  | Scanned (v, r) =>
      match skip_ws r with
      | [] => Scanned v
      | _ :: _ => Failed (str "Extra data")
      end
  | Failed m => Failed m
  | Aborted m => Aborted m
  | Exhausted => Exhausted
  end.

(** [json.loads(s)] for a [str] argument: the value, [JSONDecodeError] for a
    text that is not JSON, or the [ValueError] or [RecursionError] of a
    limit of the interpreter. *)
Definition json_loads (lim : interpreter_limits) (s : pystr) : result pyval :=
  if startswith [65279%N] s then
    Raise (JSONDecodeError (str "Unexpected UTF-8 BOM (decode using utf-8-sig)"))
  else
    match json_decode lim s with
    | Scanned v => Ok v
    | Failed m => Raise (JSONDecodeError m)
    | Aborted m => Raise (OtherError m)
    | Exhausted => Raise (OtherError (str "out of fuel"))   (* does not occur *)
    end.

(** *** Operations of the interpreter on values *)

Definition type_name (v : pyval) : pystr :=
  match v with
  | PNone => str "NoneType"
  | PBool _ => str "bool"
  | PInt _ => str "int"
  | PFloat _ => str "float"
  | PStr _ => str "str"
  | PList _ => str "list"
  | PDict _ => str "dict"
  end.

Definition no_attribute (v : pyval) (name : pystr) : exn :=
  OtherError (str "'" ++ type_name v ++ str "' object has no attribute '"
              ++ name ++ str "'").

(** [obj.get(k, default)] *)
Definition py_get (obj : pyval) (k : pystr) (default : pyval) : result pyval :=
  match obj with
  | PDict d => Ok (match dict_get k d with Some v => v | None => default end)
  | _ => Raise (no_attribute obj (str "get"))
  end.

(** [obj.strip()] *)
Definition py_strip (obj : pyval) : result pystr :=
  match obj with
  | PStr s => Ok (strip s)
  | _ => Raise (no_attribute obj (str "strip"))
  end.

(** [obj[:n]]; a dictionary refuses a slice as a key (the wording of that
    error varies between interpreter versions). *)
Definition py_slice_to (obj : pyval) (n : Z) : result pyval :=
  match obj with
  | PStr s => Ok (PStr (slice_to s n))
  | PList l => Ok (PList (slice_to l n))
  | PDict _ => Raise (OtherError (str "unhashable type: 'slice'"))
  | _ => Raise (OtherError (str "'" ++ type_name obj
                            ++ str "' object is not subscriptable"))
  end.

(** [obj[k] = v] for a string key [k]. *)
Definition py_setitem (obj : pyval) (k : pystr) (v : pyval) : result pyval :=
  match obj with
  | PDict d => Ok (PDict (dict_set k v d))
  | PList _ =>
      Raise (OtherError (str "list indices must be integers or slices, not str"))
  | _ => Raise (OtherError (str "'" ++ type_name obj
                            ++ str "' object does not support item assignment"))
  end.

(** Reading a result: [v[k]] when [v] is a dictionary holding [k], and the
    value at the end of a path of keys. *)
Definition field (k : pystr) (v : pyval) : option pyval :=
  match v with
  | PDict d => dict_get k d
  | _ => None
  end.

Fixpoint lookup (path : list pystr) (v : pyval) : option pyval :=
  match path with
  | [] => Some v
  | k :: path' =>
      match field k v with
      | Some v' => lookup path' v'
      | None => None
      end
  end.

(** ** The knowledge base ([knowledge_base.py])

    The playbook, the key clauses and the risk indicators are constant
    dictionaries with fixed keys; they are records here. *)

Record review_section : Type := {
  section : pystr;
  description : pystr;
  key_points : list pystr;
  red_flags : list pystr
}.

Record overview_info : Type := {
  title_ : pystr;
  purpose : pystr;
  scope : pystr
}.

Record risk_assessment_info : Type := {
  high_risk_indicators : list pystr;
  compliance_checklist : list pystr
}.

Record playbook_t : Type := {
  overview : overview_info;
  review_sections : list review_section;
  risk_assessment : risk_assessment_info
}.

Record risk_indicators_t : Type := {
  high_risk : list pystr;
  medium_risk : list pystr;
  low_risk : list pystr
}.

(** [DPAKnowledgeBase._create_playbook] *)
Definition _create_playbook : playbook_t :=
  {| overview :=
       {| title_ := str "Data Processing Agreement (DPA) Review Playbook";
          purpose := str "This playbook provides guidance for reviewing Data Processing Agreements to ensure GDPR compliance and adequate privacy protections.";
          scope := str "Applicable to all third-party data processing arrangements where personal data is shared." |};
     review_sections := [
    {| section := str "1. Parties and Roles";
       description := str "Verify clear identification of data controller and processor roles";
       key_points :=
         [ str "Controller and processor clearly identified";
           str "Roles and responsibilities explicitly defined";
           str "No ambiguity about who controls processing purposes and means" ];
       red_flags :=
         [ str "Joint controller arrangements without clear allocation of responsibilities";
           str "Processor attempting to determine purposes of processing";
           str "Unclear chain of responsibility in multi-party arrangements" ] |};
    {| section := str "2. Purpose and Scope of Processing";
       description := str "Ensure processing is limited to specified, explicit and legitimate purposes";
       key_points :=
         [ str "Clear description of processing purposes";
           str "Specific categories of personal data identified";
           str "Data subjects clearly defined";
           str "Processing activities explicitly listed" ];
       red_flags :=
         [ str "Vague or broad purpose descriptions";
           str "Open-ended categories of personal data";
           str "Unlimited scope for future processing activities";
           str "Secondary use rights without explicit consent" ] |};
    {| section := str "3. Data Subject Rights";
       description := str "Verify adequate provisions for data subject rights fulfillment";
       key_points :=
         [ str "Processor assists with data subject requests";
           str "Response timeframes clearly defined";
           str "Technical and organizational measures for rights fulfillment";
           str "Procedures for handling rectification, erasure, and portability" ];
       red_flags :=
         [ str "No mention of data subject rights assistance";
           str "Unreasonable response timeframes";
           str "Processor claiming inability to assist with certain rights";
           str "Excessive fees for rights fulfillment assistance" ] |};
    {| section := str "4. Security Measures";
       description := str "Assess adequacy of technical and organizational security measures";
       key_points :=
         [ str "Appropriate technical safeguards (encryption, access controls)";
           str "Organizational measures (staff training, security policies)";
           str "Regular security assessments and updates";
           str "Incident detection and response procedures" ];
       red_flags :=
         [ str "Generic or insufficient security measures";
           str "No mention of encryption for sensitive data";
           str "Lack of access controls or monitoring";
           str "No incident response procedures" ] |};
    {| section := str "5. International Transfers";
       description := str "Ensure adequate safeguards for international data transfers";
       key_points :=
         [ str "Clear identification of transfer destinations";
           str "Appropriate transfer mechanisms (adequacy decisions, SCCs, BCRs)";
           str "Additional safeguards where required";
           str "Notification requirements for new transfer destinations" ];
       red_flags :=
         [ str "Transfers to countries without adequacy decisions";
           str "No transfer mechanisms in place";
           str "Blanket permissions for worldwide transfers";
           str "Insufficient additional safeguards for high-risk transfers" ] |};
    {| section := str "6. Subprocessing";
       description := str "Review subprocessor arrangements and approval mechanisms";
       key_points :=
         [ str "Clear subprocessor approval process";
           str "Written agreements with equivalent protection levels";
           str "Notification requirements for new subprocessors";
           str "Right to object to subprocessor appointments" ];
       red_flags :=
         [ str "General authorization without approval rights";
           str "No equivalent protection requirements for subprocessors";
           str "Insufficient notification periods";
           str "No objection rights or unreasonable objection criteria" ] |};
    {| section := str "7. Data Retention and Deletion";
       description := str "Verify appropriate data retention and deletion provisions";
       key_points :=
         [ str "Clear retention periods aligned with purposes";
           str "Secure deletion procedures and timelines";
           str "Certification of deletion where required";
           str "Return of data options" ];
       red_flags :=
         [ str "Indefinite retention periods";
           str "No secure deletion procedures";
           str "Unreasonable delays in data return/deletion";
           str "Processor claiming right to retain copies" ] |};
    {| section := str "8. Breach Notification";
       description := str "Ensure adequate breach notification procedures";
       key_points :=
         [ str "Prompt notification requirements (24-72 hours)";
           str "Detailed information requirements for breach notifications";
           str "Assistance with regulatory reporting";
           str "Cooperation in breach investigation and mitigation" ];
       red_flags :=
         [ str "No specific notification timeframes";
           str "Limited information sharing about breaches";
           str "No assistance with regulatory obligations";
           str "Disclaimer of liability for breach-related costs" ] |};
    {| section := str "9. Auditing and Compliance";
       description := str "Review audit rights and compliance monitoring provisions";
       key_points :=
         [ str "Reasonable audit rights and access";
           str "Regular compliance assessments";
           str "Documentation and record-keeping requirements";
           str "Third-party certification acceptance" ];
       red_flags :=
         [ str "Severely restricted audit rights";
           str "Excessive fees for audit activities";
           str "No documentation or transparency requirements";
           str "Refusal to accept reasonable certification standards" ] |};
    {| section := str "10. Liability and Indemnification";
       description := str "Assess liability allocation and indemnification provisions";
       key_points :=
         [ str "Appropriate liability allocation between parties";
           str "Adequate insurance or financial guarantees";
           str "Indemnification for processor-caused violations";
           str "No unreasonable liability caps for data protection violations" ];
       red_flags :=
         [ str "Complete liability exclusions for the processor";
           str "Unreasonably low liability caps";
           str "No indemnification for processor negligence";
           str "Attempts to shift controller liability to processor" ] |} ];
     risk_assessment :=
       {| high_risk_indicators :=
            [ str "Processing of special category data without adequate safeguards";
              str "Large-scale systematic monitoring";
              str "Cross-border transfers to high-risk jurisdictions";
              str "Innovative technologies with privacy implications";
              str "Processing affecting vulnerable populations" ];
          compliance_checklist :=
            [ str "Article 28 GDPR requirements fully addressed";
              str "Data Protection Impact Assessment completed if required";
              str "Legal basis for processing clearly established";
              str "Transparency requirements met";
              str "Data minimization principles applied" ] |} |}.

(** [DPAKnowledgeBase._get_key_clauses] *)
Definition _get_key_clauses : list pystr :=
  [ str "purpose_limitation";
    str "data_categories";
    str "retention_period";
    str "security_measures";
    str "subprocessor_management";
    str "data_subject_rights";
    str "breach_notification";
    str "international_transfers";
    str "audit_rights";
    str "termination_procedures" ].

(** [DPAKnowledgeBase._get_risk_indicators] *)
Definition _get_risk_indicators : risk_indicators_t :=
  {| high_risk :=
       [ str "unlimited data retention";
         str "broad processing purposes";
         str "weak security measures";
         str "unrestricted subprocessing";
         str "no breach notification";
         str "limited audit rights";
         str "liability exclusions";
         str "no data subject rights support" ];
     medium_risk :=
       [ str "vague purpose descriptions";
         str "standard security measures";
         str "general subprocessor approval";
         str "limited international transfer safeguards";
         str "basic breach notification";
         str "restricted audit access" ];
     low_risk :=
       [ str "specific limited purposes";
         str "strong security measures";
         str "explicit subprocessor approval";
         str "robust transfer safeguards";
         str "comprehensive breach procedures";
         str "full audit rights";
         str "adequate liability provisions" ] |}.

(** [DPAKnowledgeBase]: the three attributes set by [__init__], with their
    getters. *)
Record DPAKnowledgeBase : Type := {
  playbook : playbook_t;
  key_clauses : list pystr;
  risk_indicators : risk_indicators_t
}.

Definition knowledge_base_init : DPAKnowledgeBase :=
  {| playbook := _create_playbook;
     key_clauses := _get_key_clauses;
     risk_indicators := _get_risk_indicators |}.

Definition get_playbook (kb : DPAKnowledgeBase) : playbook_t := playbook kb.
Definition get_key_clauses (kb : DPAKnowledgeBase) : list pystr := key_clauses kb.
Definition get_risk_indicators (kb : DPAKnowledgeBase) : risk_indicators_t :=
  risk_indicators kb.

(** ** The host: interpreter, libraries, network and clocks

    A [world] is the state outside the process that the pipeline acts on:
    the requests it has posted so far, oldest first. *)

Definition bytes := list Byte.byte.

Record request : Type := {
  url : pystr;
  json : pyval
}.

(** What [session.post] hands back: the status, and what
    [await response.json()] gives (the decoded body, or the exception it
    raises). *)
Inductive response : Type :=
| Response (status : Z) (json_body : result pyval).

Record world : Type := {
  posted : list request
}.

Record host : Type := {
  (** [str.lower] *)
  lower : pystr -> pystr;
  (** [PyPDF2.PdfReader(BytesIO(b)).pages], each page through
      [extract_text()]: the texts in document order, or the exception *)
  pdf_pages : bytes -> result (list pystr);
  (** [docx.Document(BytesIO(b)).paragraphs], each paragraph's [text] *)
  docx_paragraphs : bytes -> result (list pystr);
  (** [b.decode('utf-8')] *)
  decode_utf8 : bytes -> result pystr;
  (** the answer of the endpoint to a request posted in a given world; a
      transport failure or a timeout is the exception raised *)
  session_post : world -> request -> result response;
  (** [asyncio.get_event_loop().time()] read in a given world: the clock of
      the event loop *)
  loop_time : world -> pyfloat;
  (** [time.time()] read in a given world: the wall clock, seconds since
      the epoch *)
  wall_clock : world -> pyfloat;
  (** the limits of the interpreter that [json.loads] runs under in the
      recovery of the reply *)
  limits : interpreter_limits
}.

(** The host [h] with another wall clock. *)
Definition with_wall_clock (h : host) (clock : world -> pyfloat) : host :=
  {| lower := lower h;
     pdf_pages := pdf_pages h;
     docx_paragraphs := docx_paragraphs h;
     decode_utf8 := decode_utf8 h;
     session_post := session_post h;
     loop_time := loop_time h;
     wall_clock := clock;
     limits := limits h |}.

(** A computation that acts on the world. *)
Definition io (A : Type) : Type := world -> result A * world.

(** ** [DPAAnalyzer] ([dpa_analyzer.py]) *)

Record DPAAnalyzer : Type := {
  knowledge_base : DPAKnowledgeBase;
  ollama_url : pystr;
  model_name : pystr
}.

(** [DPAAnalyzer.__init__] *)
Definition analyzer_init : DPAAnalyzer :=
  {| knowledge_base := knowledge_base_init;
     ollama_url := str "http://localhost:11434";
     model_name := str "llama3.2:1b" |}.

Section Analyzer.

Variable h : host.
Variable self : DPAAnalyzer.

(** [text = str(); for p in parts: text += p + newline] *)
Definition join_lines (parts : list pystr) : pystr :=
  fold_left (fun text p => text ++ (p ++ [10%N])) parts [].

Definition _extract_from_pdf (file_content : bytes) : result pystr :=
  try_except
    (pages <- pdf_pages h file_content ;; Ok (join_lines pages))%py
    (fun e => Raise (Exception (str "PDF extraction failed: " ++ exn_str e))).

Definition _extract_from_docx (file_content : bytes) : result pystr :=
  try_except
    (paragraphs <- docx_paragraphs h file_content ;; Ok (join_lines paragraphs))%py
    (fun e => Raise (Exception (str "DOCX extraction failed: " ++ exn_str e))).

Definition _extract_text (file_content : bytes) (filename : pystr) : result pystr :=
  try_except
    (if endswith (str ".pdf") (lower h filename) then
       _extract_from_pdf file_content
     else if endswith (str ".docx") (lower h filename) then
       _extract_from_docx file_content
     else if endswith (str ".txt") (lower h filename) then
       decode_utf8 h file_content
     else
       Raise (Exception (str "Unsupported file format: " ++ filename)))
    (fun e => Raise (Exception (str "Text extraction failed: " ++ exn_str e))).

Definition prompt_head : pystr :=
  dq "You are a privacy lawyer reviewing a Data Processing Agreement (DPA).

Analyze this DPA text for GDPR compliance and respond ONLY with valid JSON:

DOCUMENT:
".

Definition prompt_tail : pystr :=
  dq "

REQUIRED JSON RESPONSE:
{
    'overall_assessment': {
        'compliance_score': 75,
        'risk_level': 'medium',
        'executive_summary': 'Brief summary of main findings'
    },
    'section_analysis': [
        {
            'section': 'Key Provisions',
            'status': 'compliant',
            'score': 80,
            'findings': ['Found data controller definitions', 'Security measures present'],
            'recommendations': ['Add retention periods', 'Clarify breach notification'],
            'red_flags': ['Missing audit rights']
        }
    ],
    'missing_clauses': ['retention period', 'audit rights'],
    'strengths': ['Clear roles', 'Security measures'],
    'critical_issues': ['No breach notification clause'],
    'recommendations': ['Add missing clauses', 'Define retention periods']
}

Respond with ONLY the JSON object, no other text.".

(** The playbook, the key clauses and the risk indicators are passed in and
    not used. *)
Definition _create_analysis_prompt (text_content : pystr) (playbook : playbook_t)
    (key_clauses : list pystr) (risk_indicators : risk_indicators_t) : pystr :=
  let limited_text := slice_to text_content 2000 in
  prompt_head ++ limited_text ++ prompt_tail.

(** The value returned when the reply of the model cannot be parsed. *)
Definition degraded_result : pyval :=
  PDict [
    (str "overall_assessment", PDict [
       (str "compliance_score", PInt 70);
       (str "risk_level", PStr (str "medium"));
       (str "executive_summary",
        PStr (str "AI analysis encountered formatting issues, using fallback assessment")) ]);
    (str "section_analysis", PList [
       PDict [
         (str "section", PStr (str "AI Analysis"));
         (str "status", PStr (str "unclear"));
         (str "score", PInt 70);
         (str "findings",
          PList [PStr (str "AI generated response but with formatting issues")]);
         (str "recommendations", PList [PStr (str "Manual review recommended")]);
         (str "red_flags", PList [PStr (str "AI response parsing failed")]) ] ]);
    (str "missing_clauses", PList []);
    (str "strengths", PList [PStr (str "Document processed by AI")]);
    (str "critical_issues", PList [PStr (str "Response formatting needs improvement")]);
    (str "recommendations",
     PList [PStr (str "Consider upgrading to larger AI model");
            PStr (str "Manual legal review advised")]) ].

(** The inner [try] of [_call_ollama_api]: parse the cleaned reply as it
    is; if the decoder raises [JSONDecodeError], parse what lies between the
    first opening and the last closing brace.  Any other exception of the
    first parse is not caught here. *)
Definition parse_cleaned_response (cleaned_response : pystr) : result pyval :=
  match json_loads (limits h) cleaned_response with
  | Raise (JSONDecodeError _) =>
      let json_start := find (str "{") cleaned_response in
      let json_end := (rfind (str "}") cleaned_response + 1)%Z in
      if negb (json_start =? -1)%Z && negb (json_end =? -1)%Z then
        let json_content := slice cleaned_response json_start json_end in
        let json_content :=
          replace (str "  ") (str " ") (replace [10%N] (str " ") json_content) in
        json_loads (limits h) json_content
      else Raise (Exception (str "No valid JSON found in response"))
  | r => r
  end.

(** [print(f'Raw response (first 500 chars): {shown}')] for the slice
    [shown] of the reply.  A string is written as it is.  A list is written
    as its [repr], in which every character that is not printable, a
    surrogate included, stands as an escape: that text can always be
    encoded. *)
Definition print_raw_response (shown : pyval) : result unit :=
  match shown with
  | PStr s => py_print (str "Raw response (first 500 chars): " ++ s)
  | _ => Ok tt
  end.

(** The outer [try] of [_call_ollama_api] with its handler, applied to the
    [response] field of the reply: whatever goes wrong in parsing ends in
    [degraded_result], after a diagnostic that slices the reply as it came
    (not stripped) and prints the slice. *)
Definition parse_response (response_text : pyval) : result pyval :=
  try_except
    (cleaned_response <- py_strip response_text ;;
     parse_cleaned_response cleaned_response)%py
    (fun e =>
       (shown <- py_slice_to response_text 500 ;;
        _ <- print_raw_response shown ;;
        Ok degraded_result)%py).

Definition ollama_request (prompt : pystr) : request :=
  {| url := ollama_url self ++ str "/api/generate";
     json := PDict [
       (str "model", PStr (model_name self));
       (str "prompt", PStr prompt);
       (str "stream", PBool false);
       (str "options", PDict [
          (str "temperature", PFloat (Float (str "0.1")));
          (str "top_p", PFloat (Float (str "0.9"))) ]) ] |}.

Definition _call_ollama_api (prompt : pystr) : io pyval :=
  fun w =>
    let payload := ollama_request prompt in
    (try_except
       (resp <- session_post h w payload ;;
        match resp with
        | Response status body =>
            if (status =? 200)%Z then
              (result <- body ;;
               response_text <- py_get result (str "response") (PStr []) ;;
               parse_response response_text)
            else
              Raise (Exception (str "Ollama API call failed with status "
                                ++ str_of_Z status))
        end)%py
       (fun e => Raise (Exception (str "LLM API call failed: " ++ exn_str e))),
     {| posted := posted w ++ [payload] |}).

(** The clause categories of the fallback scorer with their keywords, in
    the order of the dictionary. *)
Definition key_terms : list (pystr * list pystr) :=
  [ (str "data controller", [str "data controller"; str "controller"]);
    (str "data processor", [str "data processor"; str "processor"]);
    (str "personal data", [str "personal data"; str "personally identifiable"]);
    (str "gdpr", [str "gdpr"; str "general data protection regulation"]);
    (str "security measures",
     [str "security measures"; str "technical safeguards"; str "encryption"]);
    (str "data breach",
     [str "data breach"; str "breach notification"; str "security incident"]);
    (str "data subject rights",
     [str "data subject rights"; str "right to access"; str "right to erasure"]);
    (str "retention", [str "retention period"; str "data retention"; str "deletion"]);
    (str "subprocessor", [str "subprocessor"; str "sub-processor"; str "third party"]) ].

(** The local variables the loop of [_fallback_analysis] updates. *)
Record tally : Type := {
  findings : list pystr;
  missing_clauses : list pystr;
  score : Z
}.

(** The finding recorded for a clause.  The three characters in front are
    those of the source file (U+00E2, U+0153, U+201C). *)
Definition finding (clause : pystr) : pystr :=
  [226%N; 339%N; 8220%N] ++ str " " ++ title clause ++ str " provisions identified".

(** [any(keyword in text_lower for keyword in keywords)] *)
Definition found (text_lower : pystr) (keywords : list pystr) : bool :=
  existsb (fun keyword => contains keyword text_lower) keywords.

(** One turn of the loop over [key_terms.items()]. *)
Definition check_clause (text_lower : pystr) (t : tally)
    (item : pystr * list pystr) : tally :=
  let (clause, keywords) := item in
  if found text_lower keywords then
    {| findings := findings t ++ [finding clause];
       missing_clauses := missing_clauses t;
       score := (score t + 5)%Z |}
  else
    {| findings := findings t;
       missing_clauses := missing_clauses t ++ [clause];
       score := (score t - 10)%Z |}.

Definition str_list (l : list pystr) : pyval := PList (map PStr l).

Definition _fallback_analysis (text_content : pystr) : pyval :=
  let text_lower := lower h text_content in
  let t := fold_left (check_clause text_lower) key_terms
             {| findings := []; missing_clauses := []; score := 70%Z |} in
  let risk_level :=
    if (score t >=? 80)%Z then str "low"
    else if (score t >=? 60)%Z then str "medium"
    else str "high" in
  PDict [
    (str "overall_assessment", PDict [
       (str "compliance_score", PInt (Z.max 0 (Z.min 100 (score t))));
       (str "risk_level", PStr risk_level);
       (str "executive_summary",
        PStr (str "Rule-based analysis completed. "
              ++ str_of_Z (Z.of_nat (length (findings t)))
              ++ str " key provisions identified, "
              ++ str_of_Z (Z.of_nat (length (missing_clauses t)))
              ++ str " clauses may be missing.")) ]);
    (str "section_analysis", PList [
       PDict [
         (str "section", PStr (str "Automated Analysis"));
         (str "status", PStr (str "partial_review"));
         (str "score", PInt (score t));
         (str "findings", str_list (findings t));
         (str "recommendations",
          PList [PStr (str "Complete LLM setup for detailed analysis");
                 PStr (str "Manual legal review recommended")]);
         (str "red_flags",
          PList [PStr (str "LLM analysis unavailable - limited assessment performed")]) ] ]);
    (str "missing_clauses", str_list (missing_clauses t));
    (str "strengths", str_list (findings t));
    (str "critical_issues",
     PList [PStr (str "LLM service unavailable"); PStr (str "Manual review required")]);
    (str "recommendations",
     PList [PStr (str "Set up Ollama with Llama model for detailed analysis");
            PStr (str "Conduct manual legal review");
            PStr (str "Verify all GDPR Article 28 requirements")]) ].

Definition _perform_ai_analysis (text_content : pystr) : io pyval :=
  fun w =>
    let playbook := get_playbook (knowledge_base self) in
    let key_clauses := get_key_clauses (knowledge_base self) in
    let risk_indicators := get_risk_indicators (knowledge_base self) in
    let prompt :=
      _create_analysis_prompt text_content playbook key_clauses risk_indicators in
    let (r, w') := _call_ollama_api prompt w in
    (try_except r (fun e => Ok (_fallback_analysis text_content)), w').

(** [_structure_analysis], run in world [w]. *)
Definition _structure_analysis (w : world) (analysis_result : pyval)
    (original_text : pystr) : result pyval :=
  (analysis_result <-
     py_setitem analysis_result (str "metadata")
       (PDict [
          (str "document_length", PInt (Z.of_nat (length original_text)));
          (str "analysis_timestamp", PFloat (loop_time h w));
          (str "analyzer_version", PStr (str "1.0.0"));
          (str "model_used", PStr (model_name self)) ]) ;;
   analysis_result <-
     py_setitem analysis_result (str "playbook_reference")
       (PDict [
          (str "sections_reviewed",
           PInt (Z.of_nat (length (review_sections
                                     (get_playbook (knowledge_base self))))));
          (str "playbook_version", PStr (str "1.0.0")) ]) ;;
   Ok analysis_result)%py.

Definition analyze_document (file_content : bytes) (filename : pystr) : io pyval :=
  fun w =>
    let failed (e : exn) : result pyval :=
      Raise (Exception (str "Document analysis failed: " ++ exn_str e)) in
    match _extract_text file_content filename with
    | Raise e => (failed e, w)
    | Ok text_content =>
        let (r, w') := _perform_ai_analysis text_content w in
        (try_except
           (analysis_result <- r ;;
            _structure_analysis w' analysis_result text_content)%py
           failed,
         w')
    end.

End Analyzer.

(** ** The canonical result schema

    The shape of an analysis result as the specification's data model and
    [get_analysis_template] describe it, as decidable checks on values. *)

Definition is_str (v : pyval) : bool :=
  match v with PStr _ => true | _ => false end.

Definition is_int (v : pyval) : bool :=
  match v with PInt _ => true | _ => false end.

Definition is_number (v : pyval) : bool :=
  match v with PInt _ | PFloat _ => true | _ => false end.

Definition int_between (lo hi : Z) (v : pyval) : bool :=
  match v with
  | PInt z => ((lo <=? z) && (z <=? hi))%Z
  | _ => false
  end.

Definition is_one_of (options : list pystr) (v : pyval) : bool :=
  match v with
  | PStr s => existsb (str_eqb s) options
  | _ => false
  end.

Definition is_list_of (p : pyval -> bool) (v : pyval) : bool :=
  match v with
  | PList l => forallb p l
  | _ => false
  end.

Definition is_str_list : pyval -> bool := is_list_of is_str.

(** [v] is a dictionary that holds key [k] with a value accepted by [p]. *)
Definition has (k : pystr) (p : pyval -> bool) (v : pyval) : bool :=
  match field k v with
  | Some x => p x
  | None => false
  end.

Definition overall_assessment_ok (v : pyval) : bool :=
  has (str "compliance_score") (int_between 0 100) v
  && has (str "risk_level") (is_one_of [str "low"; str "medium"; str "high"]) v
  && has (str "executive_summary") is_str v.

(** An entry of [section_analysis]; [score_ok] is the check applied to its
    score. *)
Definition section_entry_ok (score_ok : pyval -> bool) (v : pyval) : bool :=
  has (str "section") is_str v
  && has (str "status")
       (is_one_of [str "compliant"; str "non_compliant"; str "unclear";
                   str "partial_review"]) v
  && has (str "score") score_ok v
  && has (str "findings") is_str_list v
  && has (str "recommendations") is_str_list v
  && has (str "red_flags") is_str_list v.

(** The six fields the scorer and the recovery stage produce. *)
Definition analysis_fields_ok (score_ok : pyval -> bool) (v : pyval) : bool :=
  has (str "overall_assessment") overall_assessment_ok v
  && has (str "section_analysis") (is_list_of (section_entry_ok score_ok)) v
  && has (str "missing_clauses") is_str_list v
  && has (str "strengths") is_str_list v
  && has (str "critical_issues") is_str_list v
  && has (str "recommendations") is_str_list v.

Definition metadata_ok (v : pyval) : bool :=
  has (str "document_length") is_int v
  && has (str "analysis_timestamp") is_number v
  && has (str "analyzer_version") is_str v
  && has (str "model_used") is_str v.

Definition playbook_reference_ok (v : pyval) : bool :=
  has (str "sections_reviewed") is_int v
  && has (str "playbook_version") is_str v.

(** The two fields [_structure_analysis] attaches. *)
Definition assembled_fields_ok (v : pyval) : bool :=
  has (str "metadata") metadata_ok v
  && has (str "playbook_reference") playbook_reference_ok v.

(** The canonical schema: every field present and of its type, every
    section score an integer from 0 to 100. *)
Definition AnalysisResult_ok (v : pyval) : bool :=
  analysis_fields_ok (int_between 0 100) v && assembled_fields_ok v.

(** The same with the section scores only required to be integers. *)
Definition AnalysisResult_shape_ok (v : pyval) : bool :=
  analysis_fields_ok is_int v && assembled_fields_ok v.

(** ** The algorithms in the words of the specification *)

(** Recovery, stage 2: the text from the first opening brace to the last
    closing brace inclusive, and its normalisation. *)
Definition bracket_substring (raw_text : pystr) : pystr :=
  slice raw_text (find (str "{") raw_text) (rfind (str "}") raw_text + 1)%Z.

Definition normalise (s : pystr) : pystr :=
  replace (str "  ") (str " ") (replace [10%N] (str " ") s).

Definition is_ok (A : Type) (r : result A) : bool :=
  match r with Ok _ => true | Raise _ => false end.


(** The fallback score: 70, plus 5 for each category present, minus 10 for
    each category absent; the clamp; the risk level of a score. *)
Definition present (text_lower : pystr) (item : pystr * list pystr) : bool :=
  found text_lower (snd item).

Definition absent (text_lower : pystr) (item : pystr * list pystr) : bool :=
  negb (present text_lower item).

Definition score_spec (text_lower : pystr) : Z :=
  (70 + 5 * Z.of_nat (length (filter (present text_lower) key_terms))
      - 10 * Z.of_nat (length (filter (absent text_lower) key_terms)))%Z.

Definition clamp (z : Z) : Z := Z.max 0 (Z.min 100 z).

Definition risk_of (z : Z) : pystr :=
  if (80 <=? z)%Z then str "low"
  else if (60 <=? z)%Z then str "medium"
  else str "high".

Definition findings_spec (text_lower : pystr) : list pystr :=
  map (fun item => finding (fst item)) (filter (present text_lower) key_terms).

Definition missing_spec (text_lower : pystr) : list pystr :=
  map fst (filter (absent text_lower) key_terms).

Definition summary_spec (n_found n_missing : nat) : pystr :=
  str "Rule-based analysis completed. " ++ str_of_Z (Z.of_nat n_found)
  ++ str " key provisions identified, " ++ str_of_Z (Z.of_nat n_missing)
  ++ str " clauses may be missing.".

(** ** Sample hosts and inputs

    Hosts on which the statements below are evaluated: ASCII case folding,
    UTF-8 decoding of ASCII bytes, no PDF or DOCX reader, an event-loop
    clock that shows seconds since the start of the process and a wall
    clock that shows seconds since the epoch, the interpreter's default
    limit of 4300 digits and room for 994 nested arrays and objects, and an
    endpoint that is unreachable, answers with a given status, or answers
    200 with a given text in the [response] field. *)

Definition sample_limits : interpreter_limits :=
  {| int_max_str_digits := 4300; json_max_depth := 994 |}.

(** The same interpreter with the limit on integer literals switched off
    ([sys.set_int_max_str_digits(0)]). *)
Definition no_digit_limit : interpreter_limits :=
  {| int_max_str_digits := 0; json_max_depth := 994 |}.

Definition ascii_decode (b : bytes) : result pystr :=
  Ok (map (fun x => N_of_ascii (ascii_of_byte x)) b).

Definition ascii_bytes (s : string) : bytes :=
  map byte_of_ascii (list_ascii_of_string s).
Arguments ascii_bytes s%_string.

Definition sample_host (endpoint : world -> request -> result response) : host :=
  {| lower := ascii_lower;
     pdf_pages := fun _ => Raise (OtherError (str "EOF marker not found"));
     docx_paragraphs := fun _ => Raise (OtherError (str "File is not a zip file"));
     decode_utf8 := ascii_decode;
     session_post := endpoint;
     loop_time := fun w => Float (str_of_Z (Z.of_nat (length (posted w))) ++ str ".5");
     wall_clock :=
       fun w => Float (str "176225000" ++ str_of_Z (Z.of_nat (length (posted w)))
                       ++ str ".25");
     limits := sample_limits |}.

Definition unreachable : world -> request -> result response :=
  fun _ _ => Raise (OtherError (str "Cannot connect to host localhost:11434")).

Definition answering_status (status : Z) : world -> request -> result response :=
  fun _ _ => Ok (Response status (Ok (PDict []))).

Definition replying (reply : pystr) : world -> request -> result response :=
  fun _ _ => Ok (Response 200 (Ok (PDict [(str "response", PStr reply)]))).

Definition fresh_world : world := {| posted := [] |}.

(** A reply that matches the schema: the object the prompt shows. *)
Definition sample_object_text : pystr :=
  dq "{'overall_assessment': {'compliance_score': 75, 'risk_level': 'medium', 'executive_summary': 'Brief summary of main findings'}, 'section_analysis': [{'section': 'Key Provisions', 'status': 'compliant', 'score': 80, 'findings': ['Found data controller definitions', 'Security measures present'], 'recommendations': ['Add retention periods', 'Clarify breach notification'], 'red_flags': ['Missing audit rights']}], 'missing_clauses': ['retention period', 'audit rights'], 'strengths': ['Clear roles', 'Security measures'], 'critical_issues': ['No breach notification clause'], 'recommendations': ['Add missing clauses', 'Define retention periods']}".

(** The same object as the prompt prints it, on several lines and
    indented. *)
Definition sample_object_pretty : pystr := bracket_substring prompt_tail.

(** An object that matches the schema in full, metadata included, in which
    [document_length] is an integer of 4400 digits. *)
Definition sample_long_number_text : pystr :=
  removelast sample_object_text
  ++ dq ", 'metadata': {'document_length': " ++ repeat 55%N 4400
  ++ dq ", 'analysis_timestamp': 1.5, 'analyzer_version': '1.0.0', 'model_used': 'llama3.2:1b'}, 'playbook_reference': {'sections_reviewed': 10, 'playbook_version': '1.0.0'}}".

Definition sample_object : pyval :=
  PDict [
    (str "overall_assessment", PDict [
       (str "compliance_score", PInt 75);
       (str "risk_level", PStr (str "medium"));
       (str "executive_summary", PStr (str "Brief summary of main findings")) ]);
    (str "section_analysis", PList [
       PDict [
         (str "section", PStr (str "Key Provisions"));
         (str "status", PStr (str "compliant"));
         (str "score", PInt 80);
         (str "findings",
          PList [PStr (str "Found data controller definitions");
                 PStr (str "Security measures present")]);
         (str "recommendations",
          PList [PStr (str "Add retention periods");
                 PStr (str "Clarify breach notification")]);
         (str "red_flags", PList [PStr (str "Missing audit rights")]) ] ]);
    (str "missing_clauses",
     PList [PStr (str "retention period"); PStr (str "audit rights")]);
    (str "strengths", PList [PStr (str "Clear roles"); PStr (str "Security measures")]);
    (str "critical_issues", PList [PStr (str "No breach notification clause")]);
    (str "recommendations",
     PList [PStr (str "Add missing clauses"); PStr (str "Define retention periods")]) ].

(** ** Vocabulary of the statements *)

(** [c] occurs in [s]. *)
Definition occurs (c : N) (s : pystr) : bool := existsb (N.eqb c) s.

(** The entries of [section_analysis]. *)
Definition sections (v : pyval) : list pyval :=
  match field (str "section_analysis") v with
  | Some (PList l) => l
  | _ => []
  end.

(** The model call fails outright: the post raises (transport error,
    timeout) or the status is not 200. *)
Definition model_unavailable (h : host) (w : world) (payload : request) : bool :=
  match session_post h w payload with
  | Raise _ => true
  | Ok (Response status _) => negb (status =? 200)%Z
  end.

(** The prompt [_perform_ai_analysis] builds for a text. *)
Definition prompt_for (self : DPAAnalyzer) (text_content : pystr) : pystr :=
  _create_analysis_prompt text_content
    (get_playbook (knowledge_base self))
    (get_key_clauses (knowledge_base self))
    (get_risk_indicators (knowledge_base self)).

(** The world after one more request. *)
Definition after_post (w : world) (payload : request) : world :=
  {| posted := posted w ++ [payload] |}.

(** ** Definitions used in the proofs *)

(** A scan that succeeds leaves strictly less text than it was given. *)
Definition consumes (A : Type) (x : scan (A * pystr)) (s : pystr) : Prop :=
  forall v r, x = Scanned (v, r) -> length r < length s.

(** Normalisation as one pass over the text.  A character is blank when
    it is a space or a newline; [skip] is 1 when the character at the head
    is the second of a pair of blanks, which gets no output. *)
Definition blank (c : N) : bool := ((c =? 32) || (c =? 10))%N.

Definition head_blank (s : pystr) : bool :=
  match s with
  | c :: _ => blank c
  | [] => false
  end.

Definition norm (skip : nat) (s : pystr) : pystr :=
  replace_from (str "  ") (str " ") skip
    (map (fun c => if (c =? 10)%N then 32%N else c) s).

(** No character of the word is blank. *)
Definition wordlike (w : pystr) : bool := forallb (fun c => negb (blank c)) w.

(** The pass is in a state it can be in at the head of [s]. *)
Definition norm_state (skip : nat) (s : pystr) : Prop :=
  skip = 0 \/ (skip = 1 /\ head_blank s = true).

(** No string of the value, key or not, holds two adjacent spaces. *)
Fixpoint single_spaced (v : pyval) : bool :=
  match v with
  | PStr s => negb (contains (str "  ") s)
  | PList l => forallb single_spaced l
  | PDict d =>
      forallb (fun kv : pystr * pyval =>
                 let (k, x) := kv in
                 negb (contains (str "  ") k) && single_spaced x) d
  | _ => true
  end.

(** [v'] is [v] except for strings of [v] that hold two adjacent spaces
    (and, in a dictionary, for what the change of such a key entails).  A
    dictionary is compared through the pairs it was built from. *)
#[warnings="-register-all"]
Inductive agree : pyval -> pyval -> Prop :=
| agree_same (v : pyval) : agree v v
| agree_str (s s' : pystr) :
    (contains (str "  ") s = false -> s' = s) -> agree (PStr s) (PStr s')
| agree_list (l l' : list pyval) :
    Forall2 agree l l' -> agree (PList l) (PList l')
| agree_dict (pairs pairs' : list (pystr * pyval)) :
    Forall2 (fun p p' => (contains (str "  ") (fst p) = false -> fst p' = fst p)
                         /\ agree (snd p) (snd p')) pairs pairs' ->
    agree (PDict (dict_of_pairs pairs)) (PDict (dict_of_pairs pairs')).

Definition agree_pairs : list (pystr * pyval) -> list (pystr * pyval) -> Prop :=
  Forall2 (fun p p' => (contains (str "  ") (fst p) = false -> fst p' = fst p)
                       /\ agree (snd p) (snd p')).

(** Two dictionaries with the same keys and values that agree. *)
Definition agree_entries : pydict -> pydict -> Prop :=
  Forall2 (fun e e' => fst e' = fst e /\ agree (snd e) (snd e')).

Fixpoint size (v : pyval) : nat :=
  match v with
  | PList l => S (list_sum (map size l))
  | PDict d =>
      S (list_sum (map (fun kv : pystr * pyval => let (_, x) := kv in size x) d))
  | _ => 1
  end.

(** The tally at the end of the loop of [_fallback_analysis]. *)
Definition final_tally (text_lower : pystr) : tally :=
  {| findings := findings_spec text_lower;
     missing_clauses := missing_spec text_lower;
     score := score_spec text_lower |}.

(** The two dictionaries [_structure_analysis] attaches. *)
Definition metadata_of (h : host) (self : DPAAnalyzer) (w : world)
    (original_text : pystr) : pyval :=
  PDict [
    (str "document_length", PInt (Z.of_nat (length original_text)));
    (str "analysis_timestamp", PFloat (loop_time h w));
    (str "analyzer_version", PStr (str "1.0.0"));
    (str "model_used", PStr (model_name self)) ].

Definition playbook_reference_of (self : DPAAnalyzer) : pyval :=
  PDict [
    (str "sections_reviewed",
     PInt (Z.of_nat (length (review_sections (get_playbook (knowledge_base self))))));
    (str "playbook_version", PStr (str "1.0.0")) ].

(** Case analysis on the first [match] of a hypothesis. *)
Ltac split_match_in H :=
  match type of H with
  | context [match ?x with _ => _ end] => destruct x eqn:?
  end.

(** ** The rest of the knowledge base, and the upload endpoint ([main.py]) *)

(** [DPAKnowledgeBase.get_section_guidance]: the first review section whose
    lower-cased title holds the lower-cased name, or [None]. *)
Definition get_section_guidance (h : host) (kb : DPAKnowledgeBase)
    (section_name : pystr) : option review_section :=
  List.find
    (fun sec => contains (lower h section_name) (lower h (section sec)))
    (review_sections (playbook kb)).

(** What a request handler hands to the framework: the JSON body it
    returns, or the [HTTPException] it raises. *)
Inductive http_reply : Type :=
| JSONBody (body : pyval)
| HTTPException (status_code : Z) (detail : pystr).

(** An uploaded file: its [filename] (which the framework may leave unset)
    and what [await file.read()] gives. *)
Record UploadFile : Type := {
  filename : option pystr;
  read : result bytes
}.

Section Endpoint.

Variable h : host.

(** [str(e)] for an [HTTPException] with a status code and a detail; its
    wording belongs to the framework. *)
Variable HTTPException_str : Z -> pystr -> pystr.

(** The body of the [try] of [analyze_dpa].  An [HTTPException] raised in
    it is an exception like any other for the handler below it. *)
Definition analyze_dpa_body (file : UploadFile) : io pyval :=
  fun w =>
    match filename file with
    | None => (Raise (no_attribute PNone (str "lower")), w)
    | Some name =>
        if negb (endswith (str ".pdf") (lower h name)
                 || endswith (str ".txt") (lower h name)
                 || endswith (str ".doc") (lower h name)
                 || endswith (str ".docx") (lower h name))
        then
          (Raise (OtherError
                    (HTTPException_str 400
                       (str "Unsupported file type. Please upload PDF, TXT, DOC, or DOCX files."))),
           w)
        else
          match read file with
          | Raise e => (Raise e, w)
          | Ok content =>
              let (r, w') := analyze_document h analyzer_init content name w in
              ((analysis_result <- r ;;
                Ok (PDict [
                      (str "filename", PStr name);
                      (str "analysis", analysis_result);
                      (str "status", PStr (str "success")) ]))%py,
               w')
          end
    end.

(** [analyze_dpa]: the endpoint [POST /analyze-dpa]. *)
Definition analyze_dpa (file : UploadFile) : world -> http_reply * world :=
  fun w =>
    let (r, w') := analyze_dpa_body file w in
    (match r with
     | Ok body => JSONBody body
     | Raise e => HTTPException 500 (str "Error analyzing DPA: " ++ exn_str e)
     end,
     w').

End Endpoint.

(** The framework's wording of an [HTTPException] used where a statement
    is evaluated: the status code, a colon, the detail. *)
Definition sample_HTTPException_str (status_code : Z) (detail : pystr) : pystr :=
  str_of_Z status_code ++ str ": " ++ detail.

(** ** More vocabulary of the statements *)

(** The number of categories of which a keyword occurs in the text. *)
Definition n_present (text_lower : pystr) : nat :=
  length (filter (present text_lower) key_terms).

(** The keys of a dictionary, in order. *)
Definition keys (d : pydict) : list pystr := map fst d.

Definition has_key (k : pystr) (d : pydict) : bool :=
  existsb (str_eqb k) (keys d).

Definition is_dict (v : pyval) : bool :=
  match v with PDict _ => true | _ => false end.


(** The exception [_call_ollama_api] raises for a cause with message [m]. *)
Definition llm_failed (m : pystr) : exn :=
  Exception (str "LLM API call failed: " ++ m).

(** The text of pages or paragraphs, each followed by a newline. *)
Definition lines_of (parts : list pystr) : pystr :=
  concat (map (fun p => p ++ [10%N]) parts).

(** The detail of the exception the upload endpoint raises for a cause with
    message [m]. *)
Definition error_detail (m : pystr) : pystr := str "Error analyzing DPA: " ++ m.

(** * Properties *)

(** ** Strings *)

Lemma str_eqb_eq (a b : pystr) : str_eqb a b = true <-> a = b.
Proof.
  revert b; induction a as [|x a IH]; intros [|y b]; simpl; split;
    try discriminate; try reflexivity.
  - intros H. apply andb_true_iff in H as [Hx Hab].
    apply N.eqb_eq in Hx. apply IH in Hab. congruence.
  - intros H. injection H as -> ->. rewrite N.eqb_refl. now apply IH.
Qed.

Lemma str_eqb_refl (a : pystr) : str_eqb a a = true.
Proof. now apply str_eqb_eq. Qed.

Lemma str_eqb_neq (a b : pystr) : a <> b -> str_eqb a b = false.
Proof.
  intros H. destruct (str_eqb a b) eqn:E; [|reflexivity].
  apply str_eqb_eq in E. contradiction.
Qed.

Lemma startswith_app (p r : pystr) : startswith p (p ++ r) = true.
Proof. induction p as [|x p IH]; simpl; [reflexivity|]. now rewrite N.eqb_refl. Qed.

Lemma startswith_inv (p s : pystr) :
  startswith p s = true -> exists r, s = p ++ r.
Proof.
  revert s; induction p as [|x p IH]; intros s H; simpl in *.
  - now exists s.
  - destruct s as [|y s]; [discriminate|].
    apply andb_true_iff in H as [Hx Hp]. apply N.eqb_eq in Hx. subst y.
    destruct (IH _ Hp) as [r ->]. now exists r.
Qed.

Lemma contains_here (k r : pystr) : contains k (k ++ r) = true.
Proof.
  destruct (k ++ r) eqn:E; simpl.
  - destruct k; [reflexivity | discriminate].
  - rewrite <- E, startswith_app. reflexivity.
Qed.

Lemma contains_skip (k a s : pystr) :
  contains k s = true -> contains k (a ++ s) = true.
Proof.
  intros H. induction a as [|x a IH]; simpl; [assumption|].
  rewrite IH. apply orb_true_r.
Qed.

Lemma contains_intro (k a b : pystr) : contains k (a ++ k ++ b) = true.
Proof. apply contains_skip, contains_here. Qed.

Lemma contains_inv (k s : pystr) :
  contains k s = true -> exists a b, s = a ++ k ++ b.
Proof.
  induction s as [|x s IH]; simpl; intros H.
  - rewrite orb_false_r in H. apply startswith_inv in H as [r ->].
    now exists [], r.
  - apply orb_true_iff in H as [H|H].
    + apply startswith_inv in H as [r ->]. now exists [], r.
    + destruct (IH H) as (a & b & ->). now exists (x :: a), b.
Qed.

(** A text that holds [p ++ k] holds [k]. *)
Lemma contains_tail (p k s : pystr) :
  contains (p ++ k) s = true -> contains k s = true.
Proof.
  intros H. apply contains_inv in H as (a & b & ->).
  rewrite <- app_assoc, app_assoc. apply contains_intro.
Qed.

Lemma occurs_false (c : N) (s : pystr) : occurs c s = false <-> ~ In c s.
Proof.
  unfold occurs. split.
  - intros H Hin. assert (existsb (N.eqb c) s = true); [|congruence].
    apply existsb_exists. exists c. split; [assumption | apply N.eqb_refl].
  - intros H. destruct (existsb (N.eqb c) s) eqn:E; [|reflexivity].
    apply existsb_exists in E as (x & Hin & Hx). apply N.eqb_eq in Hx. now subst.
Qed.

Lemma find_from_absent (c : N) (s : pystr) (i : Z) :
  ~ In c s -> find_from [c] s i = (-1)%Z.
Proof.
  revert i; induction s as [|x s IH]; intros i H; simpl; [reflexivity|].
  destruct (N.eqb_spec c x) as [->|Hne]; [exfalso; apply H; now left|].
  simpl. apply IH. intros Hin. apply H. now right.
Qed.

Lemma find_from_first (c : N) (a r : pystr) (i : Z) :
  ~ In c a -> find_from [c] (a ++ c :: r) i = (i + Z.of_nat (length a))%Z.
Proof.
  revert i; induction a as [|x a IH]; intros i H; simpl.
  - rewrite N.eqb_refl. simpl. lia.
  - destruct (N.eqb_spec c x) as [->|Hne]; [exfalso; apply H; now left|].
    simpl. rewrite IH; [lia|]. intros Hin. apply H. now right.
Qed.

Lemma find_from_present (c : N) (s : pystr) (i : Z) :
  In c s -> (0 <= i)%Z -> (0 <= find_from [c] s i)%Z.
Proof.
  intros Hin. apply in_split in Hin as (a & r & ->). revert i.
  induction a as [|x a IH]; intros i Hi; simpl.
  - rewrite N.eqb_refl. simpl. assumption.
  - destruct (c =? x)%N; simpl; [assumption|]. apply IH. lia.
Qed.

Lemma rfind_from_lower (k s : pystr) (i : Z) :
  (0 <= i)%Z -> (-1 <= rfind_from k s i)%Z.
Proof.
  revert i; induction s as [|x s IH]; intros i Hi; simpl.
  - destruct (startswith k []); lia.
  - specialize (IH (i + 1)%Z ltac:(lia)).
    destruct (rfind_from k s (i + 1) =? -1)%Z; [|assumption].
    destruct (startswith k (x :: s)); lia.
Qed.

Lemma rfind_from_absent (c : N) (s : pystr) (i : Z) :
  ~ In c s -> rfind_from [c] s i = (-1)%Z.
Proof.
  revert i; induction s as [|x s IH]; intros i H; simpl; [reflexivity|].
  rewrite IH by (intros Hin; apply H; now right). simpl.
  destruct (N.eqb_spec c x) as [->|Hne]; [exfalso; apply H; now left|].
  reflexivity.
Qed.

Lemma rfind_from_last (c : N) (a b : pystr) (i : Z) :
  (0 <= i)%Z -> ~ In c b ->
  rfind_from [c] (a ++ c :: b) i = (i + Z.of_nat (length a))%Z.
Proof.
  revert i; induction a as [|x a IH]; intros i Hi H.
  - simpl. rewrite rfind_from_absent by assumption. simpl.
    rewrite N.eqb_refl. simpl. lia.
  - cbn [app rfind_from]. rewrite IH by (assumption || lia).
    destruct (Z.eqb_spec (i + 1 + Z.of_nat (length a)) (-1)); [lia|].
    cbn [length]. lia.
Qed.

Lemma slice_middle (A : Type) (a m b : list A) :
  slice (a ++ m ++ b) (Z.of_nat (length a)) (Z.of_nat (length a + length m)) = m.
Proof.
  unfold slice, clip_index. rewrite !length_app.
  destruct (Z.ltb_spec (Z.of_nat (length a)) 0); [lia|].
  destruct (Z.ltb_spec (Z.of_nat (length a + length m)) 0); [lia|].
  rewrite !Z.min_r, !Z.max_r by lia.
  replace (Z.to_nat (Z.of_nat (length a + length m) - Z.of_nat (length a)))
    with (length m) by lia.
  rewrite Nat2Z.id, skipn_app, skipn_all, Nat.sub_diag. simpl.
  rewrite firstn_app, firstn_all, Nat.sub_diag. simpl. apply app_nil_r.
Qed.


Lemma replace_from_absent (old new s : pystr) :
  old <> [] -> contains old s = false -> replace_from old new 0 s = s.
Proof.
  intros Hold. induction s as [|c s IH]; simpl; intros H.
  - destruct old; [contradiction | reflexivity].
  - apply orb_false_iff in H as [H1 H2].
    destruct old as [|o old]; [contradiction|].
    simpl in H1. cbn [startswith]. rewrite H1. f_equal. now apply IH.
Qed.

Lemma replace_absent (old new s : pystr) :
  old <> [] -> contains old s = false -> replace old new s = s.
Proof. apply replace_from_absent. Qed.

Lemma contains_char (c : N) (s : pystr) : contains [c] s = occurs c s.
Proof.
  induction s as [|x s IH]; simpl; [reflexivity|].
  rewrite IH. now destruct (c =? x)%N.
Qed.

Lemma normalise_clean (s : pystr) :
  occurs 10 s = false -> contains (str "  ") s = false -> normalise s = s.
Proof.
  intros Hn Hs. unfold normalise.
  rewrite (replace_absent (old := [10%N])); [| discriminate | now rewrite contains_char].
  apply replace_absent; [discriminate | assumption].
Qed.

(** [strip] around a text whose first and last characters are not white
    space. *)
Lemma lstrip_app (a : pystr) (c : N) (r : pystr) :
  isspace c = false -> lstrip (a ++ c :: r) = lstrip a ++ c :: r.
Proof.
  intros Hc. induction a as [|x a IH]; simpl.
  - now rewrite Hc.
  - destruct (isspace x); [assumption | reflexivity].
Qed.

Lemma lstrip_incl (c : N) (s : pystr) : In c (lstrip s) -> In c s.
Proof.
  induction s as [|x s IH]; simpl; [tauto|].
  destruct (isspace x); simpl; auto.
Qed.

Lemma rstrip_incl (c : N) (s : pystr) : In c (rstrip s) -> In c s.
Proof.
  unfold rstrip. intros H. apply in_rev in H. apply lstrip_incl in H.
  now apply in_rev in H.
Qed.

Lemma rstrip_app (a : pystr) (c : N) (b : pystr) :
  isspace c = false -> rstrip (a ++ c :: b) = a ++ c :: rstrip b.
Proof.
  intros Hc. unfold rstrip.
  rewrite rev_app_distr. simpl. rewrite <- app_assoc. simpl.
  rewrite lstrip_app by assumption.
  rewrite rev_app_distr. simpl. rewrite rev_involutive, <- app_assoc. reflexivity.
Qed.

Lemma strip_around (pre mid post : pystr) (first last : N) :
  isspace first = false -> isspace last = false ->
  strip (pre ++ (first :: mid ++ [last]) ++ post)
  = lstrip pre ++ (first :: mid ++ [last]) ++ rstrip post.
Proof.
  intros Hf Hl. unfold strip. cbn [app].
  rewrite lstrip_app by assumption.
  assert (E : forall x y : pystr,
             x ++ first :: (mid ++ [last]) ++ y = (x ++ first :: mid) ++ last :: y).
  { intros x y. rewrite <- !app_assoc. reflexivity. }
  rewrite !E. now rewrite rstrip_app.
Qed.

Lemma replace_newline_map (s : pystr) :
  replace [10%N] (str " ") s = map (fun c => if (c =? 10)%N then 32%N else c) s.
Proof.
  unfold replace. induction s as [|c s IH]; [reflexivity|].
  cbn [replace_from startswith map length].
  rewrite (N.eqb_sym 10 c). destruct (c =? 10)%N; simpl; now rewrite IH.
Qed.

Lemma replace_from_chars (old new s : pystr) (skip : nat) (c : N) :
  old <> [] -> In c (replace_from old new skip s) -> In c new \/ In c s.
Proof.
  intros Hold. revert skip. induction s as [|x s IH]; intros skip H.
  - simpl in H. destruct skip, old; simpl in H; tauto.
  - cbn [replace_from] in H. destruct skip as [|k].
    + destruct (startswith old (x :: s)).
      * destruct old as [|o old]; [contradiction|].
        apply in_app_or in H as [H|H]; [now left|].
        apply IH in H. simpl. tauto.
      * destruct H as [H|H]; [right; now left|].
        apply IH in H. simpl. tauto.
    + apply IH in H. simpl. tauto.
Qed.

(** No newline is left in a normalised text. *)
Lemma normalise_no_newline (s : pystr) : occurs 10 (normalise s) = false.
Proof.
  apply occurs_false. unfold normalise, replace. intros H.
  apply replace_from_chars in H; [|discriminate].
  destruct H as [H|H].
  - simpl in H. destruct H as [H|[]]. discriminate.
  - fold (replace [10%N] (str " ") s) in H. rewrite replace_newline_map in H.
    apply in_map_iff in H as (x & Hx & _).
    destruct (N.eqb_spec x 10); [discriminate | congruence].
Qed.

(** ** The JSON decoder consumes its input and never runs out of fuel *)

Lemma skip_ws_length (s : pystr) : length (skip_ws s) <= length s.
Proof.
  induction s as [|c s IH]; simpl; [lia|].
  destruct (is_json_ws c); simpl; lia.
Qed.

Lemma skip_ws_cons_length (s r : pystr) (c : N) :
  skip_ws s = c :: r -> length r < length s.
Proof.
  intros H. pose proof (skip_ws_length s) as L. rewrite H in L. simpl in L. lia.
Qed.

Lemma scanstring_consumes (s acc k r : pystr) :
  scanstring acc s = Scanned (k, r) -> length r < length s.
Proof.
  remember (length s) as n eqn:Hn.
  assert (Hle : length s <= n) by lia. rewrite Hn. clear Hn.
  revert s acc k r Hle. induction n as [|n IH]; intros s acc k r Hn H.
  - destruct s; [discriminate | simpl in Hn; lia].
  - destruct s as [|c s]; [discriminate|].
    simpl in Hn. cbn [scanstring] in H.
    repeat (split_match_in H; try discriminate);
      try (injection H as <- <-; simpl; lia);
      subst; (apply IH in H; [simpl in *; lia | simpl in *; lia]).
Qed.

Lemma take_digits_length (s ds r : pystr) :
  take_digits s = (ds, r) -> length s = length ds + length r.
Proof.
  revert ds r; induction s as [|c s IH]; intros ds r H; simpl in H.
  - injection H as <- <-. reflexivity.
  - destruct (is_digit c).
    + destruct (take_digits s) as [ds' r'] eqn:E. injection H as <- <-.
      simpl. rewrite (IH _ _ eq_refl). reflexivity.
    + injection H as <- <-. reflexivity.
Qed.

Lemma take_digits_head (c : N) (s ds r : pystr) :
  is_digit c = true -> take_digits (c :: s) = (ds, r) -> length r <= length s.
Proof.
  intros Hc H. simpl in H. rewrite Hc in H.
  destruct (take_digits s) as [ds' r'] eqn:E. injection H as <- <-.
  apply take_digits_length in E. lia.
Qed.

Lemma scan_sign_length (s sign s1 : pystr) :
  scan_sign s = (sign, s1) -> length s1 <= length s.
Proof.
  unfold scan_sign. destruct s as [|c s']; [intros [= <- <-]; lia|].
  destruct (c =? 45)%N; intros [= <- <-]; simpl; lia.
Qed.

Lemma scan_int_part_length (d : N) (r int_part r1 : pystr) :
  is_digit d = true -> scan_int_part d r = (int_part, r1) -> length r1 <= length r.
Proof.
  unfold scan_int_part. intros Hd H.
  destruct (d =? 48)%N; [injection H as <- <-; lia|].
  eapply take_digits_head; eassumption.
Qed.

Lemma scan_fraction_length (r1 frac r2 : pystr) :
  scan_fraction r1 = (frac, r2) -> length r2 <= length r1.
Proof.
  unfold scan_fraction. intros H.
  destruct r1 as [|p r1']; [injection H as <- <-; lia|].
  destruct (p =? 46)%N; [|injection H as <- <-; lia].
  destruct (take_digits r1') as [ds r1''] eqn:Ed.
  apply take_digits_length in Ed.
  destruct ds; injection H as <- <-; simpl in *; lia.
Qed.

Lemma scan_exponent_length (r2 exp r3 : pystr) :
  scan_exponent r2 = (exp, r3) -> length r3 <= length r2.
Proof.
  unfold scan_exponent. intros H.
  destruct r2 as [|e r2']; [injection H as <- <-; lia|].
  destruct ((e =? 101) || (e =? 69))%N; [|injection H as <- <-; lia].
  destruct (scan_exponent_sign r2') as [sg r2''] eqn:Eg.
  assert (length r2'' <= length r2').
  { unfold scan_exponent_sign in Eg.
    destruct r2' as [|g t']; [injection Eg as <- <-; lia|].
    destruct ((g =? 45) || (g =? 43))%N; injection Eg as <- <-; simpl; lia. }
  destruct (take_digits r2'') as [ds r2'''] eqn:Ed.
  apply take_digits_length in Ed.
  destruct ds; injection H as <- <-; simpl in *; lia.
Qed.

Lemma scan_number_length (s r : pystr) (x : number_literal) :
  scan_number s = Some (x, r) -> length r < length s.
Proof.
  unfold scan_number. intros H.
  destruct (scan_sign s) as [sign s1] eqn:Es. apply scan_sign_length in Es.
  destruct s1 as [|d t]; [discriminate|].
  destruct (is_digit d) eqn:Ed; [|discriminate].
  destruct (scan_int_part d t) as [int_part r1] eqn:Ei.
  apply scan_int_part_length in Ei; [|assumption].
  destruct (scan_fraction r1) as [frac r2] eqn:Ef. apply scan_fraction_length in Ef.
  destruct (scan_exponent r2) as [exp r3] eqn:Ee. apply scan_exponent_length in Ee.
  simpl in Es.
  destruct frac, exp; injection H as <- <-; lia.
Qed.

Lemma startswith_length (p s : pystr) :
  startswith p s = true -> length p <= length s.
Proof.
  intros H. apply startswith_inv in H as [r ->]. rewrite length_app. lia.
Qed.

Lemma keyword_length (w s r : pystr) (v x : pyval) :
  w <> [] -> keyword w v s = Some (x, r) -> length r < length s.
Proof.
  unfold keyword. intros Hw H.
  destruct (startswith w s) eqn:E; [|discriminate].
  injection H as <- <-. apply startswith_length in E.
  rewrite length_skipn. destruct w; [contradiction | simpl in *; lia].
Qed.

Lemma number_value_rest (lim : interpreter_limits) (x : number_literal)
    (r r' : pystr) (v : pyval) :
  number_value lim x r = Scanned (v, r') -> r' = r.
Proof.
  destruct x as [negative digits|text]; simpl.
  - destruct (too_many_digits lim (length digits)); [discriminate|].
    now intros [= _ <-].
  - now intros [= _ <-].
Qed.

Section Decoder.

Variable lim : interpreter_limits.

Lemma consumes_value (fuel depth : nat) (s : pystr)
    (IHa : forall depth acc s, consumes (parse_array lim fuel depth acc s) s)
    (IHo : forall depth acc s, consumes (parse_object lim fuel depth acc s) s) :
  consumes (scan_once lim (S fuel) depth s) s.
Proof.
  intros v r H. cbn [scan_once] in H.
  destruct s as [|c t]; [discriminate|].
  destruct (c =? 34)%N.
  { destruct (scanstring [] t) as [[k r1]| | |] eqn:E; try discriminate.
    injection H as <- <-. apply scanstring_consumes in E. simpl. lia. }
  destruct (c =? 123)%N.
  { destruct depth as [|d]; [discriminate|].
    destruct (skip_ws t) as [|c1 r1] eqn:E; [discriminate|].
    apply skip_ws_cons_length in E.
    destruct (c1 =? 125)%N; [injection H as <- <-; simpl; lia|].
    destruct (c1 =? 34)%N; [|discriminate].
    apply IHo in H. simpl. lia. }
  destruct (c =? 91)%N.
  { destruct depth as [|d]; [discriminate|].
    destruct (skip_ws t) as [|c1 r1] eqn:E.
    - apply IHa in H. simpl in H. lia.
    - pose proof (skip_ws_length t) as L. rewrite E in L.
      destruct (c1 =? 93)%N; [injection H as <- <-; simpl in *; lia|].
      apply IHa in H. simpl in *. lia. }
  repeat match type of H with
         | context [match keyword ?w ?x ?y with _ => _ end] =>
             let E := fresh "E" in
             destruct (keyword w x y) as [[? ?]|] eqn:E;
             [ injection H as <- <-; revert E; apply keyword_length; discriminate | ]
         | context [match scan_number ?y with _ => _ end] =>
             let E := fresh "E" in
             destruct (scan_number y) as [[? ?]|] eqn:E;
             [ apply number_value_rest in H; subst; revert E;
               apply scan_number_length | ]
         end.
  discriminate.
Qed.

Lemma consumes_array (fuel depth : nat) (acc : list pyval) (s : pystr)
    (IHv : forall depth s, consumes (scan_once lim fuel depth s) s)
    (IHa : forall depth acc s, consumes (parse_array lim fuel depth acc s) s) :
  consumes (parse_array lim (S fuel) depth acc s) s.
Proof.
  intros v r H. cbn [parse_array] in H.
  destruct (scan_once lim fuel depth s) as [[v1 r1]| | |] eqn:E; try discriminate.
  apply IHv in E.
  destruct (skip_ws r1) as [|c r2] eqn:E1; [discriminate|].
  apply skip_ws_cons_length in E1.
  destruct (c =? 93)%N; [injection H as <- <-; lia|].
  destruct (c =? 44)%N; [|discriminate].
  apply IHa in H. pose proof (skip_ws_length r2). lia.
Qed.

Lemma consumes_object (fuel depth : nat) (acc : list (pystr * pyval)) (s : pystr)
    (IHv : forall depth s, consumes (scan_once lim fuel depth s) s)
    (IHo : forall depth acc s, consumes (parse_object lim fuel depth acc s) s) :
  consumes (parse_object lim (S fuel) depth acc s) s.
Proof.
  intros v r H. cbn [parse_object] in H.
  destruct (scanstring [] s) as [[key r0]| | |] eqn:E; try discriminate.
  apply scanstring_consumes in E.
  destruct (skip_ws r0) as [|c r1] eqn:E1; [discriminate|].
  apply skip_ws_cons_length in E1.
  destruct (c =? 58)%N; [|discriminate].
  destruct (scan_once lim fuel depth (skip_ws r1)) as [[v1 r2]| | |] eqn:E2;
    try discriminate.
  apply IHv in E2. pose proof (skip_ws_length r1).
  destruct (skip_ws r2) as [|c2 r3] eqn:E3; [discriminate|].
  apply skip_ws_cons_length in E3.
  destruct (c2 =? 125)%N; [injection H as <- <-; lia|].
  destruct (c2 =? 44)%N; [|discriminate].
  destruct (skip_ws r3) as [|c3 r4] eqn:E4; [discriminate|].
  apply skip_ws_cons_length in E4.
  destruct (c3 =? 34)%N; [|discriminate].
  apply IHo in H. lia.
Qed.

Lemma scan_consumes (fuel : nat) :
  (forall depth s, consumes (scan_once lim fuel depth s) s)
  /\ (forall depth acc s, consumes (parse_array lim fuel depth acc s) s)
  /\ (forall depth acc s, consumes (parse_object lim fuel depth acc s) s).
Proof.
  induction fuel as [|fuel (IHv & IHa & IHo)].
  - repeat split; intros; intros v r H; discriminate.
  - repeat split; intros.
    + now apply consumes_value.
    + now apply consumes_array.
    + now apply consumes_object.
Qed.

Lemma scan_once_consumes (fuel depth : nat) (s r : pystr) (v : pyval) :
  scan_once lim fuel depth s = Scanned (v, r) -> length r < length s.
Proof. apply (proj1 (scan_consumes fuel)). Qed.

(** With [2 * length s + 1] units of fuel for a value, and one more for the
    continuation of an array or an object, the decoder does not exhaust its
    fuel. *)
Lemma scanstring_not_exhausted (s acc : pystr) : scanstring acc s <> Exhausted.
Proof.
  remember (length s) as n eqn:Hn.
  assert (Hle : length s <= n) by lia. clear Hn.
  revert s acc Hle. induction n as [|n IH]; intros s acc Hle.
  - destruct s; [discriminate | simpl in Hle; lia].
  - destruct s as [|c s]; [discriminate|].
    simpl in Hle. cbn [scanstring]. intros H.
    repeat (split_match_in H; try discriminate);
      subst; (apply IH in H; [assumption | simpl in *; lia]).
Qed.

Lemma scan_fuel (fuel : nat) :
  (forall depth s, 2 * length s + 1 <= fuel -> scan_once lim fuel depth s <> Exhausted)
  /\ (forall depth acc s, 2 * length s + 2 <= fuel ->
      parse_array lim fuel depth acc s <> Exhausted)
  /\ (forall depth acc s, 2 * length s + 2 <= fuel ->
      parse_object lim fuel depth acc s <> Exhausted).
Proof.
  induction fuel as [|fuel (IHv & IHa & IHo)].
  - repeat split; intros; lia.
  - repeat split.
    + intros depth s Hf H. cbn [scan_once] in H.
      destruct s as [|c t]; [discriminate|]. simpl in Hf.
      destruct (c =? 34)%N.
      { destruct (scanstring [] t) as [[k r1]| | |] eqn:E; try discriminate.
        now apply scanstring_not_exhausted in E. }
      destruct (c =? 123)%N.
      { destruct depth as [|d]; [discriminate|].
        destruct (skip_ws t) as [|c1 r1] eqn:E; [discriminate|].
        apply skip_ws_cons_length in E.
        destruct (c1 =? 125)%N; [discriminate|].
        destruct (c1 =? 34)%N; [|discriminate].
        revert H. apply IHo. lia. }
      destruct (c =? 91)%N.
      { destruct depth as [|d]; [discriminate|].
        destruct (skip_ws t) as [|c1 r1] eqn:E.
        - revert H. apply IHa. simpl. lia.
        - pose proof (skip_ws_length t) as L. rewrite E in L.
          destruct (c1 =? 93)%N; [discriminate|].
          revert H. apply IHa. simpl in *. lia. }
      unfold number_value in H.
      repeat match type of H with
             | context [match ?x with _ => _ end] => destruct x; try discriminate
             end.
    + intros depth acc s Hf H. cbn [parse_array] in H.
      destruct (scan_once lim fuel depth s) as [[v1 r1]| | |] eqn:E; try discriminate.
      * apply scan_once_consumes in E.
        destruct (skip_ws r1) as [|c r2] eqn:E1; [discriminate|].
        apply skip_ws_cons_length in E1.
        destruct (c =? 93)%N; [discriminate|].
        destruct (c =? 44)%N; [|discriminate].
        revert H. apply IHa. pose proof (skip_ws_length r2). lia.
      * revert E. apply IHv. lia.
    + intros depth acc s Hf H. cbn [parse_object] in H.
      destruct (scanstring [] s) as [[key r0]| | |] eqn:E; try discriminate.
      * apply scanstring_consumes in E.
        destruct (skip_ws r0) as [|c r1] eqn:E1; [discriminate|].
        apply skip_ws_cons_length in E1.
        destruct (c =? 58)%N; [|discriminate].
        pose proof (skip_ws_length r1).
        destruct (scan_once lim fuel depth (skip_ws r1)) as [[v1 r2]| | |] eqn:E2;
          try discriminate.
        -- apply scan_once_consumes in E2.
           destruct (skip_ws r2) as [|c2 r3] eqn:E3; [discriminate|].
           apply skip_ws_cons_length in E3.
           destruct (c2 =? 125)%N; [discriminate|].
           destruct (c2 =? 44)%N; [|discriminate].
           destruct (skip_ws r3) as [|c3 r4] eqn:E4; [discriminate|].
           apply skip_ws_cons_length in E4.
           destruct (c3 =? 34)%N; [|discriminate].
           revert H. apply IHo. lia.
        -- revert E2. apply IHv. lia.
      * now apply scanstring_not_exhausted in E.
Qed.

Lemma json_decode_fuel_enough (s : pystr) : json_decode lim s <> Exhausted.
Proof.
  unfold json_decode, json_fuel. intros H.
  destruct (scan_once lim (2 * length s + 2) (json_max_depth lim) (skip_ws s))
    as [[v r]| | |] eqn:E.
  - destruct (skip_ws r); discriminate.
  - discriminate.
  - discriminate.
  - revert E. apply (proj1 (scan_fuel _)). pose proof (skip_ws_length s). lia.
Qed.

(** [json.loads] returns a value or raises [JSONDecodeError], or else the
    error of a limit of the interpreter. *)
Lemma json_loads_cases (s : pystr) :
  (exists v, json_loads lim s = Ok v)
  \/ (exists m, json_loads lim s = Raise (JSONDecodeError m))
  \/ (exists m, json_loads lim s = Raise (OtherError m)
                /\ json_decode lim s = Aborted m).
Proof.
  unfold json_loads. destruct (startswith [65279%N] s); [right; left; eauto|].
  pose proof (json_decode_fuel_enough s) as H.
  destruct (json_decode lim s); [left | right; left | right; right | contradiction];
    eauto.
Qed.

End Decoder.

(** ** More fuel changes nothing *)

Section MoreFuel.

Variable lim : interpreter_limits.

Lemma scan_more_fuel_step (fuel : nat) :
  (forall depth s, scan_once lim fuel depth s <> Exhausted ->
     scan_once lim (S fuel) depth s = scan_once lim fuel depth s)
  /\ (forall depth acc s, parse_array lim fuel depth acc s <> Exhausted ->
     parse_array lim (S fuel) depth acc s = parse_array lim fuel depth acc s)
  /\ (forall depth acc s, parse_object lim fuel depth acc s <> Exhausted ->
     parse_object lim (S fuel) depth acc s = parse_object lim fuel depth acc s).
Proof.
  induction fuel as [|fuel (IHv & IHa & IHo)].
  - repeat split; intros; simpl in *; congruence.
  - repeat split.
    + intros depth s H.
      remember (S fuel) as f1 eqn:Ef1.
      rewrite Ef1 in H at 1. rewrite Ef1 at 2.
      cbn [scan_once] in H |- *.
      destruct s as [|c t]; [reflexivity|].
      destruct (c =? 34)%N; [reflexivity|].
      destruct (c =? 123)%N.
      { destruct depth as [|d]; [reflexivity|].
        destruct (skip_ws t) as [|c1 r1]; [reflexivity|].
        destruct (c1 =? 125)%N; [reflexivity|].
        destruct (c1 =? 34)%N; [|reflexivity].
        subst f1. now apply IHo. }
      destruct (c =? 91)%N.
      { destruct depth as [|d]; [reflexivity|].
        destruct (skip_ws t) as [|c1 r1]; [subst f1; now apply IHa|].
        destruct (c1 =? 93)%N; [reflexivity|].
        subst f1. now apply IHa. }
      reflexivity.
    + intros depth acc s H.
      remember (S fuel) as f1 eqn:Ef1.
      rewrite Ef1 in H at 1. rewrite Ef1 at 2.
      cbn [parse_array] in H |- *. subst f1.
      destruct (scan_once lim fuel depth s) as [[v r]|m|m|] eqn:E;
        try (rewrite IHv, E by (rewrite E; discriminate); reflexivity);
        [|contradiction].
      rewrite IHv, E by (rewrite E; discriminate).
      destruct (skip_ws r) as [|c r1]; [reflexivity|].
      destruct (c =? 93)%N; [reflexivity|].
      destruct (c =? 44)%N; [|reflexivity].
      now apply IHa.
    + intros depth acc s H.
      remember (S fuel) as f1 eqn:Ef1.
      rewrite Ef1 in H at 1. rewrite Ef1 at 2.
      cbn [parse_object] in H |- *. subst f1.
      destruct (scanstring [] s) as [[key r]|m|m|]; try reflexivity.
      destruct (skip_ws r) as [|c r1]; [reflexivity|].
      destruct (c =? 58)%N; [|reflexivity].
      destruct (scan_once lim fuel depth (skip_ws r1)) as [[v r2]|m|m|] eqn:E;
        try (rewrite IHv, E by (rewrite E; discriminate); reflexivity);
        [|contradiction].
      rewrite IHv, E by (rewrite E; discriminate).
      destruct (skip_ws r2) as [|c2 r3]; [reflexivity|].
      destruct (c2 =? 125)%N; [reflexivity|].
      destruct (c2 =? 44)%N; [|reflexivity].
      destruct (skip_ws r3) as [|c3 r4]; [reflexivity|].
      destruct (c3 =? 34)%N; [|reflexivity].
      now apply IHo.
Qed.

Lemma scan_more_fuel (fuel more depth : nat) (s : pystr) :
  scan_once lim fuel depth s <> Exhausted ->
  scan_once lim (more + fuel) depth s = scan_once lim fuel depth s.
Proof.
  intros H. induction more as [|more IH]; [reflexivity|].
  cbn [Nat.add]. rewrite (proj1 (scan_more_fuel_step _)); [assumption|].
  now rewrite IH.
Qed.

(** Two amounts of fuel that both suffice give the same result. *)
Lemma scan_any_fuel (f1 f2 depth : nat) (s : pystr) :
  scan_once lim f1 depth s <> Exhausted ->
  scan_once lim f2 depth s <> Exhausted ->
  scan_once lim f1 depth s = scan_once lim f2 depth s.
Proof.
  intros H1 H2. destruct (Nat.le_ge_cases f1 f2) as [L|L].
  - replace f2 with ((f2 - f1) + f1) by lia. symmetry. now apply scan_more_fuel.
  - replace f1 with ((f1 - f2) + f2) by lia. now apply scan_more_fuel.
Qed.

End MoreFuel.

(** ** Normalisation, one character at a time *)

Lemma normalise_norm (s : pystr) : normalise s = norm 0 s.
Proof. unfold normalise, norm. now rewrite replace_newline_map. Qed.

Lemma norm_nil (skip : nat) : norm skip [] = [].
Proof. destruct skip; reflexivity. Qed.

Lemma norm_skip (skip : nat) (c : N) (t : pystr) : norm (S skip) (c :: t) = norm skip t.
Proof. reflexivity. Qed.

Lemma blank_cases (c : N) : blank c = true -> c = 32%N \/ c = 10%N.
Proof.
  unfold blank. intros H. apply orb_true_iff in H as [H|H]; apply N.eqb_eq in H; auto.
Qed.

Lemma norm_cons_char (c : N) (t : pystr) :
  blank c = false -> norm 0 (c :: t) = c :: norm 0 t.
Proof.
  unfold blank, norm. intros H. apply orb_false_iff in H as [H32 H10].
  cbn [map]. rewrite H10. change (str "  ") with [32%N; 32%N].
  cbn [replace_from startswith]. rewrite (N.eqb_sym 32 c), H32. reflexivity.
Qed.

Lemma norm_cons_blank (c : N) (t : pystr) :
  blank c = true ->
  norm 0 (c :: t) = 32%N :: norm (if head_blank t then 1 else 0) t.
Proof.
  intros H. unfold norm. cbn [map].
  assert (E : (if (c =? 10)%N then 32%N else c) = 32%N).
  { apply blank_cases in H as [->| ->]; reflexivity. }
  rewrite E. change (str "  ") with [32%N; 32%N]. change (str " ") with [32%N].
  cbn [replace_from startswith]. rewrite N.eqb_refl. cbn [andb].
  destruct t as [|y t]; [reflexivity|].
  cbn [map startswith head_blank]. unfold blank.
  destruct (N.eqb_spec y 10) as [->|H10].
  - reflexivity.
  - rewrite orb_false_r, (N.eqb_sym 32 y).
    destruct (y =? 32)%N; reflexivity.
Qed.

Lemma norm_state_start (s : pystr) : norm_state 0 s.
Proof. now left. Qed.

Lemma norm_state_next (t : pystr) : norm_state (if head_blank t then 1 else 0) t.
Proof. destruct (head_blank t) eqn:E; [right | left]; auto. Qed.

Lemma norm_state_cases (skip : nat) (s : pystr) :
  norm_state skip s ->
  skip = 0 \/ (exists c t, skip = 1 /\ s = c :: t /\ blank c = true).
Proof.
  intros [->|[-> H]]; [now left|right].
  destruct s as [|c t]; [discriminate|]. now exists c, t.
Qed.

Lemma norm_length (s : pystr) (skip : nat) : length (norm skip s) <= length s.
Proof.
  revert skip. induction s as [|c t IH]; intros skip.
  - now rewrite norm_nil.
  - destruct skip as [|k].
    + destruct (blank c) eqn:E.
      * rewrite norm_cons_blank by assumption. simpl. specialize (IH (if head_blank t then 1 else 0)). lia.
      * rewrite norm_cons_char by assumption. simpl. specialize (IH 0). lia.
    + rewrite norm_skip. specialize (IH k). simpl. lia.
Qed.

Lemma norm_app_word (w rest : pystr) :
  wordlike w = true -> norm 0 (w ++ rest) = w ++ norm 0 rest.
Proof.
  induction w as [|x w IH]; [reflexivity|].
  cbn [wordlike forallb app]. intros H. apply andb_true_iff in H as [Hx Hw].
  apply negb_true_iff in Hx. rewrite norm_cons_char by assumption.
  f_equal. now apply IH.
Qed.

Lemma startswith_norm (w s : pystr) :
  wordlike w = true -> startswith w (norm 0 s) = startswith w s.
Proof.
  revert s. induction w as [|x w IH]; intros s H; [reflexivity|].
  cbn [wordlike forallb] in H. apply andb_true_iff in H as [Hx Hw].
  apply negb_true_iff in Hx.
  destruct s as [|c t]; [reflexivity|].
  destruct (blank c) eqn:Hc.
  - rewrite norm_cons_blank by assumption. cbn [startswith].
    assert (Hx32 : (x =? 32)%N = false).
    { unfold blank in Hx. now apply orb_false_iff in Hx as [? _]. }
    assert (Hxc : (x =? c)%N = false).
    { apply N.eqb_neq. intros ->. congruence. }
    now rewrite Hx32, Hxc.
  - rewrite norm_cons_char by assumption. cbn [startswith].
    now rewrite (IH t Hw).
Qed.

Lemma is_json_ws_blank (c : N) : blank c = true -> is_json_ws c = true.
Proof. intros H. apply blank_cases in H as [->| ->]; reflexivity. Qed.

Lemma skip_ws_norm (s : pystr) (skip : nat) :
  norm_state skip s -> skip_ws (norm skip s) = norm 0 (skip_ws s).
Proof.
  revert skip. induction s as [|c t IH]; intros skip H.
  - now rewrite norm_nil.
  - apply norm_state_cases in H as [->|(c' & t' & -> & [= <- <-] & Hc)].
    + destruct (blank c) eqn:Hc.
      * rewrite norm_cons_blank by assumption.
        cbn [skip_ws]. rewrite (is_json_ws_blank _ Hc).
        change (is_json_ws 32) with true. cbv iota.
        apply IH, norm_state_next.
      * rewrite norm_cons_char by assumption. cbn [skip_ws].
        destruct (is_json_ws c).
        -- apply IH, norm_state_start.
        -- now rewrite norm_cons_char.
    + rewrite norm_skip. cbn [skip_ws]. rewrite (is_json_ws_blank _ Hc).
      apply IH, norm_state_start.
Qed.

Lemma skip_ws_head (s r : pystr) (c : N) :
  skip_ws s = c :: r -> blank c = false.
Proof.
  induction s as [|x s IH]; [discriminate|]. cbn [skip_ws].
  destruct (is_json_ws x) eqn:E; [assumption|].
  intros [= -> ->]. destruct (blank c) eqn:B; [|reflexivity].
  apply is_json_ws_blank in B. congruence.
Qed.

(** What follows white space in the normalised text. *)
Lemma skip_ws_norm_cons (s r : pystr) (c : N) :
  skip_ws s = c :: r -> skip_ws (norm 0 s) = c :: norm 0 r.
Proof.
  intros H. rewrite skip_ws_norm by apply norm_state_start. rewrite H.
  apply norm_cons_char. eapply skip_ws_head; eassumption.
Qed.

Lemma skip_ws_norm_nil (s : pystr) : skip_ws s = [] -> skip_ws (norm 0 s) = [].
Proof.
  intros H. rewrite skip_ws_norm by apply norm_state_start. now rewrite H.
Qed.

Lemma keyword_norm (w : pystr) (x : pyval) (s : pystr) :
  wordlike w = true ->
  keyword w x (norm 0 s)
  = option_map (fun p => (fst p, norm 0 (snd p))) (keyword w x s).
Proof.
  intros Hw. unfold keyword. rewrite startswith_norm by assumption.
  destruct (startswith w s) eqn:E; [|reflexivity].
  apply startswith_inv in E as [r ->]. cbn [option_map fst snd].
  rewrite norm_app_word by assumption.
  rewrite !skipn_app, !skipn_all, Nat.sub_diag. reflexivity.
Qed.

Lemma is_digit_not_blank (c : N) : is_digit c = true -> blank c = false.
Proof.
  unfold is_digit, blank. intros H. apply andb_true_iff in H as [H1 H2].
  apply N.leb_le in H1. apply orb_false_iff. split; apply N.eqb_neq; lia.
Qed.

Lemma take_digits_norm (s : pystr) :
  take_digits (norm 0 s) = (fst (take_digits s), norm 0 (snd (take_digits s))).
Proof.
  induction s as [|c t IH]; [reflexivity|].
  cbn [take_digits]. destruct (is_digit c) eqn:Hd.
  - rewrite norm_cons_char by now apply is_digit_not_blank.
    cbn [take_digits]. rewrite Hd, IH.
    now destruct (take_digits t).
  - cbn [fst snd]. destruct (blank c) eqn:Hb.
    + now rewrite norm_cons_blank.
    + rewrite norm_cons_char by assumption. cbn [take_digits]. now rewrite Hd.
Qed.

(** A blank at the head: both sides are computed. *)
Ltac blank_head H :=
  apply blank_cases in H as [->| ->];
  rewrite ?norm_cons_blank by reflexivity;
  cbn [N.eqb Pos.eqb orb fst snd is_digit N.leb N.compare Pos.compare
       Pos.compare_cont andb];
  rewrite ?norm_cons_blank by reflexivity;
  reflexivity.

Lemma scan_sign_norm (s : pystr) :
  scan_sign (norm 0 s) = (fst (scan_sign s), norm 0 (snd (scan_sign s))).
Proof.
  destruct s as [|c r]; [reflexivity|]. unfold scan_sign.
  destruct (blank c) eqn:Hb.
  - blank_head Hb.
  - rewrite norm_cons_char by assumption.
    destruct (c =? 45)%N; [reflexivity|]. cbn [fst snd].
    now rewrite norm_cons_char.
Qed.

Lemma scan_int_part_norm (d : N) (r : pystr) :
  is_digit d = true ->
  scan_int_part d (norm 0 r)
  = (fst (scan_int_part d r), norm 0 (snd (scan_int_part d r))).
Proof.
  intros Hd. unfold scan_int_part. destruct (d =? 48)%N; [reflexivity|].
  rewrite <- (norm_cons_char d r) by now apply is_digit_not_blank.
  apply take_digits_norm.
Qed.

Lemma scan_fraction_norm (r1 : pystr) :
  scan_fraction (norm 0 r1)
  = (fst (scan_fraction r1), norm 0 (snd (scan_fraction r1))).
Proof.
  destruct r1 as [|p r]; [reflexivity|]. unfold scan_fraction.
  destruct (blank p) eqn:Hb.
  - blank_head Hb.
  - rewrite norm_cons_char by assumption.
    destruct (p =? 46)%N.
    + rewrite take_digits_norm. destruct (take_digits r) as [ds r'].
      cbn [fst snd]. destruct ds; [|reflexivity].
      cbn [fst snd]. now rewrite norm_cons_char.
    + cbn [fst snd]. now rewrite norm_cons_char.
Qed.

Lemma scan_exponent_sign_norm (r : pystr) :
  scan_exponent_sign (norm 0 r)
  = (fst (scan_exponent_sign r), norm 0 (snd (scan_exponent_sign r))).
Proof.
  destruct r as [|g t]; [reflexivity|]. unfold scan_exponent_sign.
  destruct (blank g) eqn:Hg.
  - blank_head Hg.
  - rewrite norm_cons_char by assumption.
    destruct ((g =? 45) || (g =? 43))%N; [reflexivity|].
    cbn [fst snd]. now rewrite norm_cons_char.
Qed.

Lemma scan_exponent_norm (r2 : pystr) :
  scan_exponent (norm 0 r2)
  = (fst (scan_exponent r2), norm 0 (snd (scan_exponent r2))).
Proof.
  destruct r2 as [|e r]; [reflexivity|]. unfold scan_exponent.
  destruct (blank e) eqn:Hb.
  { blank_head Hb. }
  rewrite norm_cons_char by assumption.
  destruct ((e =? 101) || (e =? 69))%N;
    [|cbn [fst snd]; now rewrite norm_cons_char].
  rewrite scan_exponent_sign_norm.
  destruct (scan_exponent_sign r) as [sg r'].
  cbn [fst snd]. rewrite take_digits_norm.
  destruct (take_digits r') as [ds r'']. cbn [fst snd].
  destruct ds; [|reflexivity]. cbn [fst snd]. now rewrite norm_cons_char.
Qed.

Lemma scan_number_norm (s : pystr) :
  scan_number (norm 0 s)
  = option_map (fun p => (fst p, norm 0 (snd p))) (scan_number s).
Proof.
  unfold scan_number. rewrite scan_sign_norm.
  destruct (scan_sign s) as [sign s1]. cbn [fst snd].
  destruct s1 as [|d r]; [reflexivity|].
  destruct (blank d) eqn:Hb.
  { blank_head Hb. }
  rewrite norm_cons_char by assumption.
  destruct (is_digit d) eqn:Hd; [|reflexivity].
  rewrite scan_int_part_norm by assumption.
  destruct (scan_int_part d r) as [int_part r1]. cbn [fst snd].
  rewrite scan_fraction_norm.
  destruct (scan_fraction r1) as [frac r2]. cbn [fst snd].
  rewrite scan_exponent_norm.
  destruct (scan_exponent r2) as [exp r3]. cbn [fst snd].
  destruct frac, exp; reflexivity.
Qed.

(** ** Normalisation inside a string *)

Lemma contains_app_l (k a b : pystr) :
  contains k a = true -> contains k (a ++ b) = true.
Proof.
  intros H. apply contains_inv in H as (x & y & ->).
  rewrite <- !app_assoc. apply contains_intro.
Qed.

Lemma hex_digit_not_blank (c x : N) : hex_digit c = Some x -> blank c = false.
Proof.
  intros H. destruct (blank c) eqn:B; [|reflexivity].
  apply blank_cases in B as [->| ->]; discriminate.
Qed.

Lemma hex4_not_blank (a b c d u : N) :
  hex4 a b c d = Some u -> wordlike [a; b; c; d] = true.
Proof.
  unfold hex4. intros H.
  destruct (hex_digit a) eqn:Ea; [|discriminate].
  destruct (hex_digit b) eqn:Eb; [|discriminate].
  destruct (hex_digit c) eqn:Ec; [|discriminate].
  destruct (hex_digit d) eqn:Ed; [|discriminate].
  cbn [wordlike forallb].
  now rewrite (hex_digit_not_blank _ Ea), (hex_digit_not_blank _ Eb),
    (hex_digit_not_blank _ Ec), (hex_digit_not_blank _ Ed).
Qed.

Lemma backslash_not_blank (e ch : N) : backslash e = Some ch -> blank e = false.
Proof.
  intros H. destruct (blank e) eqn:B; [|reflexivity].
  apply blank_cases in B as [->| ->]; discriminate.
Qed.

(** A [\u] escape that is not the first half of a surrogate pair. *)
Lemma scanstring_u_single (acc : pystr) (h1 h2 h3 h4 uni : N) (r2 : pystr) :
  hex4 h1 h2 h3 h4 = Some uni ->
  is_high_surrogate uni && startswith [92%N; 117%N] r2 = false ->
  scanstring acc (92%N :: 117%N :: h1 :: h2 :: h3 :: h4 :: r2)
  = scanstring (uni :: acc) r2.
Proof.
  intros Hh Hc. cbn [scanstring N.eqb Pos.eqb]. rewrite Hh.
  destruct r2 as [|b [|u [|g1 [|g2 [|g3 [|g4 r3]]]]]]; try reflexivity.
  cbn [startswith] in Hc. rewrite andb_true_r in Hc.
  rewrite (N.eqb_sym 92 b), (N.eqb_sym 117 u), andb_assoc in Hc.
  now rewrite Hc.
Qed.

(** A [\u] that nothing complete follows is refused. *)
Lemma scanstring_u_short (acc x : pystr) :
  length x < 4 -> exists m, scanstring acc (92%N :: 117%N :: x) = Failed m.
Proof.
  intros H. destruct x as [|a [|b [|c [|d x]]]]; try (simpl in H; lia);
    cbn [scanstring N.eqb Pos.eqb]; eauto.
Qed.

(** The accumulators of the two scans: equal, unless two adjacent spaces
    have been read. *)
Lemma acc_push (acc acc' : pystr) (ch : N) :
  acc' = acc \/ contains (str "  ") (rev acc) = true ->
  ch :: acc' = ch :: acc \/ contains (str "  ") (rev (ch :: acc)) = true.
Proof.
  intros [->|H]; [now left|right]. cbn [rev]. now apply contains_app_l.
Qed.

Lemma scanstring_norm (n : nat) :
  forall (s : pystr) (skip : nat) (acc acc' k r : pystr),
    length s <= n ->
    norm_state skip s ->
    (skip = 1 -> exists a, acc = 32%N :: a) ->
    acc' = acc \/ contains (str "  ") (rev acc) = true ->
    scanstring acc s = Scanned (k, r) ->
    exists k', scanstring acc' (norm skip s) = Scanned (k', norm 0 r)
               /\ (contains (str "  ") k = false -> k' = k).
Proof.
  induction n as [|n IH]; intros s skip acc acc' k r Hn Hst Hacc HJ H.
  { destruct s; [discriminate | simpl in Hn; lia]. }
  destruct s as [|c t]; [discriminate|]. simpl in Hn.
  apply norm_state_cases in Hst as [->|(c' & t' & -> & [= <- <-] & Hc)].
  2:{ (* the second blank of a pair: it is a space, and is dropped *)
    destruct (Hacc eq_refl) as [a ->].
    rewrite norm_skip.
    apply blank_cases in Hc as [->| ->]; [|discriminate].
    cbn [scanstring N.eqb Pos.eqb N.ltb N.compare Pos.compare Pos.compare_cont] in H.
    eapply (IH t 0 (32%N :: 32%N :: a) acc' k r); [ | | | | exact H ].
    - lia.
    - apply norm_state_start.
    - discriminate.
    - right. cbn [rev]. rewrite <- app_assoc. apply contains_skip.
      reflexivity. }
  pose proof H as H0. cbn [scanstring] in H.
  destruct (c =? 34)%N eqn:E34.
  { apply N.eqb_eq in E34. subst c. injection H as <- <-.
    rewrite norm_cons_char by reflexivity. cbn [scanstring N.eqb Pos.eqb].
    eexists. split; [reflexivity|]. intros C.
    destruct HJ as [->|HJ]; [reflexivity | congruence]. }
  destruct (c =? 92)%N eqn:E92.
  { apply N.eqb_eq in E92. subst c.
    destruct t as [|e r1]; [discriminate|].
    destruct (e =? 117)%N eqn:E117.
    - apply N.eqb_eq in E117. subst e.
      destruct r1 as [|h1 [|h2 [|h3 [|h4 r2]]]]; try discriminate.
      destruct (hex4 h1 h2 h3 h4) as [uni|] eqn:Eh; [|discriminate].
      pose proof (hex4_not_blank _ _ _ _ Eh) as Hw.
      assert (Hn1 : norm 0 (92%N :: 117%N :: h1 :: h2 :: h3 :: h4 :: r2)
                    = 92%N :: 117%N :: h1 :: h2 :: h3 :: h4 :: norm 0 r2).
      { apply (norm_app_word [92%N; 117%N; h1; h2; h3; h4]).
        cbn [wordlike forallb] in Hw |- *. exact Hw. }
      rewrite Hn1.
      destruct (is_high_surrogate uni && startswith [92%N; 117%N] r2) eqn:Ep.
      + apply andb_true_iff in Ep as [Ehigh Ep].
        apply startswith_inv in Ep as [x ->]. cbn [app] in *.
        destruct x as [|g1 [|g2 [|g3 [|g4 r3]]]];
          try (match type of H with
               | scanstring ?a (92%N :: 117%N :: ?x) = _ =>
                   destruct (@scanstring_u_short a x ltac:(simpl; lia)) as [m Hm];
                   rewrite Hm in H; discriminate
               end).
        rewrite Ehigh in H. cbn [N.eqb Pos.eqb andb] in H.
        destruct (hex4 g1 g2 g3 g4) as [uni2|] eqn:Eg; [|discriminate].
        pose proof (hex4_not_blank _ _ _ _ Eg) as Hw2.
        assert (Hn2 : norm 0 (92%N :: 117%N :: g1 :: g2 :: g3 :: g4 :: r3)
                      = 92%N :: 117%N :: g1 :: g2 :: g3 :: g4 :: norm 0 r3).
        { apply (norm_app_word [92%N; 117%N; g1; g2; g3; g4]).
          cbn [wordlike forallb] in Hw2 |- *. exact Hw2. }
        destruct (is_low_surrogate uni2) eqn:Elow.
        * rewrite Hn2. cbn [scanstring N.eqb Pos.eqb].
          rewrite Eh, Ehigh, Eg, Elow. cbn [andb].
          eapply (IH r3 0); [ | | | | exact H ].
          -- simpl in Hn |- *. lia.
          -- apply norm_state_start.
          -- discriminate.
          -- now apply acc_push.
        * cbn [scanstring N.eqb Pos.eqb].
          rewrite Eh. rewrite Hn2. rewrite Ehigh, Eg, Elow. cbn [andb].
          rewrite <- Hn2.
          eapply (IH _ 0); [ | | | | exact H ].
          -- simpl in Hn |- *. lia.
          -- apply norm_state_start.
          -- discriminate.
          -- now apply acc_push.
      + rewrite (scanstring_u_single acc _ _ _ _ _ Eh Ep) in H0.
        rewrite (scanstring_u_single acc' _ _ _ _ (norm 0 r2) Eh)
          by (rewrite startswith_norm by reflexivity; exact Ep).
        eapply (IH r2 0); [ | | | | exact H0 ].
        * simpl in Hn |- *. lia.
        * apply norm_state_start.
        * discriminate.
        * now apply acc_push.
    - destruct (backslash e) as [ch|] eqn:Ebs; [|discriminate].
      pose proof (backslash_not_blank _ Ebs) as He.
      rewrite (norm_cons_char 92) by reflexivity.
      rewrite (norm_cons_char e) by assumption.
      cbn [scanstring N.eqb Pos.eqb]. rewrite E117, Ebs.
      eapply (IH r1 0); [ | | | | exact H ].
      + simpl in Hn |- *. lia.
      + apply norm_state_start.
      + discriminate.
      + now apply acc_push. }
  destruct (c <? 32)%N eqn:Elt; [discriminate|].
  destruct (blank c) eqn:Hb.
  - (* a space: the first of a pair, or alone *)
    apply blank_cases in Hb as [->| ->]; [|discriminate].
    rewrite norm_cons_blank by reflexivity.
    cbn [scanstring N.eqb Pos.eqb N.ltb N.compare Pos.compare Pos.compare_cont].
    eapply (IH t _ (32%N :: acc)); [ | | | | exact H ].
    + lia.
    + apply norm_state_next.
    + intros _. now exists acc.
    + now apply acc_push.
  - rewrite norm_cons_char by assumption.
    cbn [scanstring]. rewrite E34, E92, Elt.
    eapply (IH t 0); [ | | | | exact H ].
    + lia.
    + apply norm_state_start.
    + discriminate.
    + now apply acc_push.
Qed.

(** ** Normalisation keeps a JSON text a JSON text *)

Lemma Forall2_rev_cons (A B : Type) (R : A -> B -> Prop) (x : A) (y : B)
    (l : list A) (l' : list B) :
  R x y -> Forall2 R l l' -> Forall2 R (rev (x :: l)) (rev (y :: l')).
Proof.
  intros Hxy Hl. cbn [rev]. apply Forall2_app; [|now constructor].
  induction Hl; cbn [rev]; [constructor|].
  apply Forall2_app; [assumption | now constructor].
Qed.

Section Normalised.

Variable lim : interpreter_limits.

Lemma number_value_norm (x : number_literal) (r1 r : pystr) (v : pyval) :
  number_value lim x r1 = Scanned (v, r) ->
  number_value lim x (norm 0 r1) = Scanned (v, norm 0 r).
Proof.
  destruct x as [negative digits|text]; cbn [number_value].
  - destruct (too_many_digits lim (length digits)); [discriminate|].
    now intros [= <- <-].
  - now intros [= <- <-].
Qed.

Lemma scan_norm (fuel : nat) :
  (forall depth s v r,
     scan_once lim fuel depth s = Scanned (v, r) ->
     exists v', scan_once lim fuel depth (norm 0 s) = Scanned (v', norm 0 r)
                /\ agree v v')
  /\ (forall depth acc acc' s v r,
     Forall2 agree acc acc' ->
     parse_array lim fuel depth acc s = Scanned (v, r) ->
     exists v', parse_array lim fuel depth acc' (norm 0 s) = Scanned (v', norm 0 r)
                /\ agree v v')
  /\ (forall depth acc acc' s v r,
     agree_pairs acc acc' ->
     parse_object lim fuel depth acc s = Scanned (v, r) ->
     exists v', parse_object lim fuel depth acc' (norm 0 s) = Scanned (v', norm 0 r)
                /\ agree v v').
Proof.
  induction fuel as [|fuel (IHv & IHa & IHo)].
  { repeat split; intros; discriminate. }
  repeat split.
  - intros depth s v r H. cbn [scan_once] in H.
    destruct s as [|c t]; [discriminate|].
    destruct (blank c) eqn:Hb.
    { exfalso. apply blank_cases in Hb as [->| ->]; cbv in H; discriminate. }
    rewrite norm_cons_char by assumption. cbn [scan_once].
    destruct (c =? 34)%N.
    { destruct (scanstring [] t) as [[k r1]| | |] eqn:Es; try discriminate.
      injection H as <- <-.
      destruct (@scanstring_norm _ t 0 [] [] k r1 (le_n _) (norm_state_start _)
                  ltac:(discriminate) (or_introl eq_refl) Es) as (k' & Hk & Hkk).
      rewrite Hk. eexists. split; [reflexivity|]. now apply agree_str. }
    destruct (c =? 123)%N.
    { destruct depth as [|d]; [discriminate|].
      destruct (skip_ws t) as [|c1 r1] eqn:Ew; [discriminate|].
      rewrite (skip_ws_norm_cons _ Ew).
      destruct (c1 =? 125)%N.
      { injection H as <- <-. eexists. split; [reflexivity | apply agree_same]. }
      destruct (c1 =? 34)%N; [|discriminate].
      apply (IHo d [] [] r1 v r); [constructor | assumption]. }
    destruct (c =? 91)%N.
    { destruct depth as [|d]; [discriminate|].
      destruct (skip_ws t) as [|c1 r1] eqn:Ew.
      - rewrite (skip_ws_norm_nil _ Ew).
        exact (IHa d [] [] [] v r (Forall2_nil _) H).
      - rewrite (skip_ws_norm_cons _ Ew).
        destruct (c1 =? 93)%N.
        { injection H as <- <-. eexists. split; [reflexivity | apply agree_same]. }
        rewrite <- (norm_cons_char c1 r1) by (eapply skip_ws_head; eassumption).
        apply (IHa d [] [] (c1 :: r1) v r); [constructor | assumption]. }
    rewrite <- (norm_cons_char c t) by assumption.
    rewrite !keyword_norm by reflexivity. rewrite scan_number_norm.
    repeat match type of H with
           | context [match keyword ?w ?x ?y with _ => _ end] =>
               destruct (keyword w x y) as [[? ?]|];
               [ injection H as <- <-; cbn [option_map fst snd];
                 eexists; split; [reflexivity | apply agree_same] | ];
               cbn [option_map]
           | context [match scan_number ?y with _ => _ end] =>
               destruct (scan_number y) as [[? ?]|];
               [ cbn [option_map fst snd];
                 rewrite (number_value_norm _ _ H);
                 eexists; split; [reflexivity | apply agree_same] | ];
               cbn [option_map]
           end.
    discriminate.
  - intros depth acc acc' s v r Hacc H. cbn [parse_array] in H |- *.
    destruct (scan_once lim fuel depth s) as [[v1 r1]| | |] eqn:E; try discriminate.
    destruct (IHv _ _ _ _ E) as (v1' & E' & Hv1). rewrite E'.
    destruct (skip_ws r1) as [|c r2] eqn:Ew; [discriminate|].
    rewrite (skip_ws_norm_cons _ Ew).
    destruct (c =? 93)%N.
    { injection H as <- <-. eexists. split; [reflexivity|].
      apply agree_list. now apply Forall2_rev_cons. }
    destruct (c =? 44)%N; [|discriminate].
    rewrite skip_ws_norm by apply norm_state_start.
    apply (IHa depth (v1 :: acc) (v1' :: acc')); [now constructor | assumption].
  - intros depth acc acc' s v r Hacc H. cbn [parse_object] in H |- *.
    destruct (scanstring [] s) as [[key r0]| | |] eqn:Es; try discriminate.
    destruct (@scanstring_norm _ s 0 [] [] key r0 (le_n _) (norm_state_start _)
                ltac:(discriminate) (or_introl eq_refl) Es) as (key' & Hk & Hkk).
    rewrite Hk.
    destruct (skip_ws r0) as [|c r1] eqn:Ew; [discriminate|].
    rewrite (skip_ws_norm_cons _ Ew).
    destruct (c =? 58)%N; [|discriminate].
    rewrite skip_ws_norm by apply norm_state_start.
    destruct (scan_once lim fuel depth (skip_ws r1)) as [[v1 r2]| | |] eqn:E;
      try discriminate.
    destruct (IHv _ _ _ _ E) as (v1' & E' & Hv1). rewrite E'.
    destruct (skip_ws r2) as [|c2 r3] eqn:Ew2; [discriminate|].
    rewrite (skip_ws_norm_cons _ Ew2).
    assert (Hpairs : agree_pairs ((key, v1) :: acc) ((key', v1') :: acc')).
    { constructor; [|assumption]. now split. }
    destruct (c2 =? 125)%N.
    { injection H as <- <-. eexists. split; [reflexivity|].
      apply agree_dict.
      inversion Hpairs; subst. now apply Forall2_rev_cons. }
    destruct (c2 =? 44)%N; [|discriminate].
    destruct (skip_ws r3) as [|c3 r4] eqn:Ew3; [discriminate|].
    rewrite (skip_ws_norm_cons _ Ew3).
    destruct (c3 =? 34)%N; [|discriminate].
    now apply (IHo depth ((key, v1) :: acc) ((key', v1') :: acc')).
Qed.

(** A text that [json.loads] accepts is accepted once normalised, and the
    two values agree. *)
Lemma json_loads_normalise (s : pystr) (v : pyval) :
  json_loads lim s = Ok v ->
  exists v', json_loads lim (normalise s) = Ok v' /\ agree v v'.
Proof.
  unfold json_loads. rewrite normalise_norm.
  rewrite startswith_norm by reflexivity.
  destruct (startswith [65279%N] s); [discriminate|].
  unfold json_decode.
  destruct (scan_once lim (json_fuel s) (json_max_depth lim) (skip_ws s))
    as [[v0 r]| | |] eqn:E; try discriminate.
  destruct (skip_ws r) as [|c r'] eqn:Er; [|discriminate].
  intros [= <-].
  destruct (proj1 (scan_norm _) _ _ _ _ E) as (v' & E' & Hv).
  exists v'. split; [|assumption].
  rewrite (skip_ws_norm (s := s) (skip := 0)) by apply norm_state_start.
  assert (F : scan_once lim (json_fuel (norm 0 s)) (json_max_depth lim)
                (norm 0 (skip_ws s)) <> Exhausted).
  { apply (proj1 (scan_fuel lim _)). unfold json_fuel.
    rewrite <- (skip_ws_norm (s := s) (skip := 0)) by apply norm_state_start.
    pose proof (skip_ws_length (norm 0 s)). lia. }
  rewrite (@scan_any_fuel lim _ (json_fuel s) _ _ F) by (rewrite E'; discriminate).
  rewrite E'. now rewrite (skip_ws_norm_nil _ Er).
Qed.

End Normalised.

(** ** Values that agree are equal when no string holds two adjacent spaces *)

Lemma size_positive (v : pyval) : 1 <= size v.
Proof. destruct v; simpl; lia. Qed.

Lemma dict_set_keeps_keys (k k0 : pystr) (v : pyval) (d : pydict) :
  In k0 (map fst d) -> In k0 (map fst (dict_set k v d)).
Proof.
  induction d as [|[k' v'] d IH]; [intros []|].
  cbn [dict_set]. destruct (str_eqb k k'); cbn [map fst In]; tauto.
Qed.

Lemma dict_set_has_key (k : pystr) (v : pyval) (d : pydict) :
  In k (map fst (dict_set k v d)).
Proof.
  induction d as [|[k' v'] d IH]; [now left|].
  cbn [dict_set]. destruct (str_eqb k k') eqn:E; cbn [map fst In].
  - apply str_eqb_eq in E. now left.
  - now right.
Qed.

Lemma fold_dict_set_keeps_keys (pairs : list (pystr * pyval)) (d : pydict) (k : pystr) :
  In k (map fst d) ->
  In k (map fst (fold_left (fun d kv => dict_set (fst kv) (snd kv) d) pairs d)).
Proof.
  revert d. induction pairs as [|p pairs IH]; intros d H; [assumption|].
  cbn [fold_left]. apply IH. now apply dict_set_keeps_keys.
Qed.

Lemma dict_of_pairs_has_keys (pairs : list (pystr * pyval)) (p : pystr * pyval) :
  In p pairs -> In (fst p) (map fst (dict_of_pairs pairs)).
Proof.
  unfold dict_of_pairs. generalize (@nil (pystr * pyval)) as d.
  induction pairs as [|q pairs IH]; intros d H; [destruct H|].
  cbn [fold_left]. destruct H as [->|H].
  - apply fold_dict_set_keeps_keys, dict_set_has_key.
  - now apply IH.
Qed.

Lemma dict_set_agree (k : pystr) (x x' : pyval) (d d' : pydict) :
  agree_entries d d' -> agree x x' ->
  agree_entries (dict_set k x d) (dict_set k x' d').
Proof.
  intros Hd Hx. induction Hd as [|[k0 v0] [k0' v0'] d d' [Hk Hv] Hd IH].
  - constructor; [now split | constructor].
  - cbn [fst snd] in Hk, Hv. subst k0'. cbn [dict_set].
    destruct (str_eqb k k0); constructor; try assumption; now split.
Qed.

Lemma fold_dict_set_agree (pairs pairs' : list (pystr * pyval)) (d d' : pydict) :
  agree_entries pairs pairs' -> agree_entries d d' ->
  agree_entries (fold_left (fun d kv => dict_set (fst kv) (snd kv) d) pairs d)
                (fold_left (fun d kv => dict_set (fst kv) (snd kv) d) pairs' d').
Proof.
  intros Hp. revert d d'.
  induction Hp as [|p p' pairs pairs' [Hk Hv] Hp IH]; intros d d' Hd; [assumption|].
  cbn [fold_left]. apply IH. rewrite Hk. now apply dict_set_agree.
Qed.

Lemma single_spaced_key (d : pydict) (k : pystr) :
  single_spaced (PDict d) = true -> In k (map fst d) ->
  contains (str "  ") k = false.
Proof.
  cbn [single_spaced]. intros H Hin.
  apply in_map_iff in Hin as ([k0 x] & <- & Hin).
  rewrite forallb_forall in H. specialize (H _ Hin). cbn [fst] in *.
  apply andb_true_iff in H as [H _]. now apply negb_true_iff in H.
Qed.

Lemma agree_pairs_entries (pairs pairs' : list (pystr * pyval)) :
  agree_pairs pairs pairs' ->
  (forall p, In p pairs -> contains (str "  ") (fst p) = false) ->
  agree_entries pairs pairs'.
Proof.
  intros Hp. induction Hp as [|p p' pairs pairs' [Hk Hv] Hp IH]; intros Hc.
  - constructor.
  - constructor.
    + split; [apply Hk, Hc; now left | assumption].
    + apply IH. intros q Hq. apply Hc. now right.
Qed.

Lemma agree_single_spaced_sized (n : nat) :
  forall v v', size v <= n -> agree v v' -> single_spaced v = true -> v' = v.
Proof.
  induction n as [|n IH]; intros v v' Hn Ha Hs.
  { pose proof (size_positive v). lia. }
  inversion Ha as [v0 | s s' Hstr | l l' Hl | pairs pairs' Hp]; subst.
  - reflexivity.
  - f_equal. apply Hstr. cbn [single_spaced] in Hs. now apply negb_true_iff in Hs.
  - f_equal. cbn [single_spaced size] in Hs, Hn.
    assert (Hn' : list_sum (map size l) <= n) by lia. clear Hn Ha.
    induction Hl as [|x x' l l' Hx Hl IHl]; [reflexivity|].
    cbn [forallb] in Hs. simpl in Hn'.
    apply andb_true_iff in Hs as [Hsx Hsl].
    f_equal.
    + apply IH; [lia | assumption | assumption].
    + apply IHl; [assumption | lia].
  - f_equal.
    assert (He : agree_entries (dict_of_pairs pairs) (dict_of_pairs pairs')).
    { apply fold_dict_set_agree; [|constructor].
      apply agree_pairs_entries; [assumption|].
      intros p Hin. apply (@single_spaced_key _ _ Hs).
      now apply dict_of_pairs_has_keys. }
    cbn [single_spaced size] in Hs, Hn. clear Ha Hp.
    remember (dict_of_pairs pairs) as d eqn:Ed.
    remember (dict_of_pairs pairs') as d' eqn:Ed'. clear Ed Ed'.
    assert (Hn' : list_sum (map (fun kv : pystr * pyval => let (_, x) := kv in size x) d)
                  <= n) by lia.
    clear Hn.
    induction He as [|[k x] [k' x'] d d' [Hk Hx] He IHe]; [reflexivity|].
    cbn [forallb fst snd] in Hs, Hk, Hx. simpl in Hn'.
    apply andb_true_iff in Hs as [Hsx Hsl]. apply andb_true_iff in Hsx as [_ Hsx].
    f_equal.
    + f_equal; [assumption|]. apply IH; [lia | assumption | assumption].
    + apply IHe; [assumption | lia].
Qed.

Lemma agree_single_spaced (v v' : pyval) :
  agree v v' -> single_spaced v = true -> v' = v.
Proof. apply (agree_single_spaced_sized (n := size v)). lia. Qed.

(** ** Recovery of a result from the reply of the model *)

Lemma find_from_lower (k s : pystr) (i : Z) :
  (0 <= i)%Z -> (-1 <= find_from k s i)%Z.
Proof.
  revert i; induction s as [|x s IH]; intros i Hi; simpl.
  - destruct (startswith k []); lia.
  - destruct (startswith k (x :: s)); [lia|]. apply IH. lia.
Qed.

Lemma json_end_not_minus_one (s : pystr) :
  ((rfind (str "}") s + 1 =? -1) = false)%Z.
Proof.
  pose proof (@rfind_from_lower (str "}") s 0 ltac:(lia)) as H.
  unfold rfind. apply Z.eqb_neq. lia.
Qed.







Section Recovery.

Variable h : host.

Lemma json_loads_fails (s : pystr) :
  is_ok (json_loads (limits h) s) = false ->
  (exists m, json_loads (limits h) s = Raise (JSONDecodeError m))
  \/ (exists m, json_loads (limits h) s = Raise (OtherError m)).
Proof.
  intros H. destruct (json_loads_cases (limits h) s) as [[v E]|[[m E]|(m & E & _)]].
  - rewrite E in H. discriminate.
  - left. now exists m.
  - right. now exists m.
Qed.

(** The inner [try] computes the first two stages. *)
Lemma parse_cleaned_response_stages (cleaned : pystr) :
  parse_cleaned_response h cleaned =
  match json_loads (limits h) cleaned with
  | Raise (JSONDecodeError _) =>
      if (find (str "{") cleaned =? -1)%Z
      then Raise (Exception (str "No valid JSON found in response"))
      else json_loads (limits h) (normalise (bracket_substring cleaned))
  | r => r
  end.
Proof.
  unfold parse_cleaned_response.
  destruct (json_loads (limits h) cleaned) as [v|[m|m|m]]; try reflexivity.
  rewrite json_end_not_minus_one. cbn [negb andb].
  destruct (find (str "{") cleaned =? -1)%Z; reflexivity.
Qed.

(** The handler is not entered when one of the two parses succeeds. *)
Lemma parse_response_parsed (text : pystr) (v : pyval) :
  parse_cleaned_response h (strip text) = Ok v ->
  parse_response h (PStr text) = Ok v.
Proof.
  intros E. unfold parse_response. cbn [py_strip bind]. now rewrite E.
Qed.







(** C8 (as amended).  When [json.loads] accepts the stripped reply, which
    it does for valid JSON that stays within the interpreter's limits on
    the digits of an integer and on nesting, the value it gives is what
    recovery returns. *)
Theorem direct_parse_is_returned (text : pystr) (v : pyval) :
  json_loads (limits h) (strip text) = Ok v -> parse_response h (PStr text) = Ok v.
Proof.
  intros E. apply parse_response_parsed.
  now rewrite parse_cleaned_response_stages, E.
Qed.

(** Stage 2 on a reply made of an object between two pieces of commentary. *)
Lemma bracket_substring_between (a mid b : pystr) :
  occurs 123 a = false -> occurs 125 b = false ->
  bracket_substring (a ++ (123%N :: mid ++ [125%N]) ++ b) = 123%N :: mid ++ [125%N].
Proof.
  intros Ha Hb. apply occurs_false in Ha, Hb.
  unfold bracket_substring.
  assert (Hf : find (str "{") (a ++ (123%N :: mid ++ [125%N]) ++ b)
               = Z.of_nat (length a)).
  { unfold find. change (str "{") with [123%N]. cbn [app].
    rewrite find_from_first by assumption. lia. }
  assert (Hr : (rfind (str "}") (a ++ (123%N :: mid ++ [125%N]) ++ b) + 1)%Z
               = Z.of_nat (length a + length (123%N :: mid ++ [125%N]))).
  { unfold rfind. change (str "}") with [125%N].
    replace (a ++ (123%N :: mid ++ [125%N]) ++ b)
      with ((a ++ 123%N :: mid) ++ 125%N :: b)
      by (rewrite <- !app_assoc; cbn [app]; now rewrite <- app_assoc).
    rewrite rfind_from_last by (assumption || lia).
    rewrite !length_app. cbn [length]. rewrite length_app. cbn [length]. lia. }
  rewrite Hf, Hr. apply slice_middle.
Qed.

(** C4 (as amended).  When the decoder refuses the stripped reply and the
    text has an opening brace, stage 2 parses the normalised text between
    the first opening and the last closing brace; normalisation puts a
    space for every newline and then one space for every pair of spaces,
    left to right, so that no newline is left, and it leaves a text without
    newline and without two adjacent spaces as it is.  For a reply made of
    an object text between commentary with no opening brace before it and
    no closing brace after it, that text is exactly the object text; when
    the object text is valid JSON, its normalised text is parsed with
    success and the value is returned, and that value is the object's own
    when no string of the object holds two adjacent spaces. *)
Theorem stage2_extracts_embedded_object (pre mid post m : pystr) :
  let object_text := 123%N :: mid ++ [125%N] in
  let cleaned := strip (pre ++ object_text ++ post) in
  occurs 123 pre = false ->
  occurs 125 post = false ->
  json_loads (limits h) cleaned = Raise (JSONDecodeError m) ->
  bracket_substring cleaned = object_text
  /\ occurs 10 (normalise object_text) = false
  /\ parse_cleaned_response h cleaned = json_loads (limits h) (normalise object_text)
  /\ (forall v,
        json_loads (limits h) object_text = Ok v ->
        exists v',
          json_loads (limits h) (normalise object_text) = Ok v'
          /\ parse_response h (PStr (pre ++ object_text ++ post)) = Ok v'
          /\ (single_spaced v = true -> v' = v))
  /\ (occurs 10 object_text = false ->
      contains (str "  ") object_text = false ->
      normalise object_text = object_text).
Proof.
  cbv zeta. intros Hpre Hpost Hfail.
  rewrite strip_around in * by reflexivity.
  assert (Ha : occurs 123 (lstrip pre) = false).
  { apply occurs_false. intros H. apply lstrip_incl in H.
    now apply occurs_false in Hpre. }
  assert (Hb : occurs 125 (rstrip post) = false).
  { apply occurs_false. intros H. apply rstrip_incl in H.
    now apply occurs_false in Hpost. }
  pose proof (@bracket_substring_between (lstrip pre) mid (rstrip post) Ha Hb) as Hsub.
  assert (Hfind : (find (str "{") (lstrip pre ++ (123%N :: mid ++ [125%N]) ++ rstrip post)
                   =? -1)%Z = false).
  { apply Z.eqb_neq. unfold find. change (str "{") with [123%N]. cbn [app].
    rewrite find_from_first by (now apply occurs_false). lia. }
  assert (Hstage : parse_cleaned_response h
                     (lstrip pre ++ (123%N :: mid ++ [125%N]) ++ rstrip post)
                   = json_loads (limits h) (normalise (123%N :: mid ++ [125%N]))).
  { rewrite parse_cleaned_response_stages, Hfail. now rewrite Hfind, Hsub. }
  split; [assumption|]. split; [apply normalise_no_newline|]. split; [assumption|].
  split.
  - intros v Ev.
    destruct (json_loads_normalise _ _ Ev) as (v' & Ev' & Hagree).
    exists v'. split; [assumption|]. split.
    + apply parse_response_parsed.
      rewrite strip_around by reflexivity. now rewrite Hstage.
    + now apply agree_single_spaced.
  - apply normalise_clean.
Qed.

End Recovery.



Lemma direct_parse_is_returned_witness :
  parse_response (sample_host unreachable)
    (PStr (str "  " ++ sample_object_text ++ [10%N])) = Ok sample_object.
Proof.
  assert (H : json_loads (limits (sample_host unreachable))
                (strip (str "  " ++ sample_object_text ++ [10%N]))
              = Ok sample_object) by (vm_compute; reflexivity).
  exact (@direct_parse_is_returned _ _ _ H).
Defined.

(** C8 as stated fails: an object that matches the schema and holds an
    integer of 4400 digits is valid JSON, as the decoder without the limit
    on digits shows; under the default limit of 4300 digits [json.loads]
    raises [ValueError] on it, stage 2 is not tried, and recovery returns
    the degraded result. *)
Lemma long_integer_is_not_returned :
  exists v,
    json_loads no_digit_limit sample_long_number_text = Ok v
    /\ AnalysisResult_ok v = true
    /\ json_loads sample_limits sample_long_number_text
       = Raise (OtherError
                  (str "Exceeds the limit (4300 digits) for integer string conversion: value has 4400 digits; use sys.set_int_max_str_digits() to increase the limit"))
    /\ parse_response (sample_host unreachable) (PStr sample_long_number_text)
       = Ok degraded_result.
Proof. eexists. repeat split; vm_compute; reflexivity. Qed.

(** The text between the braces of the object the prompt prints. *)
Lemma sample_object_pretty_braces :
  sample_object_pretty = 123%N :: removelast (tl sample_object_pretty) ++ [125%N].
Proof. vm_compute. reflexivity. Qed.

Lemma stage2_extracts_embedded_object_witness :
  parse_response (sample_host unreachable)
    (PStr ((str "Here is the result:" ++ [10%N])
           ++ (123%N :: removelast (tl sample_object_pretty) ++ [125%N])
           ++ ([10%N] ++ str "Thanks!")))
  = Ok sample_object.
Proof.
  assert (H1 : occurs 123 (str "Here is the result:" ++ [10%N]) = false)
    by (vm_compute; reflexivity).
  assert (H2 : occurs 125 ([10%N] ++ str "Thanks!") = false)
    by (vm_compute; reflexivity).
  assert (H3 : json_loads (limits (sample_host unreachable))
                 (strip ((str "Here is the result:" ++ [10%N])
                         ++ (123%N :: removelast (tl sample_object_pretty) ++ [125%N])
                         ++ ([10%N] ++ str "Thanks!")))
               = Raise (JSONDecodeError (str "Expecting value")))
    by (vm_compute; reflexivity).
  assert (H4 : json_loads (limits (sample_host unreachable))
                 (123%N :: removelast (tl sample_object_pretty) ++ [125%N])
               = Ok sample_object)
    by (vm_compute; reflexivity).
  destruct (@stage2_extracts_embedded_object _ _ _ _ _ H1 H2 H3)
    as (_ & _ & _ & H & _).
  destruct (H _ H4) as (v' & _ & Hp & Hv).
  rewrite Hp. f_equal. apply Hv. vm_compute. reflexivity.
Defined.

(** C4 as stated fails.  With a brace in the commentary the first opening
    brace is not that of the object, the extracted text does not parse and
    the degraded result is returned although the reply holds an object that
    matches the schema.  With commentary that starts with an integer of
    4400 digits the direct parse is stopped by the interpreter's limit and
    stage 2 is not tried.  Two adjacent spaces inside a string of the
    object are made one, so the value returned is not the object's.  A run
    of three spaces is left as two. *)
Lemma stage2_misled_by_commentary_brace :
  json_loads sample_limits sample_object_text = Ok sample_object
  /\ analysis_fields_ok (int_between 0 100) sample_object = true
  /\ parse_response (sample_host unreachable)
       (PStr (str "Fields {as in the schema}: " ++ sample_object_text ++ str " Thanks!"))
     = Ok degraded_result
  /\ parse_response (sample_host unreachable)
       (PStr (repeat 55%N 4400 ++ str " " ++ sample_object_text))
     = Ok degraded_result
  /\ json_loads sample_limits (dq "{'note': 'a  b'}")
     = Ok (PDict [(str "note", PStr (str "a  b"))])
  /\ parse_response (sample_host unreachable)
       (PStr (str "Result: " ++ dq "{'note': 'a  b'}" ++ str " Thanks!"))
     = Ok (PDict [(str "note", PStr (str "a b"))])
  /\ normalise (str "a   b") = str "a  b".
Proof. repeat split; vm_compute; reflexivity. Qed.
(** ** The fallback scorer *)

Section Scorer.

Variable text_lower : pystr.

(** The invariant of the loop over the categories: after any run of items
    the tally holds the findings of those present, the names of those
    absent, and the score moved by 5 and 10 accordingly. *)
Lemma check_clause_loop (items : list (pystr * list pystr)) (t : tally) :
  fold_left (check_clause text_lower) items t =
  {| findings := findings t
       ++ map (fun item => finding (fst item)) (filter (present text_lower) items);
     missing_clauses := missing_clauses t
       ++ map fst (filter (absent text_lower) items);
     score := (score t
               + 5 * Z.of_nat (length (filter (present text_lower) items))
               - 10 * Z.of_nat (length (filter (absent text_lower) items)))%Z |}.
Proof.
  revert t. induction items as [|[clause keywords] items IH]; intros t.
  - simpl. rewrite !app_nil_r. destruct t. simpl. f_equal. lia.
  - cbn [fold_left]. rewrite IH. unfold check_clause.
    unfold absent, present. cbn [filter snd fst].
    destruct (found text_lower keywords); cbn [negb map length findings
      missing_clauses score]; rewrite <- ?app_assoc; cbn [app]; f_equal; lia.
Qed.

Lemma present_absent_length (items : list (pystr * list pystr)) :
  length (filter (present text_lower) items)
  + length (filter (absent text_lower) items) = length items.
Proof.
  induction items as [|item items IH]; [reflexivity|].
  unfold absent in *. simpl. destruct (present text_lower item); simpl; lia.
Qed.

End Scorer.

Lemma key_terms_length : length key_terms = 9.
Proof. reflexivity. Qed.

Lemma risk_level_of_score (z : Z) :
  (if (z >=? 80)%Z then str "low" else if (z >=? 60)%Z then str "medium" else str "high")
  = risk_of (clamp z).
Proof.
  unfold risk_of, clamp. rewrite !Z.geb_leb.
  destruct (Z.leb_spec 80 z), (Z.leb_spec 60 z);
    destruct (Z.leb_spec 80 (Z.max 0 (Z.min 100 z)));
    destruct (Z.leb_spec 60 (Z.max 0 (Z.min 100 z))); try reflexivity; lia.
Qed.

Lemma fallback_tally (text_lower : pystr) :
  fold_left (check_clause text_lower) key_terms
    {| findings := []; missing_clauses := []; score := 70%Z |}
  = final_tally text_lower.
Proof. rewrite check_clause_loop. reflexivity. Qed.

Lemma fallback_fields (h : host) (text : pystr) :
  let tl := lower h text in
  let r := _fallback_analysis h text in
  lookup [str "overall_assessment"; str "compliance_score"] r
    = Some (PInt (clamp (score_spec tl)))
  /\ lookup [str "overall_assessment"; str "risk_level"] r
    = Some (PStr (risk_of (clamp (score_spec tl))))
  /\ lookup [str "overall_assessment"; str "executive_summary"] r
    = Some (PStr (summary_spec (length (findings_spec tl)) (length (missing_spec tl))))
  /\ lookup [str "strengths"] r = Some (str_list (findings_spec tl))
  /\ lookup [str "missing_clauses"] r = Some (str_list (missing_spec tl))
  /\ map (field (str "findings")) (sections r) = [Some (str_list (findings_spec tl))]
  /\ map (field (str "score")) (sections r) = [Some (PInt (score_spec tl))].
Proof.
  cbv zeta. unfold _fallback_analysis. rewrite fallback_tally.
  rewrite risk_level_of_score.
  repeat split.
Qed.

(** C2.  The fallback scorer starts from 70, adds 5 for each of the nine
    categories of which a keyword occurs in the lower-cased text and
    records a finding for it, subtracts 10 for each other category and
    records its name as a missing clause; the compliance score is that sum
    clamped to 0..100 and the risk level is low from 80, medium from 60 and
    high below.  A text matching all nine categories scores 100 with risk
    low, a text matching none scores 0 with risk high. *)
Theorem fallback_score_formula (h : host) (text : pystr) :
  let tl := lower h text in
  let r := _fallback_analysis h text in
  length key_terms = 9
  /\ score_spec tl
     = (70 + 5 * Z.of_nat (length (filter (present tl) key_terms))
           - 10 * Z.of_nat (length (filter (absent tl) key_terms)))%Z
  /\ lookup [str "overall_assessment"; str "compliance_score"] r
     = Some (PInt (clamp (score_spec tl)))
  /\ lookup [str "overall_assessment"; str "risk_level"] r
     = Some (PStr (risk_of (clamp (score_spec tl))))
  /\ risk_of (clamp (score_spec tl)) = risk_of (score_spec tl)
  /\ lookup [str "strengths"] r
     = Some (str_list (map (fun item => finding (fst item))
                         (filter (present tl) key_terms)))
  /\ lookup [str "missing_clauses"] r
     = Some (str_list (map fst (filter (absent tl) key_terms)))
  /\ (forallb (present tl) key_terms = true ->
      lookup [str "overall_assessment"; str "compliance_score"] r = Some (PInt 100)
      /\ lookup [str "overall_assessment"; str "risk_level"] r = Some (PStr (str "low")))
  /\ (forallb (absent tl) key_terms = true ->
      lookup [str "overall_assessment"; str "compliance_score"] r = Some (PInt 0)
      /\ lookup [str "overall_assessment"; str "risk_level"] r = Some (PStr (str "high"))).
Proof.
  cbv zeta.
  destruct (fallback_fields h text) as (Hs & Hr & _ & Hf & Hm & _).
  split; [reflexivity|]. split; [reflexivity|].
  split; [assumption|]. split; [assumption|].
  split.
  { unfold risk_of, clamp.
    destruct (Z.leb_spec 80 (score_spec (lower h text))),
             (Z.leb_spec 60 (score_spec (lower h text))),
             (Z.leb_spec 80 (Z.max 0 (Z.min 100 (score_spec (lower h text))))),
             (Z.leb_spec 60 (Z.max 0 (Z.min 100 (score_spec (lower h text)))));
      try reflexivity; lia. }
  split; [assumption|]. split; [assumption|].
  split; intros Hall; rewrite Hs, Hr; unfold score_spec.
  - assert (E : filter (present (lower h text)) key_terms = key_terms).
    { apply forallb_filter_id. assumption. }
    pose proof (present_absent_length (lower h text) key_terms) as L.
    rewrite E, key_terms_length in *.
    replace (length (filter (absent (lower h text)) key_terms)) with 0 by lia.
    split; reflexivity.
  - assert (E : filter (absent (lower h text)) key_terms = key_terms).
    { apply forallb_filter_id. assumption. }
    pose proof (present_absent_length (lower h text) key_terms) as L.
    rewrite E, key_terms_length in *.
    replace (length (filter (present (lower h text)) key_terms)) with 0 by lia.
    split; reflexivity.
Qed.

Lemma fallback_score_formula_witness :
  (lookup [str "overall_assessment"; str "compliance_score"]
     (_fallback_analysis (sample_host unreachable)
        (str "Controller, Processor, personal data, GDPR, encryption, data breach, right to access, deletion, third party"))
   = Some (PInt 100))
  /\ (lookup [str "overall_assessment"; str "risk_level"]
        (_fallback_analysis (sample_host unreachable) (str "Lorem ipsum"))
      = Some (PStr (str "high"))).
Proof.
  split.
  - destruct (fallback_score_formula (sample_host unreachable)
                (str "Controller, Processor, personal data, GDPR, encryption, data breach, right to access, deletion, third party"))
      as (_ & _ & _ & _ & _ & _ & _ & Hall & _).
    apply Hall. vm_compute. reflexivity.
  - destruct (fallback_score_formula (sample_host unreachable) (str "Lorem ipsum"))
      as (_ & _ & _ & _ & _ & _ & _ & _ & Hnone).
    apply Hnone. vm_compute. reflexivity.
Defined.

(** Distinct categories have distinct names and distinct findings. *)
Lemma key_terms_names_distinct : NoDup (map fst key_terms).
Proof.
  vm_compute. repeat constructor; simpl; intuition discriminate.
Qed.

Lemma key_terms_findings_distinct :
  NoDup (map (fun item => finding (fst item)) key_terms).
Proof.
  vm_compute. repeat constructor; simpl; intuition discriminate.
Qed.

Lemma nodup_map_injective (A B : Type) (f : A -> B) (l : list A) (x y : A) :
  NoDup (map f l) -> In x l -> In y l -> f x = f y -> x = y.
Proof.
  induction l as [|a l IH]; simpl; intros Hnd Hx Hy E; [contradiction|].
  inversion Hnd as [|? ? Hnot Hnd']; subst.
  destruct Hx as [->|Hx], Hy as [->|Hy]; auto.
  - exfalso. apply Hnot. rewrite E. now apply in_map.
  - exfalso. apply Hnot. rewrite <- E. now apply in_map.
Qed.

(** Each category is in exactly one of the two lists. *)
Lemma category_in_one_list (text_lower : pystr) (item : pystr * list pystr) :
  In item key_terms ->
  (present text_lower item = true
   /\ In (finding (fst item)) (findings_spec text_lower)
   /\ ~ In (fst item) (missing_spec text_lower))
  \/ (present text_lower item = false
      /\ ~ In (finding (fst item)) (findings_spec text_lower)
      /\ In (fst item) (missing_spec text_lower)).
Proof.
  intros Hin. unfold findings_spec, missing_spec.
  destruct (present text_lower item) eqn:E.
  - left. split; [reflexivity|]. split.
    + apply in_map_iff. exists item. split; [reflexivity|].
      apply filter_In. now split.
    + intros H. apply in_map_iff in H as (item' & Hfst & H').
      apply filter_In in H' as [Hin' Habs].
      assert (item' = item)
        by (eapply nodup_map_injective;
            [apply key_terms_names_distinct | assumption | assumption | assumption]).
      subst item'. unfold absent in Habs. rewrite E in Habs. discriminate.
  - right. split; [reflexivity|]. split.
    + intros H. apply in_map_iff in H as (item' & Hfst & H').
      apply filter_In in H' as [Hin' Hpres].
      assert (item' = item)
        by (eapply nodup_map_injective;
            [apply key_terms_findings_distinct | assumption | assumption | assumption]).
      subst item'. congruence.
    + apply in_map_iff. exists item. split; [reflexivity|].
      apply filter_In. split; [assumption|]. unfold absent. now rewrite E.
Qed.

(** C9.  The fallback scorer puts each of the nine categories in exactly
    one of the two lists: its finding among the findings or its name among
    the missing clauses; the two lists together have nine entries and the
    executive summary reports their two lengths. *)
Theorem fallback_partitions_categories (h : host) (text : pystr) :
  let r := _fallback_analysis h text in
  let fs := findings_spec (lower h text) in
  let ms := missing_spec (lower h text) in
  lookup [str "strengths"] r = Some (str_list fs)
  /\ map (field (str "findings")) (sections r) = [Some (str_list fs)]
  /\ lookup [str "missing_clauses"] r = Some (str_list ms)
  /\ length fs + length ms = 9
  /\ lookup [str "overall_assessment"; str "executive_summary"] r
     = Some (PStr (summary_spec (length fs) (length ms)))
  /\ summary_spec (length fs) (length ms)
     = str "Rule-based analysis completed. " ++ str_of_Z (Z.of_nat (length fs))
       ++ str " key provisions identified, " ++ str_of_Z (Z.of_nat (length ms))
       ++ str " clauses may be missing."
  /\ Forall (fun item =>
               (In (finding (fst item)) fs /\ ~ In (fst item) ms)
               \/ (~ In (finding (fst item)) fs /\ In (fst item) ms))
       key_terms.
Proof.
  cbv zeta.
  destruct (fallback_fields h text) as (_ & _ & Hsum & Hf & Hm & Hsf & _).
  split; [assumption|]. split; [assumption|]. split; [assumption|].
  split.
  { unfold findings_spec, missing_spec. rewrite !length_map.
    now rewrite present_absent_length. }
  split; [assumption|]. split; [reflexivity|].
  apply Forall_forall. intros item Hin.
  destruct (@category_in_one_list (lower h text) item Hin)
    as [(_ & H1 & H2)|(_ & H1 & H2)]; [left | right]; now split.
Qed.

(** C10.  A text in which, once lower-cased, subprocessor or sub-processor
    occurs also holds the keyword processor: the data processor category
    is matched, its finding is recorded and its name is not among the
    missing clauses. *)
Theorem subprocessor_implies_processor (h : host) (text : pystr) :
  let tl := lower h text in
  let r := _fallback_analysis h text in
  contains (str "subprocessor") tl = true \/ contains (str "sub-processor") tl = true ->
  found tl [str "data processor"; str "processor"] = true
  /\ lookup [str "strengths"] r = Some (str_list (findings_spec tl))
  /\ lookup [str "missing_clauses"] r = Some (str_list (missing_spec tl))
  /\ In (finding (str "data processor")) (findings_spec tl)
  /\ ~ In (str "data processor") (missing_spec tl).
Proof.
  cbv zeta. intros H.
  assert (Hp : contains (str "processor") (lower h text) = true).
  { destruct H as [H|H].
    - now apply (@contains_tail (str "sub") (str "processor")).
    - now apply (@contains_tail (str "sub-") (str "processor")). }
  assert (Hfound : found (lower h text) [str "data processor"; str "processor"] = true).
  { unfold found. cbn [existsb]. rewrite Hp. now rewrite orb_true_r. }
  split; [assumption|].
  destruct (fallback_fields h text) as (_ & _ & _ & Hf & Hm & _).
  split; [assumption|]. split; [assumption|].
  assert (Hin : In (str "data processor", [str "data processor"; str "processor"])
                   key_terms) by (right; left; reflexivity).
  destruct (@category_in_one_list (lower h text) _ Hin)
    as [(_ & H1 & H2)|(Habs & _)]; [now split|].
  unfold present in Habs. cbn [snd] in Habs. congruence.
Qed.

(** With ASCII case folding, a keyword written in lower case that occurs
    in the text itself occurs in the lower-cased text. *)
Lemma ascii_lower_keeps (k text : pystr) :
  forallb (fun c => negb (is_upper c)) k = true ->
  contains k text = true -> contains k (ascii_lower text) = true.
Proof.
  intros Hk H. apply contains_inv in H as (a & b & ->).
  unfold ascii_lower. rewrite !map_app.
  replace (map ascii_lower_char k) with k; [apply contains_intro|].
  induction k as [|c k IH]; [reflexivity|].
  simpl in Hk. apply andb_true_iff in Hk as [Hc Hk].
  simpl. unfold ascii_lower_char at 1.
  destruct (is_upper c); [discriminate|]. f_equal. now apply IH.
Qed.

Lemma subprocessor_implies_processor_witness :
  found (lower (sample_host unreachable) (str "Each Sub-Processor is bound by this agreement."))
    [str "data processor"; str "processor"] = true.
Proof.
  assert (H : contains (str "subprocessor")
                (lower (sample_host unreachable)
                   (str "Each Sub-Processor is bound by this agreement.")) = true
              \/ contains (str "sub-processor")
                   (lower (sample_host unreachable)
                      (str "Each Sub-Processor is bound by this agreement.")) = true)
    by (right; vm_compute; reflexivity).
  exact (proj1 (@subprocessor_implies_processor (sample_host unreachable)
                  (str "Each Sub-Processor is bound by this agreement.") H)).
Defined.

(** ** Dictionaries *)

Lemma dict_get_set_same (k : pystr) (v : pyval) (d : pydict) :
  dict_get k (dict_set k v d) = Some v.
Proof.
  induction d as [|[k' v'] d IH]; simpl.
  - now rewrite str_eqb_refl.
  - destruct (str_eqb k k') eqn:E; simpl; rewrite E; [reflexivity | assumption].
Qed.

Lemma dict_get_set_other (k k' : pystr) (v : pyval) (d : pydict) :
  k <> k' -> dict_get k' (dict_set k v d) = dict_get k' d.
Proof.
  intros Hne. induction d as [|[k0 v0] d IH]; simpl.
  - rewrite str_eqb_neq; [reflexivity | congruence].
  - destruct (str_eqb k k0) eqn:E; simpl.
    + apply str_eqb_eq in E. subst k0.
      rewrite (@str_eqb_neq k' k); [reflexivity | congruence].
    + destruct (str_eqb k' k0); [reflexivity | assumption].
Qed.

(** ** Structuring the result *)

Section Structure.

Variable h : host.
Variable self : DPAAnalyzer.
Variable w : world.
Variable original_text : pystr.

Lemma structure_dict (d : pydict) :
  _structure_analysis h self w (PDict d) original_text
  = Ok (PDict (dict_set (str "playbook_reference") (playbook_reference_of self)
                 (dict_set (str "metadata") (metadata_of h self w original_text) d))).
Proof. reflexivity. Qed.

Lemma structure_needs_dict (a v : pyval) :
  _structure_analysis h self w a original_text = Ok v -> exists d, a = PDict d.
Proof.
  destruct a; try discriminate. intros _. eauto.
Qed.

Lemma structured_metadata (d : pydict) :
  field (str "metadata")
    (PDict (dict_set (str "playbook_reference") (playbook_reference_of self)
              (dict_set (str "metadata") (metadata_of h self w original_text) d)))
  = Some (metadata_of h self w original_text).
Proof.
  cbn [field]. rewrite dict_get_set_other by discriminate.
  apply dict_get_set_same.
Qed.

Lemma structured_playbook_reference (d : pydict) :
  field (str "playbook_reference")
    (PDict (dict_set (str "playbook_reference") (playbook_reference_of self)
              (dict_set (str "metadata") (metadata_of h self w original_text) d)))
  = Some (playbook_reference_of self).
Proof. cbn [field]. apply dict_get_set_same. Qed.

Lemma structured_other (d : pydict) (k : pystr) :
  k <> str "metadata" -> k <> str "playbook_reference" ->
  field k (PDict (dict_set (str "playbook_reference") (playbook_reference_of self)
                    (dict_set (str "metadata") (metadata_of h self w original_text) d)))
  = dict_get k d.
Proof.
  intros H1 H2. cbn [field].
  rewrite !dict_get_set_other by congruence. reflexivity.
Qed.

Lemma structured_assembled_ok (d : pydict) :
  assembled_fields_ok
    (PDict (dict_set (str "playbook_reference") (playbook_reference_of self)
              (dict_set (str "metadata") (metadata_of h self w original_text) d))) = true.
Proof.
  unfold assembled_fields_ok, has.
  rewrite structured_metadata, structured_playbook_reference. reflexivity.
Qed.

Lemma structured_analysis_fields (score_ok : pyval -> bool) (d : pydict) :
  analysis_fields_ok score_ok
    (PDict (dict_set (str "playbook_reference") (playbook_reference_of self)
              (dict_set (str "metadata") (metadata_of h self w original_text) d)))
  = analysis_fields_ok score_ok (PDict d).
Proof.
  unfold analysis_fields_ok, has.
  rewrite !structured_other by discriminate. reflexivity.
Qed.

End Structure.

(** ** The result of the fallback scorer has the shape of the schema *)

Lemma str_list_ok (l : list pystr) : is_str_list (str_list l) = true.
Proof.
  unfold is_str_list, is_list_of, str_list.
  induction l as [|x l IH]; simpl; [reflexivity | assumption].
Qed.

Lemma clamp_between (z : Z) : int_between 0 100 (PInt (clamp z)) = true.
Proof.
  unfold int_between, clamp. apply andb_true_iff. split; apply Z.leb_le; lia.
Qed.

Lemma risk_of_ok (z : Z) :
  is_one_of [str "low"; str "medium"; str "high"] (PStr (risk_of z)) = true.
Proof.
  unfold risk_of. destruct (80 <=? z)%Z; [reflexivity|].
  destruct (60 <=? z)%Z; reflexivity.
Qed.

Lemma fallback_is_dict (h : host) (text : pystr) :
  exists d, _fallback_analysis h text = PDict d.
Proof. unfold _fallback_analysis. eauto. Qed.

Lemma has_here (k : pystr) (p : pyval -> bool) (v : pyval) (d : pydict) :
  has k p (PDict ((k, v) :: d)) = p v.
Proof. unfold has. cbn [field dict_get]. now rewrite str_eqb_refl. Qed.

Lemma has_next (k k' : pystr) (p : pyval -> bool) (v : pyval) (d : pydict) :
  str_eqb k k' = false -> has k p (PDict ((k', v) :: d)) = has k p (PDict d).
Proof. intros E. unfold has. cbn [field dict_get]. now rewrite E. Qed.

Lemma fallback_shape_ok (h : host) (text : pystr) :
  analysis_fields_ok is_int (_fallback_analysis h text) = true.
Proof.
  unfold _fallback_analysis. rewrite fallback_tally, risk_level_of_score.
  unfold final_tally. cbn [findings missing_clauses score].
  fold (clamp (score_spec (lower h text))).
  unfold analysis_fields_ok. repeat first [ rewrite has_here | rewrite has_next by reflexivity ].
  unfold overall_assessment_ok. repeat first [ rewrite has_here | rewrite has_next by reflexivity ].
  rewrite clamp_between, risk_of_ok, !str_list_ok.
  unfold is_list_of. cbn [forallb].
  unfold section_entry_ok. repeat first [ rewrite has_here | rewrite has_next by reflexivity ].
  rewrite !str_list_ok. reflexivity.
Qed.

(** The score of the synthetic section is the sum before the clamp: for a
    text that matches no category the overall score is 0 and the section
    score is -20. *)
Lemma fallback_section_score_not_clamped :
  lookup [str "overall_assessment"; str "compliance_score"]
    (_fallback_analysis (sample_host unreachable) (str "Lorem ipsum"))
  = Some (PInt 0)
  /\ map (field (str "score"))
       (sections (_fallback_analysis (sample_host unreachable) (str "Lorem ipsum")))
     = [Some (PInt (-20))].
Proof. split; vm_compute; reflexivity. Qed.

(** ** The pipeline *)

Section Pipeline.

Variable h : host.
Variable self : DPAAnalyzer.

(** What recovery returns is the degraded result or a value the decoder
    gave for some text. *)
Lemma parse_response_origin (response_text a : pyval) :
  parse_response h response_text = Ok a ->
  a = degraded_result \/ exists s, json_loads (limits h) s = Ok a.
Proof.
  destruct response_text as [| | | |s|l|d];
    try (unfold parse_response;
         cbn [py_strip bind try_except py_slice_to print_raw_response];
         try discriminate; intros H; injection H as <-; now left).
  intros H.
  destruct (parse_cleaned_response h (strip s)) as [v|e] eqn:E.
  - rewrite (parse_response_parsed _ _ E) in H. injection H as <-.
    rewrite parse_cleaned_response_stages in E. right.
    destruct (json_loads (limits h) (strip s)) as [v0|[m|m|m]] eqn:E0;
      try discriminate.
    + injection E as <-. eauto.
    + destruct (find (str "{") (strip s) =? -1)%Z; [discriminate|]. eauto.
  - left. unfold parse_response in H. cbn [py_strip bind] in H. rewrite E in H.
    cbn [try_except py_slice_to bind] in H.
    destruct (print_raw_response (PStr (slice_to s 500))); [|discriminate].
    now injection H as <-.
Qed.

(** The model call posts one request, whatever comes of it. *)
Lemma call_posts_once (prompt : pystr) (w : world) :
  snd (_call_ollama_api h self prompt w) = after_post w (ollama_request self prompt).
Proof. reflexivity. Qed.

Lemma call_fails_when_unavailable (prompt : pystr) (w : world) :
  model_unavailable h w (ollama_request self prompt) = true ->
  exists e, fst (_call_ollama_api h self prompt w) = Raise e.
Proof.
  unfold model_unavailable, _call_ollama_api. cbn [fst].
  destruct (session_post h w (ollama_request self prompt)) as [[status body]|e];
    cbn [bind try_except]; [|eauto].
  destruct (status =? 200)%Z; [discriminate|]. cbn [try_except]. eauto.
Qed.

(** [_perform_ai_analysis] never raises: it returns what the model call
    returned, or the fallback analysis. *)
Lemma perform_cases (text : pystr) (w : world) :
  exists a,
    _perform_ai_analysis h self text w
    = (Ok a, after_post w (ollama_request self (prompt_for self text)))
    /\ (fst (_call_ollama_api h self (prompt_for self text) w) = Ok a
        \/ (a = _fallback_analysis h text
            /\ exists e, fst (_call_ollama_api h self (prompt_for self text) w) = Raise e)).
Proof.
  unfold _perform_ai_analysis. fold (prompt_for self text).
  pose proof (call_posts_once (prompt_for self text) w) as Hw.
  destruct (_call_ollama_api h self (prompt_for self text) w) as [r w'].
  cbn [snd fst] in *. subst w'.
  destruct r as [a|e]; cbn [try_except]; eauto 6.
Qed.

Lemma call_origin (prompt : pystr) (w : world) (a : pyval) :
  fst (_call_ollama_api h self prompt w) = Ok a ->
  a = degraded_result \/ exists s, json_loads (limits h) s = Ok a.
Proof.
  unfold _call_ollama_api. cbn [fst].
  destruct (session_post h w (ollama_request self prompt)) as [[status body]|e];
    cbn [bind try_except]; [|discriminate].
  destruct (status =? 200)%Z; [|discriminate].
  destruct body as [result|e]; cbn [bind try_except]; [|discriminate].
  destruct (py_get result (str "response") (PStr [])) as [rt|e];
    cbn [bind try_except]; [|discriminate].
  destruct (parse_response h rt) as [v|e] eqn:E; cbn [try_except]; [|discriminate].
  intros H. injection H as <-. now apply parse_response_origin in E.
Qed.

(** A successful run of [analyze_document], taken apart. *)
Lemma analyze_ok_inv (file_content : bytes) (filename : pystr) (w : world) (v : pyval) :
  fst (analyze_document h self file_content filename w) = Ok v ->
  exists text a,
    _extract_text h file_content filename = Ok text
    /\ analyze_document h self file_content filename w
       = (Ok v, after_post w (ollama_request self (prompt_for self text)))
    /\ _perform_ai_analysis h self text w
       = (Ok a, after_post w (ollama_request self (prompt_for self text)))
    /\ _structure_analysis h self
         (after_post w (ollama_request self (prompt_for self text))) a text = Ok v.
Proof.
  unfold analyze_document.
  destruct (_extract_text h file_content filename) as [text|e]; [|discriminate].
  destruct (perform_cases text w) as (a & Hp & _). rewrite Hp.
  cbn [fst bind try_except].
  destruct (_structure_analysis h self _ a text) as [v'|e] eqn:E;
    cbn [try_except]; [|discriminate].
  intros H. injection H as <-. exists text, a. auto.
Qed.

(** When the single model call fails (the post raises, as on a transport
    error or a timeout, or the status is not 200), nothing is raised to the
    caller: exactly one request has been posted, and the caller receives
    the analysis of the fallback scorer with metadata and playbook
    reference attached, in which every field of the schema is present and
    of its type.  The section score of that analysis need not lie between 0
    and 100. *)
Lemma model_failure_falls_back
    (file_content : bytes) (filename text : pystr) (w : world) :
  let payload := ollama_request self (prompt_for self text) in
  _extract_text h file_content filename = Ok text ->
  model_unavailable h w payload = true ->
  exists v,
    analyze_document h self file_content filename w
    = (Ok v, {| posted := posted w ++ [payload] |})
    /\ _structure_analysis h self {| posted := posted w ++ [payload] |}
         (_fallback_analysis h text) text
       = Ok v
    /\ AnalysisResult_shape_ok v = true.
Proof.
  cbv zeta. intros Hx Hu.
  destruct (call_fails_when_unavailable _ _ Hu) as [e He].
  destruct (perform_cases text w) as (a & Hp & [Hok|[-> _]]); [congruence|].
  destruct (fallback_is_dict h text) as [d Hd].
  unfold analyze_document. rewrite Hx, Hp. cbn [bind try_except].
  rewrite Hd, structure_dict. cbn [try_except].
  eexists. split; [reflexivity|]. split; [reflexivity|].
  unfold AnalysisResult_shape_ok.
  rewrite structured_analysis_fields, structured_assembled_ok, <- Hd.
  now rewrite fallback_shape_ok.
Qed.

(** C3 (as amended).  Every result returned to the caller holds [metadata]
    and [playbook_reference], present and of their types.  When it comes
    from the fallback scorer, every other field of the schema is present
    and of its type (the section score being an integer); when it is the
    degraded result of recovery, it satisfies the schema in full; when it
    was parsed from the reply of the model, its other fields are those of
    the parsed JSON object, as the model wrote them. *)
Theorem returned_result_shape
    (file_content : bytes) (filename : pystr) (w : world) (v : pyval) :
  fst (analyze_document h self file_content filename w) = Ok v ->
  assembled_fields_ok v = true
  /\ exists text a,
       _extract_text h file_content filename = Ok text
       /\ _structure_analysis h self
            (after_post w (ollama_request self (prompt_for self text))) a text = Ok v
       /\ ((a = _fallback_analysis h text /\ AnalysisResult_shape_ok v = true)
           \/ (a = degraded_result /\ AnalysisResult_ok v = true)
           \/ (exists s d, json_loads (limits h) s = Ok a /\ a = PDict d
                /\ forall k, k <> str "metadata" -> k <> str "playbook_reference" ->
                     field k v = dict_get k d)).
Proof.
  intros H. apply analyze_ok_inv in H as (text & a & Hx & _ & Hp & Hs).
  destruct (structure_needs_dict _ _ _ _ _ Hs) as [d ->].
  rewrite structure_dict in Hs. injection Hs as <-.
  split; [apply structured_assembled_ok|].
  exists text, (PDict d). split; [assumption|]. split; [apply structure_dict|].
  destruct (perform_cases text w) as (a' & Hp' & Horigin).
  rewrite Hp in Hp'. injection Hp' as <-.
  destruct Horigin as [Hcall|[Hfb _]].
  - apply call_origin in Hcall as [Hdeg|[s Hs]].
    + right; left. split; [assumption|].
      unfold AnalysisResult_ok.
      rewrite structured_analysis_fields, structured_assembled_ok, Hdeg.
      reflexivity.
    + right; right. exists s, d. split; [assumption|]. split; [reflexivity|].
      intros k H1 H2. now apply structured_other.
  - left. split; [assumption|].
    unfold AnalysisResult_shape_ok.
    rewrite structured_analysis_fields, structured_assembled_ok, Hfb.
    now rewrite fallback_shape_ok.
Qed.

(** C6 (as amended).  In the result returned to the caller,
    [metadata.document_length] is the length of the full extracted text,
    [metadata.analysis_timestamp] is the reading of the event loop's clock
    in the world in which the result is structured, [metadata.model_used]
    is the analyzer's model name whichever path produced the analysis, and
    [playbook_reference.sections_reviewed] is the number of review sections
    of the playbook; for the analyzer as constructed these are the model
    llama3.2:1b and 10 sections.  The wall clock is not read: with any
    other wall clock the run is the same. *)
Theorem structured_metadata_values
    (file_content : bytes) (filename text : pystr) (w : world) (v : pyval) :
  _extract_text h file_content filename = Ok text ->
  fst (analyze_document h self file_content filename w) = Ok v ->
  lookup [str "metadata"; str "document_length"] v
    = Some (PInt (Z.of_nat (length text)))
  /\ lookup [str "metadata"; str "analysis_timestamp"] v
     = Some (PFloat (loop_time h (snd (analyze_document h self file_content filename w))))
  /\ lookup [str "metadata"; str "model_used"] v = Some (PStr (model_name self))
  /\ lookup [str "playbook_reference"; str "sections_reviewed"] v
     = Some (PInt (Z.of_nat (length (review_sections
                                       (get_playbook (knowledge_base self))))))
  /\ model_name analyzer_init = str "llama3.2:1b"
  /\ length (review_sections (get_playbook (knowledge_base analyzer_init))) = 10
  /\ (forall clock,
        analyze_document (with_wall_clock h clock) self file_content filename w
        = analyze_document h self file_content filename w).
Proof.
  intros Hx H.
  assert (Hclock : forall clock,
             analyze_document (with_wall_clock h clock) self file_content filename w
             = analyze_document h self file_content filename w)
    by (intros clock; reflexivity).
  apply analyze_ok_inv in H as (text' & a & Hx' & Hrun & _ & Hs).
  rewrite Hx in Hx'. injection Hx' as <-.
  rewrite Hrun in Hclock |- *. cbn [snd].
  destruct (structure_needs_dict _ _ _ _ _ Hs) as [d ->].
  rewrite structure_dict in Hs. injection Hs as <-.
  unfold lookup. rewrite structured_metadata, structured_playbook_reference.
  repeat split. exact Hclock.
Qed.

(** C7.  A file whose lower-cased name ends in none of .pdf, .docx and
    .txt is refused: extraction raises an exception that names the file,
    no text is returned, and the analysis fails with it before any request
    is posted. *)
Theorem unsupported_suffix_refused
    (file_content : bytes) (filename : pystr) (w : world) :
  endswith (str ".pdf") (lower h filename) = false ->
  endswith (str ".docx") (lower h filename) = false ->
  endswith (str ".txt") (lower h filename) = false ->
  _extract_text h file_content filename
    = Raise (Exception (str "Text extraction failed: Unsupported file format: "
                        ++ filename))
  /\ analyze_document h self file_content filename w
     = (Raise (Exception (str "Document analysis failed: Text extraction failed: Unsupported file format: "
                          ++ filename)), w).
Proof.
  intros H1 H2 H3.
  assert (E : _extract_text h file_content filename
              = Raise (Exception (str "Text extraction failed: Unsupported file format: "
                                  ++ filename))).
  { unfold _extract_text. rewrite H1, H2, H3. reflexivity. }
  split; [assumption|].
  unfold analyze_document. rewrite E. reflexivity.
Qed.

End Pipeline.

Lemma model_failure_falls_back_witness :
  (exists v,
     analyze_document (sample_host unreachable) analyzer_init
       (ascii_bytes "The Data Controller uses ENCRYPTION.") (str "Contract.TXT")
       fresh_world
     = (Ok v, after_post fresh_world
                (ollama_request analyzer_init
                   (prompt_for analyzer_init (str "The Data Controller uses ENCRYPTION."))))
     /\ AnalysisResult_shape_ok v = true)
  /\ (exists v,
        fst (analyze_document (sample_host (answering_status 503)) analyzer_init
               (ascii_bytes "The Data Controller uses ENCRYPTION.") (str "Contract.TXT")
               fresh_world) = Ok v
        /\ AnalysisResult_shape_ok v = true).
Proof.
  split.
  - destruct (@model_failure_falls_back (sample_host unreachable) analyzer_init
                (ascii_bytes "The Data Controller uses ENCRYPTION.")
                (str "Contract.TXT") (str "The Data Controller uses ENCRYPTION.")
                fresh_world)
      as (v & Hrun & _ & Hok); [vm_compute; reflexivity | reflexivity |].
    exists v. now split.
  - destruct (@model_failure_falls_back (sample_host (answering_status 503)) analyzer_init
                (ascii_bytes "The Data Controller uses ENCRYPTION.")
                (str "Contract.TXT") (str "The Data Controller uses ENCRYPTION.")
                fresh_world)
      as (v & Hrun & _ & Hok); [vm_compute; reflexivity | reflexivity |].
    exists v. rewrite Hrun. now split.
Defined.

(** C3 as stated fails: a reply that is an empty JSON object comes back to
    the caller with nothing but the two attached fields. *)
Lemma empty_reply_reaches_caller :
  exists v,
    fst (analyze_document (sample_host (replying (dq "{}"))) analyzer_init
           (ascii_bytes "Agreement") (str "a.txt") fresh_world) = Ok v
    /\ assembled_fields_ok v = true
    /\ AnalysisResult_shape_ok v = false
    /\ field (str "overall_assessment") v = None
    /\ field (str "section_analysis") v = None.
Proof. eexists. repeat split; vm_compute; reflexivity. Qed.

Lemma returned_result_shape_witness :
  exists v,
    fst (analyze_document (sample_host (replying (str "I cannot answer."))) analyzer_init
           (ascii_bytes "Agreement") (str "a.txt") fresh_world) = Ok v
    /\ assembled_fields_ok v = true.
Proof.
  destruct (fst (analyze_document (sample_host (replying (str "I cannot answer.")))
                   analyzer_init (ascii_bytes "Agreement") (str "a.txt") fresh_world))
    as [v|e] eqn:E; [|vm_compute in E; discriminate].
  exists v. split; [reflexivity|].
  exact (proj1 (@returned_result_shape _ _ _ _ _ _ E)).
Defined.

Lemma structured_metadata_values_witness :
  exists v,
    fst (analyze_document (sample_host unreachable) analyzer_init
           (ascii_bytes "The Data Controller uses ENCRYPTION.") (str "Contract.TXT")
           fresh_world) = Ok v
    /\ lookup [str "metadata"; str "document_length"] v = Some (PInt 36)
    /\ lookup [str "metadata"; str "analysis_timestamp"] v
       = Some (PFloat (Float (str "1.5")))
    /\ lookup [str "metadata"; str "model_used"] v = Some (PStr (str "llama3.2:1b"))
    /\ lookup [str "playbook_reference"; str "sections_reviewed"] v = Some (PInt 10).
Proof.
  assert (Hx : _extract_text (sample_host unreachable)
                 (ascii_bytes "The Data Controller uses ENCRYPTION.") (str "Contract.TXT")
               = Ok (str "The Data Controller uses ENCRYPTION."))
    by (vm_compute; reflexivity).
  destruct (fst (analyze_document (sample_host unreachable) analyzer_init
                   (ascii_bytes "The Data Controller uses ENCRYPTION.")
                   (str "Contract.TXT") fresh_world))
    as [v|e] eqn:E; [|vm_compute in E; discriminate].
  exists v. split; [reflexivity|].
  destruct (@structured_metadata_values _ _ _ _ _ _ _ Hx E) as (H1 & H2 & H3 & H4 & _).
  rewrite H1, H2, H3, H4. repeat split; vm_compute; reflexivity.
Defined.

(** C6 as stated fails: the timestamp is the reading of the event loop's
    clock, which counts from an origin of its own, and not the wall-clock
    time; here the two clocks show 1.5 and 1762250001.25 when the result is
    structured. *)
Lemma timestamp_is_not_wall_clock :
  exists v,
    analyze_document (sample_host unreachable) analyzer_init
      (ascii_bytes "The Data Controller uses ENCRYPTION.") (str "Contract.TXT")
      fresh_world
    = (Ok v, after_post fresh_world
               (ollama_request analyzer_init
                  (prompt_for analyzer_init (str "The Data Controller uses ENCRYPTION."))))
    /\ lookup [str "metadata"; str "analysis_timestamp"] v
       = Some (PFloat (Float (str "1.5")))
    /\ wall_clock (sample_host unreachable)
         (after_post fresh_world
            (ollama_request analyzer_init
               (prompt_for analyzer_init (str "The Data Controller uses ENCRYPTION."))))
       = Float (str "1762250001.25")
    /\ PFloat (Float (str "1.5")) <> PFloat (Float (str "1762250001.25")).
Proof.
  eexists. split; [vm_compute; reflexivity|].
  split; [vm_compute; reflexivity|]. split; [vm_compute; reflexivity|].
  intros H. vm_compute in H. discriminate.
Qed.

(** C5 fails on the fallback path: for a document in which no clause
    category is found and an endpoint that cannot be reached, the caller
    receives a result whose section score is -20, outside the range 0 to
    100 of the schema, beside a compliance score of 0; for a document in
    which all nine are found, a section score of 115 beside a compliance
    score of 100.  Every field is present and of its type. *)
Lemma model_failure_result_out_of_range :
  (exists v,
     analyze_document (sample_host unreachable) analyzer_init
       (ascii_bytes "Lorem ipsum") (str "notes.txt") fresh_world
     = (Ok v, after_post fresh_world
                (ollama_request analyzer_init (prompt_for analyzer_init (str "Lorem ipsum"))))
     /\ AnalysisResult_shape_ok v = true
     /\ AnalysisResult_ok v = false
     /\ lookup [str "overall_assessment"; str "compliance_score"] v = Some (PInt 0)
     /\ map (field (str "score")) (sections v) = [Some (PInt (-20))])
  /\ (exists v,
        fst (analyze_document (sample_host (answering_status 503)) analyzer_init
               (ascii_bytes "controller processor personal data gdpr encryption data breach right to access deletion third party")
               (str "dpa.txt") fresh_world) = Ok v
        /\ AnalysisResult_shape_ok v = true
        /\ AnalysisResult_ok v = false
        /\ lookup [str "overall_assessment"; str "compliance_score"] v = Some (PInt 100)
        /\ map (field (str "score")) (sections v) = [Some (PInt 115)]).
Proof.
  split; eexists; repeat split; vm_compute; reflexivity.
Qed.

Lemma unsupported_suffix_refused_witness :
  analyze_document (sample_host unreachable) analyzer_init
    (ascii_bytes "binary") (str "Contract.DOC") fresh_world
  = (Raise (Exception (str "Document analysis failed: Text extraction failed: Unsupported file format: Contract.DOC")),
     fresh_world).
Proof.
  destruct (@unsupported_suffix_refused (sample_host unreachable) analyzer_init
              (ascii_bytes "binary") (str "Contract.DOC") fresh_world)
    as (_ & Hrun); [vm_compute; reflexivity ..|].
  exact Hrun.
Defined.

(** * Further properties of the code *)

(** ** Text extraction *)

Lemma join_lines_from (parts : list pystr) (text : pystr) :
  fold_left (fun text p => text ++ (p ++ [10%N])) parts text
  = text ++ lines_of parts.
Proof.
  revert text. induction parts as [|p parts IH]; intros text.
  - simpl. now rewrite app_nil_r.
  - cbn [fold_left]. rewrite IH. unfold lines_of. cbn [map concat].
    now rewrite <- !app_assoc.
Qed.

Lemma join_lines_lines_of (parts : list pystr) : join_lines parts = lines_of parts.
Proof. unfold join_lines. now rewrite join_lines_from. Qed.

Lemma lines_of_length (parts : list pystr) :
  length (lines_of parts) = list_sum (map (@length N) parts) + length parts.
Proof.
  unfold lines_of. induction parts as [|p parts IH]; [reflexivity|].
  cbn [map concat list_sum length]. rewrite !length_app, IH. simpl. lia.
Qed.

(** X1.  When the PDF reader succeeds, [_extract_from_pdf] returns the
    texts of the pages in document order, each followed by one newline:
    its length is the sum of the page lengths plus the number of pages, a
    document without pages gives the empty text and any other document a
    text that is not empty.  [_extract_from_docx] does the same with the
    paragraphs. *)
Theorem extraction_joins_parts (h : host) (file_content : bytes) (parts : list pystr) :
  (pdf_pages h file_content = Ok parts ->
   _extract_from_pdf h file_content = Ok (lines_of parts))
  /\ (docx_paragraphs h file_content = Ok parts ->
      _extract_from_docx h file_content = Ok (lines_of parts))
  /\ length (lines_of parts) = list_sum (map (@length N) parts) + length parts
  /\ (lines_of parts = [] <-> parts = []).
Proof.
  split; [|split; [|split]].
  - intros E. unfold _extract_from_pdf. rewrite E. cbn [bind try_except].
    now rewrite join_lines_lines_of.
  - intros E. unfold _extract_from_docx. rewrite E. cbn [bind try_except].
    now rewrite join_lines_lines_of.
  - apply lines_of_length.
  - split; [|intros ->; reflexivity].
    intros E. apply (f_equal (@length N)) in E.
    rewrite lines_of_length in E. destruct parts; [reflexivity | simpl in E; lia].
Qed.

Lemma extraction_joins_parts_witness :
  _extract_from_pdf
    {| lower := ascii_lower;
       pdf_pages := fun _ => Ok [str "Page one"; str ""; str "Page three"];
       docx_paragraphs := fun _ => Ok [];
       decode_utf8 := ascii_decode;
       session_post := unreachable;
       loop_time := fun _ => Float (str "0.0");
       wall_clock := fun _ => Float (str "0.0");
       limits := sample_limits |}
    (ascii_bytes "%PDF")
  = Ok (str "Page one" ++ [10%N] ++ [10%N] ++ str "Page three" ++ [10%N]).
Proof.
  refine (proj1 (@extraction_joins_parts _ (ascii_bytes "%PDF")
                   [str "Page one"; str ""; str "Page three"]) _).
  reflexivity.
Defined.

(** X2.  Whatever [_extract_text] raises is an [Exception] whose message
    starts with [Text extraction failed: ]; a failure of the PDF or DOCX
    reader arrives with the reader's own prefix inside it, a failure of the
    UTF-8 decoder with the decoder's message alone. *)
Theorem extraction_errors_are_wrapped
    (h : host) (file_content : bytes) (filename : pystr) (e : exn) :
  _extract_text h file_content filename = Raise e ->
  exists cause,
    e = Exception (str "Text extraction failed: " ++ exn_str cause)
    /\ (endswith (str ".pdf") (lower h filename) = true ->
        exists e0, pdf_pages h file_content = Raise e0
                   /\ cause = Exception (str "PDF extraction failed: " ++ exn_str e0))
    /\ (endswith (str ".pdf") (lower h filename) = false ->
        endswith (str ".docx") (lower h filename) = true ->
        exists e0, docx_paragraphs h file_content = Raise e0
                   /\ cause = Exception (str "DOCX extraction failed: " ++ exn_str e0))
    /\ (endswith (str ".pdf") (lower h filename) = false ->
        endswith (str ".docx") (lower h filename) = false ->
        endswith (str ".txt") (lower h filename) = true ->
        decode_utf8 h file_content = Raise cause).
Proof.
  unfold _extract_text.
  destruct (endswith (str ".pdf") (lower h filename)) eqn:Epdf.
  { unfold _extract_from_pdf.
    destruct (pdf_pages h file_content) as [pages|e0] eqn:E0;
      cbn [bind try_except]; [discriminate|].
    intros H. injection H as <-.
    exists (Exception (str "PDF extraction failed: " ++ exn_str e0)).
    split; [reflexivity|]. split; [eauto|]. split; discriminate. }
  destruct (endswith (str ".docx") (lower h filename)) eqn:Edocx.
  { unfold _extract_from_docx.
    destruct (docx_paragraphs h file_content) as [ps|e0] eqn:E0;
      cbn [bind try_except]; [discriminate|].
    intros H. injection H as <-.
    exists (Exception (str "DOCX extraction failed: " ++ exn_str e0)).
    split; [reflexivity|]. split; [discriminate|]. split; [eauto|]. discriminate. }
  destruct (endswith (str ".txt") (lower h filename)) eqn:Etxt.
  { destruct (decode_utf8 h file_content) as [t|e0] eqn:E0;
      cbn [try_except]; [discriminate|].
    intros H. injection H as <-. exists e0.
    split; [reflexivity|]. split; [discriminate|]. split; [discriminate|]. auto. }
  cbn [try_except]. intros H. injection H as <-.
  exists (Exception (str "Unsupported file format: " ++ filename)).
  split; [reflexivity|]. repeat split; discriminate.
Qed.

Lemma extraction_errors_are_wrapped_witness :
  exists cause,
    Exception (str "Text extraction failed: PDF extraction failed: EOF marker not found")
    = Exception (str "Text extraction failed: " ++ exn_str cause).
Proof.
  assert (E : _extract_text (sample_host unreachable) (ascii_bytes "not a pdf")
                (str "Scan.PDF")
              = Raise (Exception (str "Text extraction failed: PDF extraction failed: EOF marker not found")))
    by (vm_compute; reflexivity).
  destruct (@extraction_errors_are_wrapped _ _ _ _ E) as (cause & Hc & _).
  exists cause. exact Hc.
Defined.

(** ** The prompt *)

Lemma firstn_min_length (A : Type) (n : nat) (s : list A) :
  firstn (Nat.min (length s) n) s = firstn n s.
Proof.
  destruct (Nat.le_ge_cases n (length s)) as [H|H].
  - now rewrite Nat.min_r.
  - rewrite Nat.min_l by assumption. now rewrite firstn_all, firstn_all2.
Qed.

Lemma slice_to_firstn (A : Type) (s : list A) (n : Z) :
  (0 <= n)%Z -> slice_to s n = firstn (Z.to_nat n) s.
Proof.
  intros Hn. unfold slice_to, slice, clip_index. cbn [Z.ltb Z.compare].
  destruct (Z.ltb_spec n 0); [lia|].
  replace (Z.max 0 (Z.min (Z.of_nat (length s)) 0)) with 0%Z by lia.
  cbn [Z.to_nat skipn].
  replace (Z.to_nat (Z.max 0 (Z.min (Z.of_nat (length s)) n) - 0))
    with (Nat.min (length s) (Z.to_nat n)) by lia.
  apply firstn_min_length.
Qed.

(** X3.  The prompt is a fixed head, the first 2000 characters of the
    text and a fixed tail: a text of at most 2000 characters is embedded
    whole, two texts with the same first 2000 characters give the same
    prompt, and the playbook, the key clauses and the risk indicators
    passed in change nothing. *)
Theorem prompt_embeds_first_2000
    (text other : pystr) (pb pb' : playbook_t) (kc kc' : list pystr)
    (ri ri' : risk_indicators_t) :
  _create_analysis_prompt text pb kc ri
    = prompt_head ++ firstn 2000 text ++ prompt_tail
  /\ length (_create_analysis_prompt text pb kc ri)
     = length prompt_head + Nat.min 2000 (length text) + length prompt_tail
  /\ (length text <= 2000 ->
      _create_analysis_prompt text pb kc ri = prompt_head ++ text ++ prompt_tail)
  /\ (firstn 2000 text = firstn 2000 other ->
      _create_analysis_prompt text pb kc ri = _create_analysis_prompt other pb' kc' ri').
Proof.
  assert (E : forall t pb kc ri,
             _create_analysis_prompt t pb kc ri
             = prompt_head ++ firstn 2000 t ++ prompt_tail).
  { intros. unfold _create_analysis_prompt.
    rewrite slice_to_firstn by lia. reflexivity. }
  split; [apply E|]. split; [|split].
  - rewrite E, !length_app, length_firstn. lia.
  - intros H. rewrite E, firstn_all2 by assumption. reflexivity.
  - intros H. rewrite !E. now rewrite H.
Qed.

Lemma prompt_embeds_first_2000_witness :
  _create_analysis_prompt (str "Short agreement.") _create_playbook
    _get_key_clauses _get_risk_indicators
  = prompt_head ++ str "Short agreement." ++ prompt_tail.
Proof.
  refine (proj1 (proj2 (proj2 (@prompt_embeds_first_2000
            (str "Short agreement.") (str "Short agreement.")
            _create_playbook _create_playbook _get_key_clauses _get_key_clauses
            _get_risk_indicators _get_risk_indicators))) _).
  simpl. lia.
Defined.

(** ** The model call *)

Section ModelCall.

Variable h : host.
Variable self : DPAAnalyzer.

Lemma call_on_200 (prompt : pystr) (w : world) (body : result pyval) :
  session_post h w (ollama_request self prompt) = Ok (Response 200 body) ->
  fst (_call_ollama_api h self prompt w)
  = try_except
      (result <- body ;;
       response_text <- py_get result (str "response") (PStr []) ;;
       parse_response h response_text)%py
      (fun e => Raise (llm_failed (exn_str e))).
Proof.
  intros E. unfold _call_ollama_api. cbn [fst]. rewrite E. reflexivity.
Qed.

(** X4.  Whatever [_call_ollama_api] raises is an [Exception] whose
    message starts with [LLM API call failed: ].  A status other than 200
    gives the message with that status, whatever the body holds; a failure
    of the post itself gives the message of that failure. *)
Theorem call_failures_are_wrapped (prompt : pystr) (w : world) :
  (forall e, fst (_call_ollama_api h self prompt w) = Raise e ->
             exists m, e = llm_failed m)
  /\ (forall status body,
        session_post h w (ollama_request self prompt) = Ok (Response status body) ->
        (status =? 200)%Z = false ->
        fst (_call_ollama_api h self prompt w)
        = Raise (llm_failed (str "Ollama API call failed with status "
                             ++ str_of_Z status)))
  /\ (forall e0,
        session_post h w (ollama_request self prompt) = Raise e0 ->
        fst (_call_ollama_api h self prompt w) = Raise (llm_failed (exn_str e0))).
Proof.
  split; [|split].
  - intros e. unfold _call_ollama_api. cbn [fst].
    match goal with
    | |- try_except ?m _ = _ -> _ => destruct m as [a|e']
    end; cbn [try_except]; [discriminate|].
    intros H. injection H as <-. now exists (exn_str e').
  - intros status body E Hs. unfold _call_ollama_api. cbn [fst].
    rewrite E. cbn [bind]. rewrite Hs. reflexivity.
  - intros e0 E. unfold _call_ollama_api. cbn [fst]. rewrite E. reflexivity.
Qed.


(** X6.  [_perform_ai_analysis] never raises and posts exactly one
    request: it returns the analysis of the fallback scorer, the degraded
    result, or a value decoded from JSON text. *)
Theorem perform_never_raises (text : pystr) (w : world) :
  exists a,
    _perform_ai_analysis h self text w
    = (Ok a, {| posted := posted w ++ [ollama_request self (prompt_for self text)] |})
    /\ (a = _fallback_analysis h text
        \/ a = degraded_result
        \/ exists s, json_loads (limits h) s = Ok a).
Proof.
  destruct (perform_cases h self text w) as (a & Hp & Ho).
  exists a. split; [exact Hp|].
  destruct Ho as [Hc|[Hf _]]; [|now left].
  apply call_origin in Hc as [Hd|Hs]; auto.
Qed.

End ModelCall.


Lemma call_failures_are_wrapped_witness :
  fst (_call_ollama_api (sample_host (answering_status 503)) analyzer_init
         (str "prompt") fresh_world)
  = Raise (Exception (str "LLM API call failed: Ollama API call failed with status 503")).
Proof.
  refine (proj1 (proj2 (@call_failures_are_wrapped
                          (sample_host (answering_status 503)) analyzer_init
                          (str "prompt") fresh_world))
            503%Z (Ok (PDict [])) _ _); reflexivity.
Defined.

(** ** The whole analysis *)

Section Analysis.

Variable h : host.
Variable self : DPAAnalyzer.

(** What [_perform_ai_analysis] returns when the model answers 200 with
    a text: the value parsed from it; failing that the degraded result, if
    the first 500 characters of the text can be printed; and if they can
    not, the analysis of the fallback scorer, the call having raised. *)
Lemma call_on_reply (prompt reply : pystr) (w : world) (body : pyval) :
  session_post h w (ollama_request self prompt) = Ok (Response 200 (Ok body)) ->
  field (str "response") body = Some (PStr reply) ->
  fst (_call_ollama_api h self prompt w)
  = try_except (parse_response h (PStr reply))
      (fun e => Raise (llm_failed (exn_str e))).
Proof.
  intros E Hf. rewrite (@call_on_200 h self _ _ _ E). cbn [bind].
  destruct body; try discriminate. cbn [field] in Hf. cbn [py_get].
  now rewrite Hf.
Qed.

Lemma perform_on_call (text : pystr) (w : world) (a : pyval) :
  fst (_call_ollama_api h self (prompt_for self text) w) = Ok a ->
  _perform_ai_analysis h self text w
  = (Ok a, after_post w (ollama_request self (prompt_for self text))).
Proof.
  intros Hc. destruct (perform_cases h self text w) as (a' & Hp & Ho). rewrite Hp.
  destruct Ho as [Ho|[_ [e He]]]; congruence.
Qed.


Lemma perform_on_parsed (text reply : pystr) (w : world) (body a : pyval) :
  session_post h w (ollama_request self (prompt_for self text))
    = Ok (Response 200 (Ok body)) ->
  field (str "response") body = Some (PStr reply) ->
  parse_cleaned_response h (strip reply) = Ok a ->
  _perform_ai_analysis h self text w
  = (Ok a, after_post w (ollama_request self (prompt_for self text))).
Proof.
  intros E Hf Hp. apply perform_on_call.
  rewrite (call_on_reply _ _ E Hf), (parse_response_parsed _ _ Hp). reflexivity.
Qed.

Lemma analyze_on_perform
    (file_content : bytes) (filename text : pystr) (w w' : world) (a : pyval) :
  _extract_text h file_content filename = Ok text ->
  _perform_ai_analysis h self text w = (Ok a, w') ->
  analyze_document h self file_content filename w
  = (try_except
       (_structure_analysis h self w' a text)
       (fun e => Raise (Exception (str "Document analysis failed: " ++ exn_str e))),
     w').
Proof.
  intros Hx Hp. unfold analyze_document. rewrite Hx, Hp. reflexivity.
Qed.

Lemma direct_parse_cleaned (cleaned : pystr) (v : pyval) :
  json_loads (limits h) cleaned = Ok v -> parse_cleaned_response h cleaned = Ok v.
Proof. intros E. now rewrite parse_cleaned_response_stages, E. Qed.


(** X7.  When the model answers 200 with a reply whose stripped text is a
    JSON object, [analyze_document] returns that object with [metadata] and
    [playbook_reference] set: a value the reply gave for either key is
    replaced, every other key keeps the value the reply gave it, and one
    request has been posted. *)
Theorem analysis_returns_model_object
    (file_content : bytes) (filename text reply : pystr) (w : world)
    (body : pyval) (d : pydict) :
  let w' := after_post w (ollama_request self (prompt_for self text)) in
  _extract_text h file_content filename = Ok text ->
  session_post h w (ollama_request self (prompt_for self text))
    = Ok (Response 200 (Ok body)) ->
  field (str "response") body = Some (PStr reply) ->
  json_loads (limits h) (strip reply) = Ok (PDict d) ->
  exists v,
    analyze_document h self file_content filename w = (Ok v, w')
    /\ field (str "metadata") v = Some (metadata_of h self w' text)
    /\ field (str "playbook_reference") v = Some (playbook_reference_of self)
    /\ forall k, k <> str "metadata" -> k <> str "playbook_reference" ->
         field k v = dict_get k d.
Proof.
  cbv zeta. intros Hx E Hf Hj.
  rewrite (analyze_on_perform _ _ Hx
             (perform_on_parsed _ _ E Hf (direct_parse_cleaned _ Hj))).
  rewrite structure_dict. cbn [try_except].
  eexists. split; [reflexivity|].
  split; [apply structured_metadata|].
  split; [apply structured_playbook_reference|].
  intros k H1 H2. now apply structured_other.
Qed.

(** X8.  When the model answers 200 with a reply whose stripped text is
    valid JSON but not an object (a number, a string, a list, null ...),
    [analyze_document] raises: the failure of the item assignment in
    [_structure_analysis] reaches the caller as
    [Document analysis failed: ...], after one request. *)
Theorem analysis_fails_on_non_object_reply
    (file_content : bytes) (filename text reply : pystr) (w : world)
    (body v : pyval) :
  let w' := after_post w (ollama_request self (prompt_for self text)) in
  _extract_text h file_content filename = Ok text ->
  session_post h w (ollama_request self (prompt_for self text))
    = Ok (Response 200 (Ok body)) ->
  field (str "response") body = Some (PStr reply) ->
  json_loads (limits h) (strip reply) = Ok v ->
  is_dict v = false ->
  exists cause,
    py_setitem v (str "metadata") (metadata_of h self w' text) = Raise cause
    /\ analyze_document h self file_content filename w
       = (Raise (Exception (str "Document analysis failed: " ++ exn_str cause)), w').
Proof.
  cbv zeta. intros Hx E Hf Hj Hd.
  rewrite (analyze_on_perform _ _ Hx
             (perform_on_parsed _ _ E Hf (direct_parse_cleaned _ Hj))).
  destruct v; try discriminate; eexists; split; reflexivity.
Qed.


(** X10.  [analyze_document] posts no request when extraction fails and
    exactly one when it succeeds, and whatever it raises is an [Exception]
    whose message starts with [Document analysis failed: ]. *)
Theorem analysis_effects_and_errors
    (file_content : bytes) (filename : pystr) (w : world) :
  (forall e, _extract_text h file_content filename = Raise e ->
     analyze_document h self file_content filename w
     = (Raise (Exception (str "Document analysis failed: " ++ exn_str e)), w))
  /\ (forall text, _extract_text h file_content filename = Ok text ->
        snd (analyze_document h self file_content filename w)
        = {| posted := posted w ++ [ollama_request self (prompt_for self text)] |})
  /\ (forall e, fst (analyze_document h self file_content filename w) = Raise e ->
        exists m, e = Exception (str "Document analysis failed: " ++ m)).
Proof.
  unfold analyze_document.
  destruct (_extract_text h file_content filename) as [text|e0].
  - destruct (perform_cases h self text w) as (a & Hp & _). rewrite Hp.
    cbn [fst snd].
    split; [discriminate|]. split.
    + intros t Ht. injection Ht as <-. reflexivity.
    + intros e. cbn [bind].
      destruct (_structure_analysis h self
                  (after_post w (ollama_request self (prompt_for self text))) a text)
        as [v|e']; cbn [try_except]; [discriminate|].
      intros H. injection H as <-. exists (exn_str e'). reflexivity.
  - split; [intros e H; injection H as <-; reflexivity|].
    split; [discriminate|].
    cbn [fst]. intros e H. injection H as <-. exists (exn_str e0). reflexivity.
Qed.

End Analysis.

Lemma analysis_returns_model_object_witness :
  exists v,
    fst (analyze_document (sample_host (replying sample_object_text)) analyzer_init
           (ascii_bytes "Agreement") (str "a.txt") fresh_world) = Ok v
    /\ field (str "strengths") v
       = Some (PList [PStr (str "Clear roles"); PStr (str "Security measures")]).
Proof.
  destruct (@analysis_returns_model_object
              (sample_host (replying sample_object_text)) analyzer_init
              (ascii_bytes "Agreement") (str "a.txt") (str "Agreement")
              sample_object_text fresh_world
              (PDict [(str "response", PStr sample_object_text)])
              match sample_object with PDict d => d | _ => [] end)
    as (v & Hrun & _ & _ & Hother);
    [vm_compute; reflexivity ..|].
  exists v. split; [now rewrite Hrun|].
  rewrite Hother by discriminate. vm_compute. reflexivity.
Defined.

Lemma analysis_fails_on_non_object_reply_witness :
  analyze_document (sample_host (replying (dq "[1, 2]"))) analyzer_init
    (ascii_bytes "Agreement") (str "a.txt") fresh_world
  = (Raise (Exception (str "Document analysis failed: list indices must be integers or slices, not str")),
     after_post fresh_world
       (ollama_request analyzer_init (prompt_for analyzer_init (str "Agreement")))).
Proof.
  destruct (@analysis_fails_on_non_object_reply
              (sample_host (replying (dq "[1, 2]"))) analyzer_init
              (ascii_bytes "Agreement") (str "a.txt") (str "Agreement")
              (dq "[1, 2]") fresh_world
              (PDict [(str "response", PStr (dq "[1, 2]"))])
              (PList [PInt 1; PInt 2]))
    as (cause & Hc & Hrun); [vm_compute; reflexivity ..|].
  rewrite Hrun. injection Hc as <-. reflexivity.
Defined.


Lemma analysis_effects_and_errors_witness :
  snd (analyze_document (sample_host unreachable) analyzer_init
         (ascii_bytes "Agreement") (str "a.txt") fresh_world)
  = {| posted := [ollama_request analyzer_init (prompt_for analyzer_init (str "Agreement"))] |}.
Proof.
  refine (proj1 (proj2 (@analysis_effects_and_errors (sample_host unreachable)
                          analyzer_init (ascii_bytes "Agreement") (str "a.txt")
                          fresh_world)) (str "Agreement") _).
  vm_compute. reflexivity.
Defined.

(** ** Structuring, once more *)

Lemma has_key_set (k k' : pystr) (v : pyval) (d : pydict) :
  has_key k' (dict_set k v d) = has_key k' d || str_eqb k' k.
Proof.
  unfold has_key, keys. induction d as [|[k0 v0] d IH]; simpl.
  - apply orb_false_r.
  - destruct (str_eqb k k0) eqn:E; simpl.
    + apply str_eqb_eq in E. subst k0.
      destruct (str_eqb k' k), (existsb (str_eqb k') (map fst d)); reflexivity.
    + rewrite IH.
      destruct (str_eqb k' k0), (existsb (str_eqb k') (map fst d)), (str_eqb k' k);
        reflexivity.
Qed.

Lemma dict_set_keys (k : pystr) (v : pyval) (d : pydict) :
  keys (dict_set k v d) = if has_key k d then keys d else keys d ++ [k].
Proof.
  unfold has_key, keys. induction d as [|[k0 v0] d IH]; simpl; [reflexivity|].
  destruct (str_eqb k k0) eqn:E; simpl; [reflexivity|].
  rewrite IH. now destruct (existsb (str_eqb k) (map fst d)).
Qed.

Lemma dict_set_same_value (k : pystr) (v : pyval) (d : pydict) :
  dict_get k d = Some v -> dict_set k v d = d.
Proof.
  induction d as [|[k0 v0] d IH]; simpl; [discriminate|].
  destruct (str_eqb k k0) eqn:E.
  - intros H. injection H as ->. reflexivity.
  - intros H. now rewrite IH.
Qed.

Section StructureMore.

Variable h : host.
Variable self : DPAAnalyzer.
Variable w : world.
Variable original_text : pystr.

(** X11.  [_structure_analysis] on a dictionary keeps every key in its
    place with its value, except that it sets [metadata] and
    [playbook_reference]: a value already there is replaced where it
    stands, a key not there is added at the end.  On anything that is not
    a dictionary it raises. *)
Theorem structure_keeps_other_entries (d : pydict) :
  exists d',
    _structure_analysis h self w (PDict d) original_text = Ok (PDict d')
    /\ dict_get (str "metadata") d' = Some (metadata_of h self w original_text)
    /\ dict_get (str "playbook_reference") d' = Some (playbook_reference_of self)
    /\ (forall k, k <> str "metadata" -> k <> str "playbook_reference" ->
          dict_get k d' = dict_get k d)
    /\ keys d'
       = keys d ++ filter (fun k => negb (has_key k d))
                     [str "metadata"; str "playbook_reference"]
    /\ forall v, is_dict v = false ->
         exists e, _structure_analysis h self w v original_text = Raise e.
Proof.
  eexists. split; [apply structure_dict|].
  split; [apply (structured_metadata h self w original_text d)|].
  split; [apply (structured_playbook_reference h self w original_text d)|].
  split; [intros k H1 H2; now apply (structured_other h self w original_text d)|].
  split.
  - rewrite !dict_set_keys, has_key_set.
    replace (str_eqb (str "playbook_reference") (str "metadata")) with false
      by reflexivity.
    rewrite orb_false_r. cbn [filter].
    destruct (has_key (str "metadata") d), (has_key (str "playbook_reference") d);
      cbn [negb]; rewrite <- ?app_assoc, ?app_nil_r; reflexivity.
  - intros v Hv. destruct v; try discriminate; eexists; reflexivity.
Qed.

(** X12.  Structuring is idempotent: a result structured in a world, for a
    text, is left as it is when structured again in the same world for the
    same text. *)
Theorem structure_idempotent (a v : pyval) :
  _structure_analysis h self w a original_text = Ok v ->
  _structure_analysis h self w v original_text = Ok v.
Proof.
  intros H. destruct (@structure_needs_dict h self w original_text a v H) as [d ->].
  rewrite structure_dict in H. injection H as <-.
  rewrite structure_dict.
  pose proof (structured_metadata h self w original_text d) as Hm.
  pose proof (structured_playbook_reference h self w original_text d) as Hp.
  cbn [field] in Hm, Hp.
  rewrite (dict_set_same_value _ _ Hm), (dict_set_same_value _ _ Hp). reflexivity.
Qed.

End StructureMore.

Lemma structure_idempotent_witness :
  _structure_analysis (sample_host unreachable) analyzer_init fresh_world
    (PDict [(str "strengths", PList []);
            (str "metadata",
             metadata_of (sample_host unreachable) analyzer_init fresh_world
               (str "Agreement"));
            (str "playbook_reference", playbook_reference_of analyzer_init)])
    (str "Agreement")
  = Ok (PDict [(str "strengths", PList []);
               (str "metadata",
                metadata_of (sample_host unreachable) analyzer_init fresh_world
                  (str "Agreement"));
               (str "playbook_reference", playbook_reference_of analyzer_init)]).
Proof.
  apply (@structure_idempotent (sample_host unreachable) analyzer_init fresh_world
           (str "Agreement") (PDict [(str "strengths", PList [])])).
  reflexivity.
Defined.

(** ** The fallback scorer, by the number of categories present *)

Lemma n_present_bound (text_lower : pystr) : n_present text_lower <= 9.
Proof.
  unfold n_present.
  pose proof (present_absent_length text_lower key_terms) as H.
  rewrite key_terms_length in H. lia.
Qed.

Lemma score_by_count (text_lower : pystr) :
  score_spec text_lower = (15 * Z.of_nat (n_present text_lower) - 20)%Z.
Proof.
  unfold score_spec, n_present.
  pose proof (present_absent_length text_lower key_terms) as H.
  rewrite key_terms_length in H. lia.
Qed.

(** X13.  With [k] categories present out of nine, the fallback scorer's
    sum is [15 * k - 20]; the compliance score is that sum clamped to
    0..100, and the risk level is low when [k] is at least 7, medium when
    [k] is 6 and high when [k] is at most 5. *)
Theorem fallback_by_count (h : host) (text : pystr) :
  let k := n_present (lower h text) in
  let r := _fallback_analysis h text in
  k <= 9
  /\ lookup [str "overall_assessment"; str "compliance_score"] r
     = Some (PInt (Z.max 0 (Z.min 100 (15 * Z.of_nat k - 20))))
  /\ lookup [str "overall_assessment"; str "risk_level"] r
     = Some (PStr (if 7 <=? k then str "low"
                   else if 6 <=? k then str "medium"
                   else str "high")).
Proof.
  cbv zeta.
  destruct (fallback_fields h text) as (Hs & Hr & _).
  pose proof (n_present_bound (lower h text)) as Hk.
  split; [assumption|].
  rewrite Hs, Hr, score_by_count. unfold clamp. split; [reflexivity|].
  do 2 f_equal. unfold risk_of.
  destruct (Nat.leb_spec 7 (n_present (lower h text))),
           (Nat.leb_spec 6 (n_present (lower h text)));
    destruct (Z.leb_spec 80 (Z.max 0 (Z.min 100 (15 * Z.of_nat (n_present (lower h text)) - 20))));
    destruct (Z.leb_spec 60 (Z.max 0 (Z.min 100 (15 * Z.of_nat (n_present (lower h text)) - 20))));
    try reflexivity; lia.
Qed.

(** X14.  The score of the section [Automated Analysis] is the sum before
    the clamp, [15 * k - 20] for [k] categories present: it lies between
    -20 and 115 and equals the compliance score exactly when [k] is
    between 2 and 8. *)
Theorem fallback_section_score (h : host) (text : pystr) :
  let k := n_present (lower h text) in
  let r := _fallback_analysis h text in
  let section_score := (15 * Z.of_nat k - 20)%Z in
  map (field (str "score")) (sections r) = [Some (PInt section_score)]
  /\ map (field (str "section")) (sections r)
     = [Some (PStr (str "Automated Analysis"))]
  /\ (-20 <= section_score <= 115)%Z
  /\ lookup [str "overall_assessment"; str "compliance_score"] r
     = Some (PInt (clamp section_score))
  /\ (clamp section_score = section_score <-> 2 <= k <= 8).
Proof.
  cbv zeta.
  destruct (fallback_fields h text) as (Hs & _ & _ & _ & _ & _ & Hsec).
  pose proof (n_present_bound (lower h text)) as Hk.
  rewrite <- score_by_count.
  split; [assumption|]. split; [reflexivity|].
  rewrite score_by_count. split; [lia|]. rewrite <- score_by_count.
  split; [assumption|].
  rewrite score_by_count. unfold clamp. lia.
Qed.

Lemma contains_inside (k a t b : pystr) :
  contains k t = true -> contains k (a ++ t ++ b) = true.
Proof.
  intros H. apply contains_inv in H as (x & y & ->).
  replace (a ++ (x ++ k ++ y) ++ b) with ((a ++ x) ++ k ++ (y ++ b))
    by (rewrite <- !app_assoc; reflexivity).
  apply contains_intro.
Qed.

Lemma filter_length_le (A : Type) (p q : A -> bool) (l : list A) :
  (forall x, p x = true -> q x = true) ->
  length (filter p l) <= length (filter q l).
Proof.
  intros H. induction l as [|x l IH]; [reflexivity|].
  simpl. destruct (p x) eqn:E.
  - rewrite (H _ E). simpl. lia.
  - destruct (q x); simpl; lia.
Qed.

(** X15.  Text added around a document never lowers its fallback score:
    when lower-casing goes through the concatenation, every category
    present in the document is present in the larger text, and the
    compliance score of the larger text is at least that of the
    document. *)
Theorem fallback_score_monotone (h : host) (before text after : pystr) :
  lower h (before ++ text ++ after)
    = lower h before ++ lower h text ++ lower h after ->
  (forall item, present (lower h text) item = true ->
                present (lower h (before ++ text ++ after)) item = true)
  /\ exists c1 c2,
       lookup [str "overall_assessment"; str "compliance_score"]
         (_fallback_analysis h text) = Some (PInt c1)
       /\ lookup [str "overall_assessment"; str "compliance_score"]
            (_fallback_analysis h (before ++ text ++ after)) = Some (PInt c2)
       /\ (c1 <= c2)%Z.
Proof.
  intros Hl.
  assert (Hp : forall item, present (lower h text) item = true ->
                 present (lower h (before ++ text ++ after)) item = true).
  { intros item. unfold present, found. rewrite Hl.
    intros H. apply existsb_exists in H as (kw & Hin & Hc).
    apply existsb_exists. exists kw. split; [assumption|].
    now apply contains_inside. }
  split; [assumption|].
  destruct (fallback_fields h text) as (Hs1 & _).
  destruct (fallback_fields h (before ++ text ++ after)) as (Hs2 & _).
  do 2 eexists. split; [exact Hs1|]. split; [exact Hs2|].
  rewrite !score_by_count. unfold clamp, n_present.
  pose proof (filter_length_le _ _ key_terms Hp). lia.
Qed.

Lemma fallback_score_monotone_witness :
  exists c1 c2,
    lookup [str "overall_assessment"; str "compliance_score"]
      (_fallback_analysis (sample_host unreachable) (str "the Processor")) = Some (PInt c1)
    /\ lookup [str "overall_assessment"; str "compliance_score"]
         (_fallback_analysis (sample_host unreachable)
            (str "Whereas " ++ str "the Processor" ++ str " applies Encryption"))
       = Some (PInt c2)
    /\ (c1 <= c2)%Z.
Proof.
  refine (proj2 (@fallback_score_monotone (sample_host unreachable)
                   (str "Whereas ") (str "the Processor") (str " applies Encryption") _)).
  vm_compute. reflexivity.
Defined.

(** ** Guidance for a section *)

Lemma find_first (A : Type) (p : A -> bool) (l : list A) :
  match List.find p l with
  | Some x =>
      exists l1 l2, l = l1 ++ x :: l2 /\ p x = true
                    /\ forall y, In y l1 -> p y = false
  | None => forall y, In y l -> p y = false
  end.
Proof.
  induction l as [|a l IH]; simpl; [tauto|].
  destruct (p a) eqn:E.
  - exists [], l. repeat split; [assumption | intros y []].
  - destruct (List.find p l) as [x|].
    + destruct IH as (l1 & l2 & -> & Hx & Hl1).
      exists (a :: l1), l2. repeat split; [assumption|].
      intros y [<-|Hy]; auto.
    + intros y [<-|Hy]; auto.
Qed.

Lemma contains_nil (s : pystr) : contains [] s = true.
Proof. destruct s; reflexivity. Qed.

(** X16.  [get_section_guidance] returns the first review section, in
    playbook order, whose lower-cased title holds the lower-cased name: no
    section before it does; it returns [None] exactly when no section
    does; and a name that is empty once lower-cased gets the first section
    of the playbook. *)
Theorem section_guidance_is_first_match
    (h : host) (kb : DPAKnowledgeBase) (section_name : pystr) :
  let matches sec := contains (lower h section_name) (lower h (section sec)) in
  match get_section_guidance h kb section_name with
  | Some sec =>
      exists earlier later,
        review_sections (playbook kb) = earlier ++ sec :: later
        /\ matches sec = true
        /\ forall s, In s earlier -> matches s = false
  | None => forall s, In s (review_sections (playbook kb)) -> matches s = false
  end
  /\ (lower h section_name = [] ->
      get_section_guidance h kb section_name
      = hd_error (review_sections (playbook kb))).
Proof.
  cbv zeta. split.
  - unfold get_section_guidance. apply find_first.
  - intros E. unfold get_section_guidance. rewrite E.
    destruct (review_sections (playbook kb)) as [|s l]; [reflexivity|].
    cbn [List.find hd_error]. now rewrite contains_nil.
Qed.

Lemma section_guidance_is_first_match_witness :
  option_map section
    (get_section_guidance (sample_host unreachable) knowledge_base_init (str ""))
  = Some (str "1. Parties and Roles").
Proof.
  rewrite (proj2 (@section_guidance_is_first_match (sample_host unreachable)
                    knowledge_base_init (str "")) eq_refl).
  reflexivity.
Defined.

(** ** Recovery and surrounding white space *)









(** Where the [print] fails the white space counts: a reply of 499
    characters and a lone surrogate makes the block raise, and with one
    space before it the surrogate is no longer among the first 500
    characters and the degraded result is returned. *)
Lemma space_moves_surrogate_out_of_sight :
  parse_response (sample_host unreachable) (PStr (repeat 120%N 499 ++ [55296%N]))
  = Raise (OtherError
             (str "'utf-8' codec can't encode character '\ud800' in position 531: surrogates not allowed"))
  /\ parse_response (sample_host unreachable)
       (PStr (str " " ++ repeat 120%N 499 ++ [55296%N]))
     = Ok degraded_result.
Proof. split; vm_compute; reflexivity. Qed.

(** ** The upload endpoint *)

Section EndpointProperties.

Variable h : host.
Variable HTTPException_str : Z -> pystr -> pystr.

(** X18.  The endpoint never answers with the status 400 it raises for an
    unsupported file type: every exception of the handler, that one
    included, leaves as status 500 with a detail that starts with
    [Error analyzing DPA: ].  For a name ending in none of .pdf, .txt,
    .doc and .docx the detail holds the text of the 400 exception, and no
    request is posted.  A JSON body is returned only when the analysis
    succeeded, and holds the file name, the analysis and the status
    success. *)
Theorem upload_failures_are_500 (file : UploadFile) (w : world) :
  (forall status detail,
     fst (analyze_dpa h HTTPException_str file w) = HTTPException status detail ->
     status = 500%Z /\ exists m, detail = error_detail m)
  /\ (forall name,
        filename file = Some name ->
        endswith (str ".pdf") (lower h name) = false ->
        endswith (str ".txt") (lower h name) = false ->
        endswith (str ".doc") (lower h name) = false ->
        endswith (str ".docx") (lower h name) = false ->
        analyze_dpa h HTTPException_str file w
        = (HTTPException 500
             (error_detail
                (HTTPException_str 400
                   (str "Unsupported file type. Please upload PDF, TXT, DOC, or DOCX files."))),
           w))
  /\ (forall body,
        fst (analyze_dpa h HTTPException_str file w) = JSONBody body ->
        exists name content v,
          filename file = Some name /\ read file = Ok content
          /\ fst (analyze_document h analyzer_init content name w) = Ok v
          /\ body = PDict [ (str "filename", PStr name);
                            (str "analysis", v);
                            (str "status", PStr (str "success")) ]).
Proof.
  split; [|split].
  - intros status detail. unfold analyze_dpa.
    destruct (analyze_dpa_body h HTTPException_str file w) as [[body|e] w'];
      cbn [fst]; [discriminate|].
    intros H. injection H as <- <-. split; [reflexivity|].
    now exists (exn_str e).
  - intros name Hn H1 H2 H3 H4. unfold analyze_dpa, analyze_dpa_body.
    rewrite Hn, H1, H2, H3, H4. reflexivity.
  - intros body. unfold analyze_dpa, analyze_dpa_body.
    destruct (filename file) as [name|]; [|discriminate].
    destruct (negb _); [discriminate|].
    destruct (read file) as [content|e]; [|discriminate].
    destruct (analyze_document h analyzer_init content name w) as [[v|e] w'] eqn:E;
      cbn [fst bind]; [|discriminate].
    intros H. injection H as <-. exists name, content, v.
    rewrite E. repeat split.
Qed.

(** X19.  A file named [*.doc] passes the endpoint's check of the file
    type and is then refused by the analyzer: once read, it is answered
    with status 500 and the analyzer's message for an unsupported format,
    and no request is posted. *)
Theorem upload_of_doc_file_fails (file : UploadFile) (name : pystr)
    (content : bytes) (w : world) :
  filename file = Some name ->
  read file = Ok content ->
  endswith (str ".doc") (lower h name) = true ->
  endswith (str ".pdf") (lower h name) = false ->
  endswith (str ".docx") (lower h name) = false ->
  endswith (str ".txt") (lower h name) = false ->
  analyze_dpa h HTTPException_str file w
  = (HTTPException 500
       (str "Error analyzing DPA: Document analysis failed: Text extraction failed: Unsupported file format: "
        ++ name),
     w).
Proof.
  intros Hn Hr Hdoc Hpdf Hdocx Htxt.
  unfold analyze_dpa, analyze_dpa_body.
  rewrite Hn, Hr, Hdoc, Hpdf, Hdocx, Htxt. cbn [orb negb].
  unfold analyze_document, _extract_text. rewrite Hpdf, Hdocx, Htxt.
  reflexivity.
Qed.

End EndpointProperties.

Lemma upload_failures_are_500_witness :
  analyze_dpa (sample_host unreachable) sample_HTTPException_str
    {| filename := Some (str "photo.png"); read := Ok (ascii_bytes "PNG") |}
    fresh_world
  = (HTTPException 500
       (str "Error analyzing DPA: 400: Unsupported file type. Please upload PDF, TXT, DOC, or DOCX files."),
     fresh_world).
Proof.
  refine (proj1 (proj2 (@upload_failures_are_500 (sample_host unreachable)
                          sample_HTTPException_str
                          {| filename := Some (str "photo.png");
                             read := Ok (ascii_bytes "PNG") |}
                          fresh_world))
            (str "photo.png") _ _ _ _ _); reflexivity.
Defined.

Lemma upload_of_doc_file_fails_witness :
  analyze_dpa (sample_host unreachable) sample_HTTPException_str
    {| filename := Some (str "Contract.DOC"); read := Ok (ascii_bytes "binary") |}
    fresh_world
  = (HTTPException 500
       (str "Error analyzing DPA: Document analysis failed: Text extraction failed: Unsupported file format: Contract.DOC"),
     fresh_world).
Proof.
  refine (@upload_of_doc_file_fails (sample_host unreachable) sample_HTTPException_str
            {| filename := Some (str "Contract.DOC"); read := Ok (ascii_bytes "binary") |}
            (str "Contract.DOC") (ascii_bytes "binary") fresh_world _ _ _ _ _ _);
    reflexivity.
Defined.

(** ** Keywords that decide a category alone *)

(** X20.  In the categories data controller and data processor the
    two-word keyword adds nothing: the category is present exactly when
    the single word controller, respectively processor, occurs in the
    lower-cased text. *)
Theorem single_word_decides_category (text_lower : pystr) (keywords : list pystr) :
  (In (str "data controller", keywords) key_terms ->
   found text_lower keywords = contains (str "controller") text_lower)
  /\ (In (str "data processor", keywords) key_terms ->
      found text_lower keywords = contains (str "processor") text_lower).
Proof.
  assert (Hred : forall p k : pystr,
             found text_lower [p ++ k; k] = contains k text_lower).
  { intros p k. unfold found. cbn [existsb]. rewrite orb_false_r.
    destruct (contains (p ++ k) text_lower) eqn:E; [|reflexivity].
    apply contains_tail in E. now rewrite E. }
  split; intros H; simpl in H;
    repeat (destruct H as [H|H]; [try discriminate H|]); try contradiction;
    injection H as <-.
  - apply (Hred (str "data ") (str "controller")).
  - apply (Hred (str "data ") (str "processor")).
Qed.

Lemma single_word_decides_category_witness :
  found (str "the controller shall") [str "data controller"; str "controller"]
  = contains (str "controller") (str "the controller shall").
Proof.
  refine (proj1 (@single_word_decides_category (str "the controller shall")
                   [str "data controller"; str "controller"]) _).
  left. reflexivity.
Defined.
